(** * GitHub wrappers and document loaders: a shallow embedding

    The Go packages [documentloaders] (issue and file loaders), [github]
    (the API wrapper behind the agent tools) and [agents] (the toolkit over
    the wrapper) are embedded as Rocq functions.
    Go strings are byte strings, ints are [Z], [error] values are the text
    of [err.Error()], and the remote GitHub service is an abstract world
    reached through an explicit client interface. *)

From Stdlib Require Import String Ascii List ZArith NArith Lia Bool DecimalString.
From Stdlib Require Import PrimFloat.
From Stdlib Require Import DecimalPos.
Import ListNotations.

Open Scope list_scope.
Open Scope string_scope.

(* ================================================================== *)
(** ** Go's [unicode/utf8], [unicode], [strconv] and [strings]        *)
(* ================================================================== *)

Module utf8.

Definition RuneError : N := 65533.
Definition RuneSelf : N := 128.
Definition UTFMax : nat := 4.

(** The [first] table of the Go implementation: for a leading byte, the
    length of the sequence and the accepted range of the second byte. *)
Definition first (b : N) : option (nat * N * N) :=
  if (b <? 194)%N then None
  else if (b <=? 223)%N then Some (2%nat, 128%N, 191%N)
  else if (b =? 224)%N then Some (3%nat, 160%N, 191%N)
  else if (b =? 237)%N then Some (3%nat, 128%N, 159%N)
  else if (b <=? 239)%N then Some (3%nat, 128%N, 191%N)
  else if (b =? 240)%N then Some (4%nat, 144%N, 191%N)
  else if (b <=? 243)%N then Some (4%nat, 128%N, 191%N)
  else if (b =? 244)%N then Some (4%nat, 128%N, 143%N)
  else None.

Definition within (lo hi : N) (c : ascii) : bool :=
  ((lo <=? N_of_ascii c) && (N_of_ascii c <=? hi))%N.

Definition low6 (c : ascii) : N := N.land (N_of_ascii c) 63.

(** [DecodeRuneInString]: the first rune of [s] and its width in bytes. *)
Definition DecodeRuneInString (s : string) : N * nat :=
  match s with
  | EmptyString => (RuneError, 0)
  | String c0 t0 =>
    let b0 := N_of_ascii c0 in
    if (b0 <? RuneSelf)%N then (b0, 1)
    else match first b0 with
    | None => (RuneError, 1)
    | Some (sz, lo, hi) =>
      if (String.length s <? sz)%nat then (RuneError, 1)
      else match t0 with
      | EmptyString => (RuneError, 1)
      | String c1 t1 =>
        if negb (within lo hi c1) then (RuneError, 1)
        else if (sz <=? 2)%nat
        then (N.lor (N.shiftl (N.land b0 31) 6) (low6 c1), 2)
        else match t1 with
        | EmptyString => (RuneError, 1)
        | String c2 t2 =>
          if negb (within 128 191 c2) then (RuneError, 1)
          else if (sz <=? 3)%nat
          then (N.lor (N.shiftl (N.land b0 15) 12)
                  (N.lor (N.shiftl (low6 c1) 6) (low6 c2)), 3)
          else match t2 with
          | EmptyString => (RuneError, 1)
          | String c3 _ =>
            if negb (within 128 191 c3) then (RuneError, 1)
            else (N.lor (N.shiftl (N.land b0 7) 18)
                    (N.lor (N.shiftl (low6 c1) 12)
                       (N.lor (N.shiftl (low6 c2) 6) (low6 c3))), 4)
          end
        end
      end
    end
  end.

Definition RuneStart (c : ascii) : bool :=
  negb (N.land (N_of_ascii c) 192 =? 128)%N.

(** The suffix of [s] from byte offset [n] on, [s[n:]]. *)
Fixpoint skip (n : nat) (s : string) : string :=
  match n, s with
  | O, _ => s
  | S _, EmptyString => EmptyString
  | S k, String _ t => skip k t
  end.

(** The prefix of [s] of [n] bytes, [s[:n]]. *)
Fixpoint take (n : nat) (s : string) : string :=
  match n, s with
  | O, _ => EmptyString
  | S _, EmptyString => EmptyString
  | S k, String c t => String c (take k t)
  end.

(** The backward scan of [DecodeLastRuneInString]: from [start] down to
    [lim], the first index holding a rune start; [lim - 1] if none. *)
Fixpoint scanStart (steps : nat) (s : string) (start : Z) (lim : Z) : Z :=
  match steps with
  | O => start
  | S k =>
    if (start <? lim)%Z then start
    else match String.get (Z.to_nat start) s with
         | Some c => if RuneStart c then start else scanStart k s (start - 1) lim
         | None => start
         end
  end.

(** [DecodeLastRuneInString]: the last rune of [s] and its width. *)
Definition DecodeLastRuneInString (s : string) : N * nat :=
  let e := Z.of_nat (String.length s) in
  if (e =? 0)%Z then (RuneError, 0)
  else
    let start := (e - 1)%Z in
    match String.get (Z.to_nat start) s with
    | None => (RuneError, 0)
    | Some c =>
      if (N_of_ascii c <? RuneSelf)%N then (N_of_ascii c, 1)
      else
        let lim := Z.max 0 (e - Z.of_nat UTFMax) in
        let start := scanStart UTFMax s (start - 1) lim in
        let start := Z.max 0 start in
        let '(r, size) := DecodeRuneInString (skip (Z.to_nat start) s) in
        if (start + Z.of_nat size =? e)%Z then (r, size) else (RuneError, 1)
    end.

(** The runes of a string, as a [range] loop over it yields them. *)
Fixpoint runesFuel (fuel : nat) (s : string) : list N :=
  match fuel with
  | O => []
  | S k =>
    match s with
    | EmptyString => []
    | _ => let '(r, w) := DecodeRuneInString s in r :: runesFuel k (skip w s)
    end
  end.

Definition runes (s : string) : list N := runesFuel (String.length s) s.

(** The UTF-8 sequences of a string, invalid bytes sliced individually. *)
Fixpoint sequencesFuel (fuel : nat) (s : string) : list string :=
  match fuel with
  | O => []
  | S k =>
    match s with
    | EmptyString => []
    | _ => let '(_, w) := DecodeRuneInString s in
           take w s :: sequencesFuel k (skip w s)
    end
  end.

Definition sequences (s : string) : list string :=
  sequencesFuel (String.length s) s.

End utf8.

Module unicode.

(** [unicode.IsSpace]: the Latin-1 cases and the [White_Space] table. *)
Definition IsSpace (r : N) : bool :=
  if (r <=? 255)%N
  then ((9 <=? r) && (r <=? 13) || (r =? 32) || (r =? 133) || (r =? 160))%N
  else ((r =? 5760) || ((8192 <=? r) && (r <=? 8202)) || (r =? 8232)
        || (r =? 8233) || (r =? 8239) || (r =? 8287) || (r =? 12288))%N.

End unicode.

Module strconv.

(** [strconv.Itoa], also the [%d] verb of [fmt.Sprintf]. *)
Definition Itoa (n : Z) : string := NilZero.string_of_int (Z.to_int n).

(** The decimal value of a run of ASCII digits, most significant first. *)
Fixpoint digits (s : string) (acc : Z) : option Z :=
  match s with
  | EmptyString => Some acc
  | String c t =>
    let b := N_of_ascii c in
    if ((48 <=? b) && (b <=? 57))%N
    then digits t (10 * acc + Z.of_N (b - 48))
    else None
  end.

(** [strconv.Atoi] with a 64-bit [int]: an optional sign, then decimal
    digits only and at least one of them, and a value in range.  The
    error is left out, for its callers only compare it with [nil]. *)
Definition Atoi (s : string) : option Z :=
  let '(neg, body) :=
    match s with
    | String "-" t => (true, t)
    | String "+" t => (false, t)
    | _ => (false, s)
    end in
  match body with
  | EmptyString => None
  | _ =>
    match digits body 0 with
    | None => None
    | Some n =>
      let v := if neg then (- n)%Z else n in
      if ((- 2 ^ 63 <=? v) && (v <=? 2 ^ 63 - 1))%Z then Some v else None
    end
  end.

End strconv.

Module strings.

Import utf8.

Definition len (s : string) : Z := Z.of_nat (String.length s).

(** [strings.Index] as a natural number, when the substring occurs. *)
Fixpoint indexNat (s substr : string) {struct s} : option nat :=
  if String.prefix substr s then Some O
  else match s with
       | EmptyString => None
       | String _ t => option_map S (indexNat t substr)
       end.

Definition Index (s substr : string) : Z :=
  match indexNat s substr with
  | Some i => Z.of_nat i
  | None => (-1)%Z
  end.

Definition Contains (s substr : string) : bool := (0 <=? Index s substr)%Z.

Definition RuneCountInString (s : string) : Z := Z.of_nat (List.length (runes s)).

Fixpoint countLoop (fuel : nat) (s substr : string) : Z :=
  match fuel with
  | O => 0%Z
  | S k =>
    match indexNat s substr with
    | None => 0%Z
    | Some i => (1 + countLoop k (skip (i + String.length substr) s) substr)%Z
    end
  end.

Definition Count (s substr : string) : Z :=
  if String.eqb substr "" then (RuneCountInString s + 1)%Z
  else countLoop (String.length s) s substr.

Fixpoint explodeLoop (k : nat) (s : string) : list string :=
  match k with
  | O => [s]
  | S k' =>
    let '(_, size) := DecodeRuneInString s in
    take size s :: explodeLoop k' (skip size s)
  end.

Definition explode (s : string) (n : Z) : list string :=
  let l := RuneCountInString s in
  let n := if ((n <? 0) || (l <? n))%Z then l else n in
  if (0 <? n)%Z then explodeLoop (Z.to_nat (n - 1)) s else [].

(** The cutting loop of [genSplit]: at most [k] cuts, then the rest. *)
Fixpoint splitLoop (k : nat) (s sep : string) : list string :=
  match k with
  | O => [s]
  | S k' =>
    match indexNat s sep with
    | None => [s]
    | Some m => take m s :: splitLoop k' (skip (m + String.length sep) s) sep
    end
  end.

Definition genSplit (s sep : string) (n : Z) : list string :=
  if (n =? 0)%Z then []
  else if String.eqb sep "" then explode s n
  else
    let n := if (n <? 0)%Z then (Count s sep + 1)%Z else n in
    let n := if (len s + 1 <? n)%Z then (len s + 1)%Z else n in
    splitLoop (Z.to_nat (n - 1)) s sep.

Definition SplitN (s sep : string) (n : Z) : list string := genSplit s sep n.

Definition Split (s sep : string) : list string := genSplit s sep (-1).

Definition Join (elems : list string) (sep : string) : string :=
  String.concat sep elems.

(** *** Trimming *)

Definition byteOf (c : ascii) : N := N_of_ascii c.

Definition asciiSpace (c : ascii) : bool :=
  let b := byteOf c in
  (((9 <=? b) && (b <=? 13)) || (b =? 32))%N.

Fixpoint trimLeftLoop (fuel : nat) (s : string) (f : N -> bool) : string :=
  match fuel with
  | O => EmptyString
  | S k =>
    match s with
    | EmptyString => EmptyString
    | _ => let '(r, wid) := DecodeRuneInString s in
           if f r then trimLeftLoop k (skip wid s) f else s
    end
  end.

Definition TrimLeftFunc (s : string) (f : N -> bool) : string :=
  trimLeftLoop (String.length s) s f.

Fixpoint lastIndexFunc (fuel : nat) (s : string) (f : N -> bool)
    (truth : bool) (i : nat) : Z :=
  match fuel with
  | O => (-1)%Z
  | S k =>
    if (i =? 0)%nat then (-1)%Z
    else
      let '(r, size) := DecodeLastRuneInString (take i s) in
      let i' := (i - size)%nat in
      if Bool.eqb (f r) truth then Z.of_nat i' else lastIndexFunc k s f truth i'
  end.

Definition TrimRightFunc (s : string) (f : N -> bool) : string :=
  let i := lastIndexFunc (String.length s) s f false (String.length s) in
  let wide := match String.get (Z.to_nat i) s with
              | Some c => (RuneSelf <=? byteOf c)%N
              | None => false
              end in
  if ((0 <=? i)%Z && wide)%bool
  then let '(_, wid) := DecodeRuneInString (skip (Z.to_nat i) s) in
       take (Z.to_nat i + wid) s
  else take (Z.to_nat (i + 1)) s.

Definition TrimFunc (s : string) (f : N -> bool) : string :=
  TrimRightFunc (TrimLeftFunc s f) f.

(** The second loop of [TrimSpace]: [stop] walks down from the end. *)
Fixpoint trimSpaceStop (stop : nat) (s : string) : string :=
  match stop with
  | O => EmptyString
  | S k =>
    match String.get k s with
    | None => take stop s
    | Some c =>
      if (RuneSelf <=? byteOf c)%N then TrimRightFunc (take stop s) unicode.IsSpace
      else if asciiSpace c then trimSpaceStop k s
      else take stop s
    end
  end.

(** [strings.TrimSpace]: the ASCII fast path, falling back to the
    rune-wise functions at the first non-ASCII byte met. *)
Fixpoint TrimSpace (s : string) : string :=
  match s with
  | EmptyString => EmptyString
  | String c t =>
    if (RuneSelf <=? byteOf c)%N then TrimFunc s unicode.IsSpace
    else if asciiSpace c then TrimSpace t
    else trimSpaceStop (String.length s) s
  end.

Definition inBytes (cutset : string) (c : ascii) : bool :=
  existsb (Ascii.eqb c) (list_ascii_of_string cutset).

Definition isASCII (s : string) : bool :=
  forallb (fun c => (byteOf c <? RuneSelf)%N) (list_ascii_of_string s).

Fixpoint trimLeftASCII (s cutset : string) : string :=
  match s with
  | EmptyString => EmptyString
  | String c t => if inBytes cutset c then trimLeftASCII t cutset else s
  end.

Fixpoint trimRightStop (stop : nat) (s cutset : string) : string :=
  match stop with
  | O => EmptyString
  | S k =>
    match String.get k s with
    | None => take stop s
    | Some c => if inBytes cutset c then trimRightStop k s cutset else take stop s
    end
  end.

Definition trimRightASCII (s cutset : string) : string :=
  trimRightStop (String.length s) s cutset.

Definition ContainsRune (s : string) (r : N) : bool :=
  existsb (N.eqb r) (runes s).

Definition TrimLeftUnicode (s cutset : string) : string :=
  trimLeftLoop (String.length s) s (ContainsRune cutset).

Fixpoint trimRightUnicodeLoop (fuel : nat) (s cutset : string) : string :=
  match fuel with
  | O => s
  | S k =>
    match s with
    | EmptyString => s
    | _ => let '(r, n) := DecodeLastRuneInString s in
           if ContainsRune cutset r
           then trimRightUnicodeLoop k (take (String.length s - n) s) cutset
           else s
    end
  end.

Definition trimRightUnicode (s cutset : string) : string :=
  trimRightUnicodeLoop (String.length s) s cutset.

(** [strings.Trim]: all leading and trailing code points of [cutset]. *)
Definition Trim (s cutset : string) : string :=
  if (String.eqb s "" || String.eqb cutset "")%bool then s
  else if isASCII cutset then trimLeftASCII (trimRightASCII s cutset) cutset
  else TrimLeftUnicode (trimRightUnicode s cutset) cutset.

(** *** Replacing *)

(** The loop of [Replace] for a non-empty [old]: every non-overlapping
    occurrence, left to right. *)
Fixpoint replaceLoop (fuel : nat) (s old new : string) : string :=
  match fuel with
  | O => s
  | S k =>
    match indexNat s old with
    | None => s
    | Some j =>
      take j s ++ new ++ replaceLoop k (skip (j + String.length old) s) old new
    end
  end.

Definition ReplaceAll (s old new : string) : string :=
  if String.eqb old new then s
  else if String.eqb old ""
  then new ++ String.concat "" (map (fun q => q ++ new) (sequences s))
  else replaceLoop (String.length s) s old new.

(** [sub] occurs verbatim in [s]. *)
Definition Occurs (sub s : string) : Prop :=
  exists before after, s = before ++ sub ++ after.

(** An ASCII byte that is not white space: [TrimSpace] stops at it. *)
Definition tight (c : ascii) : bool :=
  ((byteOf c <? RuneSelf)%N && negb (asciiSpace c))%bool.

(** *** Fields *)

(** The ASCII path of [strings.Fields]: [rest] is [s] from index [i] on,
    [skipping] is true inside the loops that pass over spaces. *)
Fixpoint fieldsASCII (s rest : string) (fieldStart i : nat) (skipping : bool)
    : list string :=
  match rest with
  | EmptyString =>
    if (fieldStart <? String.length s)%nat then [skip fieldStart s] else []
  | String c t =>
    if skipping
    then if asciiSpace c then fieldsASCII s t (S i) (S i) true
         else fieldsASCII s t i (S i) false
    else if asciiSpace c
         then take (i - fieldStart) (skip fieldStart s)
              :: fieldsASCII s t (S i) (S i) true
         else fieldsASCII s t fieldStart (S i) false
  end.

(** The [range] loop of [strings.FieldsFunc]: [rest] is [s] from index
    [stop] on, [start] is negative outside a field. *)
Fixpoint fieldsFuncLoop (fuel : nat) (s rest : string) (f : N -> bool)
    (start : Z) (stop : nat) : list string :=
  let last := if (0 <=? start)%Z then [skip (Z.to_nat start) s] else [] in
  match fuel with
  | O => last
  | S k =>
    match rest with
    | EmptyString => last
    | _ =>
      let '(r, wid) := DecodeRuneInString rest in
      if f r
      then if (0 <=? start)%Z
           then take (stop - Z.to_nat start) (skip (Z.to_nat start) s)
                :: fieldsFuncLoop k s (skip wid rest) f (Z.lnot start) (stop + wid)
           else fieldsFuncLoop k s (skip wid rest) f start (stop + wid)
      else fieldsFuncLoop k s (skip wid rest) f
             (if (start <? 0)%Z then Z.of_nat stop else start) (stop + wid)
    end
  end.

Definition FieldsFunc (s : string) (f : N -> bool) : list string :=
  fieldsFuncLoop (String.length s) s s f (-1) 0.

(** [strings.Fields]: the fields between runs of white space. *)
Definition Fields (s : string) : list string :=
  if isASCII s then fieldsASCII s s 0 0 true
  else FieldsFunc s unicode.IsSpace.

End strings.

(* ================================================================== *)
(** ** Shared Go idioms                                               *)
(* ================================================================== *)

(** A Go [(T, error)] pair of which exactly one side is meaningful. *)
Inductive result (A : Type) : Type :=
| Ok (a : A)
| Err (e : string).

Arguments Ok {A} a.
Arguments Err {A} e.

Definition succeeds {A : Type} (r : result A) : Prop :=
  exists a, r = Ok a.

Definition isOk {A : Type} (r : result A) : bool :=
  match r with Ok _ => true | Err _ => false end.

(** A call that either returns or panics at run time. *)
Inductive outcome (A : Type) : Type :=
| Returns (a : A)
| Panics (msg : string).

Arguments Returns {A} a.
Arguments Panics {A} msg.

(** The process environment behind [os.Getenv]: unset reads as empty. *)
Definition Env : Type := string -> string.

Definition LF : string := String (ascii_of_nat 10) EmptyString.

(* ================================================================== *)
(** ** Package [documentloaders]                                      *)
(* ================================================================== *)

Module url.

(** [url.Values] with the order in which [Add] was called. *)
Definition Values : Type := list (string * string).

Definition Add (v : Values) (key value : string) : Values :=
  (v ++ [(key, value)])%list.

Definition unreserved (c : ascii) : bool :=
  let b := N_of_ascii c in
  (((97 <=? b) && (b <=? 122)) || ((65 <=? b) && (b <=? 90))
   || ((48 <=? b) && (b <=? 57))
   || (b =? 45) || (b =? 95) || (b =? 46) || (b =? 126))%N.

Definition upperhex (d : N) : ascii :=
  if (d <? 10)%N then ascii_of_N (48 + d) else ascii_of_N (55 + d).

(** [url.QueryEscape]. *)
Fixpoint QueryEscape (s : string) : string :=
  match s with
  | EmptyString => EmptyString
  | String c t =>
    if unreserved c then String c (QueryEscape t)
    else if (N_of_ascii c =? 32)%N then String "+" (QueryEscape t)
    else String "%" (String (upperhex (N.shiftr (N_of_ascii c) 4))
                       (String (upperhex (N.land (N_of_ascii c) 15))
                          (QueryEscape t)))
  end.

(** Keys in increasing byte order, values of one key in insertion order. *)
Fixpoint insertSorted (kv : string * string) (l : Values) : Values :=
  match l with
  | [] => [kv]
  | kv' :: rest =>
    if String.ltb (fst kv) (fst kv') then kv :: l
    else kv' :: insertSorted kv rest
  end.

Definition sortByKey (v : Values) : Values :=
  fold_left (fun acc kv => insertSorted kv acc) v [].

Definition Encode (v : Values) : string :=
  String.concat "&"
    (map (fun kv => QueryEscape (fst kv) ++ "=" ++ QueryEscape (snd kv))
         (sortByKey v)).

End url.

Module documentloaders.

(** What [encoding/json] decodes into an [interface{}]. *)
#[warnings="-register-all"]
Inductive JSON : Type :=
| JNull
| JBool (b : bool)
| JNumber (f : float)
| JString (s : string)
| JArray (elems : list JSON)
| JObject (fields : list (string * JSON)).

(** A [map[string]interface{}]: the first binding of a key is the one
    the map holds. *)
Definition Object : Type := list (string * JSON).

Fixpoint lookup (data : Object) (key : string) : option JSON :=
  match data with
  | [] => None
  | (k, v) :: rest => if String.eqb k key then Some v else lookup rest key
  end.

(** The values stored in a document's metadata map. *)
Inductive Value : Type :=
| VString (s : string)
| VFloat (f : float)
| VStrings (l : list string)
| VBool (b : bool).

Record Document : Type := {
  PageContent : string;
  Metadata : list (string * Value)
}.

Fixpoint metaLookup (m : list (string * Value)) (key : string) : option Value :=
  match m with
  | [] => None
  | (k, v) :: rest => if String.eqb k key then Some v else metaLookup rest key
  end.

Record GitHubIssuesLoader : Type := {
  Repo : string;
  AccessToken : string;
  GitHubAPIURL : string;
  IncludePRs : bool;
  Milestone : option string;
  State : string;
  Assignee : string;
  Creator : string;
  Mentioned : string;
  Labels : list string;
  Sort : string;
  Direction : string;
  Since : string;
  Page : option Z;
  PerPage : option Z
}.

Definition GitHubIssuesLoaderOption : Type :=
  GitHubIssuesLoader -> GitHubIssuesLoader.

Definition WithAccessToken (token : string) : GitHubIssuesLoaderOption :=
  fun l => {| Repo := Repo l; AccessToken := token;
              GitHubAPIURL := GitHubAPIURL l; IncludePRs := IncludePRs l;
              Milestone := Milestone l; State := State l;
              Assignee := Assignee l; Creator := Creator l;
              Mentioned := Mentioned l; Labels := Labels l; Sort := Sort l;
              Direction := Direction l; Since := Since l; Page := Page l;
              PerPage := PerPage l |}.

Definition WithIncludePRs (include : bool) : GitHubIssuesLoaderOption :=
  fun l => {| Repo := Repo l; AccessToken := AccessToken l;
              GitHubAPIURL := GitHubAPIURL l; IncludePRs := include;
              Milestone := Milestone l; State := State l;
              Assignee := Assignee l; Creator := Creator l;
              Mentioned := Mentioned l; Labels := Labels l; Sort := Sort l;
              Direction := Direction l; Since := Since l; Page := Page l;
              PerPage := PerPage l |}.

Definition WithState (state : string) : GitHubIssuesLoaderOption :=
  fun l => {| Repo := Repo l; AccessToken := AccessToken l;
              GitHubAPIURL := GitHubAPIURL l; IncludePRs := IncludePRs l;
              Milestone := Milestone l; State := state;
              Assignee := Assignee l; Creator := Creator l;
              Mentioned := Mentioned l; Labels := Labels l; Sort := Sort l;
              Direction := Direction l; Since := Since l; Page := Page l;
              PerPage := PerPage l |}.

Definition WithLabels (labels : list string) : GitHubIssuesLoaderOption :=
  fun l => {| Repo := Repo l; AccessToken := AccessToken l;
              GitHubAPIURL := GitHubAPIURL l; IncludePRs := IncludePRs l;
              Milestone := Milestone l; State := State l;
              Assignee := Assignee l; Creator := Creator l;
              Mentioned := Mentioned l; Labels := labels; Sort := Sort l;
              Direction := Direction l; Since := Since l; Page := Page l;
              PerPage := PerPage l |}.

Definition WithMilestone (milestone : string) : GitHubIssuesLoaderOption :=
  fun l => {| Repo := Repo l; AccessToken := AccessToken l;
              GitHubAPIURL := GitHubAPIURL l; IncludePRs := IncludePRs l;
              Milestone := Some milestone; State := State l;
              Assignee := Assignee l; Creator := Creator l;
              Mentioned := Mentioned l; Labels := Labels l; Sort := Sort l;
              Direction := Direction l; Since := Since l; Page := Page l;
              PerPage := PerPage l |}.

Definition WithAssignee (assignee : string) : GitHubIssuesLoaderOption :=
  fun l => {| Repo := Repo l; AccessToken := AccessToken l;
              GitHubAPIURL := GitHubAPIURL l; IncludePRs := IncludePRs l;
              Milestone := Milestone l; State := State l;
              Assignee := assignee; Creator := Creator l;
              Mentioned := Mentioned l; Labels := Labels l; Sort := Sort l;
              Direction := Direction l; Since := Since l; Page := Page l;
              PerPage := PerPage l |}.

Definition WithCreator (creator : string) : GitHubIssuesLoaderOption :=
  fun l => {| Repo := Repo l; AccessToken := AccessToken l;
              GitHubAPIURL := GitHubAPIURL l; IncludePRs := IncludePRs l;
              Milestone := Milestone l; State := State l;
              Assignee := Assignee l; Creator := creator;
              Mentioned := Mentioned l; Labels := Labels l; Sort := Sort l;
              Direction := Direction l; Since := Since l; Page := Page l;
              PerPage := PerPage l |}.

Definition WithSort (sort direction : string) : GitHubIssuesLoaderOption :=
  fun l => {| Repo := Repo l; AccessToken := AccessToken l;
              GitHubAPIURL := GitHubAPIURL l; IncludePRs := IncludePRs l;
              Milestone := Milestone l; State := State l;
              Assignee := Assignee l; Creator := Creator l;
              Mentioned := Mentioned l; Labels := Labels l; Sort := sort;
              Direction := direction; Since := Since l; Page := Page l;
              PerPage := PerPage l |}.

Definition WithSince (since : string) : GitHubIssuesLoaderOption :=
  fun l => {| Repo := Repo l; AccessToken := AccessToken l;
              GitHubAPIURL := GitHubAPIURL l; IncludePRs := IncludePRs l;
              Milestone := Milestone l; State := State l;
              Assignee := Assignee l; Creator := Creator l;
              Mentioned := Mentioned l; Labels := Labels l; Sort := Sort l;
              Direction := Direction l; Since := since; Page := Page l;
              PerPage := PerPage l |}.

Definition WithPagination (page perPage : Z) : GitHubIssuesLoaderOption :=
  fun l => {| Repo := Repo l; AccessToken := AccessToken l;
              GitHubAPIURL := GitHubAPIURL l; IncludePRs := IncludePRs l;
              Milestone := Milestone l; State := State l;
              Assignee := Assignee l; Creator := Creator l;
              Mentioned := Mentioned l; Labels := Labels l; Sort := Sort l;
              Direction := Direction l; Since := Since l; Page := Some page;
              PerPage := Some perPage |}.

(** [for _, opt := range opts { opt(loader) }] *)
Definition applyOptions {L : Type} (opts : list (L -> L)) (loader : L) : L :=
  fold_left (fun l opt => opt l) opts loader.

Definition NewGitHubIssuesLoader (getenv : Env) (repo : string)
    (opts : list GitHubIssuesLoaderOption) : result GitHubIssuesLoader :=
  if String.eqb repo "" then Err "repository cannot be empty"
  else
    let loader := {| Repo := repo;
                     AccessToken := getenv "GITHUB_PERSONAL_ACCESS_TOKEN";
                     GitHubAPIURL := "https://api.github.com";
                     IncludePRs := true;
                     Milestone := None; State := "open"; Assignee := "";
                     Creator := ""; Mentioned := ""; Labels := []; Sort := "";
                     Direction := ""; Since := ""; Page := None;
                     PerPage := None |} in
    if String.eqb (AccessToken loader) ""
    then Err "GITHUB_PERSONAL_ACCESS_TOKEN environment variable is required"
    else Ok (applyOptions opts loader).

Record GitHubFileLoader : Type := {
  FileRepo : string;
  FileAccessToken : string;
  FileGitHubAPIURL : string;
  Branch : string;
  FileFilter : option (string -> bool)
}.

Definition GitHubFileLoaderOption : Type :=
  GitHubFileLoader -> GitHubFileLoader.

Definition WithFileAccessToken (token : string) : GitHubFileLoaderOption :=
  fun l => {| FileRepo := FileRepo l; FileAccessToken := token;
              FileGitHubAPIURL := FileGitHubAPIURL l; Branch := Branch l;
              FileFilter := FileFilter l |}.

Definition WithBranch (branch : string) : GitHubFileLoaderOption :=
  fun l => {| FileRepo := FileRepo l; FileAccessToken := FileAccessToken l;
              FileGitHubAPIURL := FileGitHubAPIURL l; Branch := branch;
              FileFilter := FileFilter l |}.

Definition WithFileFilter (filter : string -> bool) : GitHubFileLoaderOption :=
  fun l => {| FileRepo := FileRepo l; FileAccessToken := FileAccessToken l;
              FileGitHubAPIURL := FileGitHubAPIURL l; Branch := Branch l;
              FileFilter := Some filter |}.

Definition NewGitHubFileLoader (getenv : Env) (repo : string)
    (opts : list GitHubFileLoaderOption) : result GitHubFileLoader :=
  if String.eqb repo "" then Err "repository cannot be empty"
  else
    let loader := {| FileRepo := repo;
                     FileAccessToken := getenv "GITHUB_PERSONAL_ACCESS_TOKEN";
                     FileGitHubAPIURL := "https://api.github.com";
                     Branch := "main";
                     FileFilter := None |} in
    if String.eqb (FileAccessToken loader) ""
    then Err "GITHUB_PERSONAL_ACCESS_TOKEN environment variable is required"
    else Ok (applyOptions opts loader).

(** *** Helper functions for parsing issue data *)

Definition getString (data : Object) (key : string) : string :=
  match lookup data key with
  | Some (JString str) => str
  | _ => ""
  end.

Definition getNestedString (data : Object) (parentKey childKey : string) : string :=
  match lookup data parentKey with
  | Some (JObject parent) => getString parent childKey
  | _ => ""
  end.

Definition getFloat64 (data : Object) (key : string) : float :=
  match lookup data key with
  | Some (JNumber num) => num
  | _ => 0%float
  end.

Definition getBool (data : Object) (key : string) : bool :=
  match lookup data key with
  | Some (JBool b) => b
  | _ => false
  end.

Definition extractLabels (issue : Object) : list string :=
  match lookup issue "labels" with
  | Some (JArray labels) =>
    flat_map (fun label =>
                match label with
                | JObject labelMap =>
                  let name := getString labelMap "name" in
                  if String.eqb name "" then [] else [name]
                | _ => []
                end) labels
  | _ => []
  end.

Definition getAssignee (issue : Object) : string :=
  match lookup issue "assignee" with
  | Some (JObject assignee) => getString assignee "login"
  | _ => ""
  end.

Definition getMilestone (issue : Object) : string :=
  match lookup issue "milestone" with
  | Some (JObject milestone) => getString milestone "title"
  | _ => ""
  end.

(** [issue["pull_request"] != nil] *)
Definition notNil (v : option JSON) : bool :=
  match v with
  | None | Some JNull => false
  | Some _ => true
  end.

Definition parseIssue (issue : Object) : Document :=
  let metadata :=
    [ ("url", VString (getString issue "html_url"));
      ("title", VString (getString issue "title"));
      ("creator", VString (getNestedString issue "user" "login"));
      ("created_at", VString (getString issue "created_at"));
      ("comments", VFloat (getFloat64 issue "comments"));
      ("state", VString (getString issue "state"));
      ("labels", VStrings (extractLabels issue));
      ("assignee", VString (getAssignee issue));
      ("milestone", VString (getMilestone issue));
      ("locked", VBool (getBool issue "locked"));
      ("number", VFloat (getFloat64 issue "number"));
      ("is_pull_request", VBool (notNil (lookup issue "pull_request"))) ] in
  let content := getString issue "body" in
  let content := if String.eqb content "" then getString issue "title"
                 else content in
  {| PageContent := content; Metadata := metadata |}.

(** The double quote, as a byte and as a string. *)
Definition dq : ascii := Eval cbv in ascii_of_nat 34.

Definition DQ : string := String dq EmptyString.

(** The Go raw string literal holding [rel="next"]. *)
Definition relNext : string := Eval cbv in ("rel=" ++ DQ ++ "next" ++ DQ).

(** The [for _, link := range links] loop of [getNextURL]. *)
Fixpoint nextAmong (links : list string) : string :=
  match links with
  | [] => ""
  | link :: rest =>
    let parts := strings.Split (strings.TrimSpace link) ";" in
    match parts with
    | [p0; p1] =>
      if strings.Contains p1 relNext
      then strings.Trim (strings.TrimSpace p0) "<>"
      else nextAmong rest
    | _ => nextAmong rest
    end
  end.

Definition getNextURL (linkHeader : string) : string :=
  if String.eqb linkHeader "" then ""
  else nextAmong (strings.Split linkHeader ",").

Definition buildURL (l : GitHubIssuesLoader) : string :=
  let baseURL := GitHubAPIURL l ++ "/repos/" ++ Repo l ++ "/issues" in
  let params : url.Values := [] in
  let params := match Milestone l with
                | Some m => url.Add params "milestone" m
                | None => params
                end in
  let params := if String.eqb (State l) "" then params
                else url.Add params "state" (State l) in
  let params := if String.eqb (Assignee l) "" then params
                else url.Add params "assignee" (Assignee l) in
  let params := if String.eqb (Creator l) "" then params
                else url.Add params "creator" (Creator l) in
  let params := if String.eqb (Mentioned l) "" then params
                else url.Add params "mentioned" (Mentioned l) in
  let params := match Labels l with
                | [] => params
                | _ => url.Add params "labels" (strings.Join (Labels l) ",")
                end in
  let params := if String.eqb (Sort l) "" then params
                else url.Add params "sort" (Sort l) in
  let params := if String.eqb (Direction l) "" then params
                else url.Add params "direction" (Direction l) in
  let params := if String.eqb (Since l) "" then params
                else url.Add params "since" (Since l) in
  let params := match Page l with
                | Some p => url.Add params "page" (strconv.Itoa p)
                | None => params
                end in
  let params := match PerPage l with
                | Some p => url.Add params "per_page" (strconv.Itoa p)
                | None => params
                end in
  match params with
  | [] => baseURL
  | _ => baseURL ++ "?" ++ url.Encode params
  end.

(** *** The HTTP exchange behind [Load] *)

Record Request : Type := {
  URL : string;
  Accept : string;
  Authorization : string
}.

(** What one [GET] comes to: the request could not be built, the round
    trip failed, or a response arrived, its body already run through
    [json.Decoder.Decode] into a slice of objects. *)
Inductive Exchange : Type :=
| BadRequest (e : string)
| Failed (e : string)
| Response (StatusCode : Z) (Status : string)
           (body : result (list Object)) (Link : string).

(** [doc.Metadata["is_pull_request"].(bool)] *)
Definition isPullRequest (doc : Document) : outcome bool :=
  match metaLookup (Metadata doc) "is_pull_request" with
  | Some (VBool b) => Returns b
  | _ => Panics "interface conversion: interface {} is not bool"
  end.

(** The [for _, issue := range issues] loop of [Load]. *)
Fixpoint appendIssues (l : GitHubIssuesLoader) (issues : list Object)
    (allDocs : list Document) : outcome (list Document) :=
  match issues with
  | [] => Returns allDocs
  | issue :: rest =>
    let doc := parseIssue issue in
    if negb (IncludePRs l)
    then match isPullRequest doc with
         | Panics msg => Panics msg
         | Returns true => appendIssues l rest allDocs
         | Returns false => appendIssues l rest (allDocs ++ [doc])%list
         end
    else appendIssues l rest (allDocs ++ [doc])%list
  end.

Definition explicitPage (l : GitHubIssuesLoader) : bool :=
  match Page l, PerPage l with
  | None, None => false
  | _, _ => true
  end.

Section Loading.

(** The server as [Load] sees it through [http.Client]. *)
Variable roundTrip : Request -> Exchange.

Definition request (l : GitHubIssuesLoader) (url : string) : Request :=
  {| URL := url;
     Accept := "application/vnd.github+json";
     Authorization := "Bearer " ++ AccessToken l |}.

(** The [for url != ""] loop of [Load]; [sent] lists the requests handed
    to the client so far.  [None]: the loop was still running when
    [fuel] iterations had been made. *)
Fixpoint loadLoop (fuel : nat) (l : GitHubIssuesLoader) (url : string)
    (allDocs : list Document) (sent : list Request)
    : option (outcome (result (list Document)) * list Request) :=
  if String.eqb url "" then Some (Returns (Ok allDocs), sent)
  else match fuel with
  | O => None
  | S fuel' =>
    let req := request l url in
    match roundTrip req with
    | BadRequest e =>
      Some (Returns (Err ("failed to create request: " ++ e)), sent)
    | Failed e =>
      Some (Returns (Err ("failed to fetch issues: " ++ e)), (sent ++ [req])%list)
    | Response code status body link =>
      let sent := (sent ++ [req])%list in
      if negb (code =? 200)%Z
      then Some (Returns (Err ("GitHub API error: " ++ status)), sent)
      else match body with
      | Err e => Some (Returns (Err ("failed to decode response: " ++ e)), sent)
      | Ok issues =>
        match appendIssues l issues allDocs with
        | Panics msg => Some (Panics msg, sent)
        | Returns allDocs =>
          if explicitPage l then Some (Returns (Ok allDocs), sent)
          else loadLoop fuel' l (getNextURL link) allDocs sent
        end
      end
    end
  end.

Definition Load (fuel : nat) (l : GitHubIssuesLoader)
    : option (outcome (result (list Document)) * list Request) :=
  loadLoop fuel l (buildURL l) [] [].

End Loading.

(** *** Vocabulary of the statements about [getNextURL] and [Load] *)

(** The header of the pagination example: a previous and a next page. *)
Definition prevNextHeader (url1 url2 : string) : string :=
  "<" ++ url1 ++ ">; rel=" ++ DQ ++ "prev" ++ DQ ++ ", <" ++ url2
  ++ ">; rel=" ++ DQ ++ "next" ++ DQ.

(** Whether [Load] keeps the document of an element: always, but for
    pull requests when [IncludePRs] is off. *)
Definition keeps (l : GitHubIssuesLoader) (issue : Object) : bool :=
  IncludePRs l || negb (notNil (lookup issue "pull_request")).

(** The documents one page contributes. *)
Definition pageDocs (l : GitHubIssuesLoader) (issues : list Object)
    : list Document :=
  map parseIssue (filter (keeps l) issues).

(** The documents a sequence of pages contributes, in order. *)
Definition walked (l : GitHubIssuesLoader)
    (pages : list (Request * list Object)) : list Document :=
  flat_map (fun p => pageDocs l (snd p)) pages.

(** A successful walk from [url]: every page answers 200 with a JSON
    array, each page but the last advertises the next page's URL, and the
    last one advertises none. *)
Inductive Walk (roundTrip : Request -> Exchange) (l : GitHubIssuesLoader)
    : string -> list (Request * list Object) -> Prop :=
| Walk_last (url status link : string) (issues : list Object) :
    url <> "" ->
    roundTrip (request l url) = Response 200 status (Ok issues) link ->
    getNextURL link = "" ->
    Walk roundTrip l url [(request l url, issues)]
| Walk_next (url status link : string) (issues : list Object)
            (pages : list (Request * list Object)) :
    url <> "" ->
    roundTrip (request l url) = Response 200 status (Ok issues) link ->
    Walk roundTrip l (getNextURL link) pages ->
    Walk roundTrip l url ((request l url, issues) :: pages).


(** *** The file loader *)

(** What one [GET] of the file loader comes to, the body of a response
    already run through [json.Decoder.Decode] into one object. *)
Inductive FileExchange : Type :=
| FileBadRequest (e : string)
| FileFailed (e : string)
| FileResponse (StatusCode : Z) (Status : string) (body : result Object).

(** A document of the file loader.  The values of its metadata are
    what the tree entry held, [None] for a key it does not have. *)
Record FileDocument : Type := {
  FilePageContent : string;
  FileMetadata : list (string * option JSON)
}.

Section FileLoading.

(** The server as the file loader sees it through [http.Client]. *)
Variable fetch : Request -> FileExchange.

(** [base64.StdEncoding.DecodeString] *)
Variable decodeString : string -> result string.

Definition fileRequest (l : GitHubFileLoader) (url : string) : Request :=
  {| URL := url;
     Accept := "application/vnd.github+json";
     Authorization := "Bearer " ++ FileAccessToken l |}.

(** The objects among the elements of the tree. *)
Fixpoint objectsOf (tree : list JSON) : list Object :=
  match tree with
  | [] => []
  | JObject file :: rest => file :: objectsOf rest
  | _ :: rest => objectsOf rest
  end.

Definition getFilePaths (l : GitHubFileLoader)
    : result (list Object) * list Request :=
  let url := FileGitHubAPIURL l ++ "/repos/" ++ FileRepo l ++ "/git/trees/"
             ++ Branch l ++ "?recursive=1" in
  let req := fileRequest l url in
  match fetch req with
  | FileBadRequest e => (Err ("failed to create request: " ++ e), [])
  | FileFailed e => (Err ("failed to fetch file tree: " ++ e), [req])
  | FileResponse code status body =>
    if negb (code =? 200)%Z
    then (Err ("GitHub API error: " ++ status), [req])
    else match body with
    | Err e => (Err ("failed to decode response: " ++ e), [req])
    | Ok result =>
      match lookup result "tree" with
      | Some (JArray tree) => (Ok (objectsOf tree), [req])
      | _ => (Err "invalid tree response format", [req])
      end
    end
  end.

Definition getFileContent (l : GitHubFileLoader) (path : string)
    : result string * list Request :=
  let queryParams := if String.eqb (Branch l) "" then ""
                     else "?ref=" ++ Branch l in
  let url := FileGitHubAPIURL l ++ "/repos/" ++ FileRepo l ++ "/contents/"
             ++ path ++ queryParams in
  let req := fileRequest l url in
  match fetch req with
  | FileBadRequest e => (Err ("failed to create request: " ++ e), [])
  | FileFailed e => (Err ("failed to fetch file content: " ++ e), [req])
  | FileResponse code status body =>
    if negb (code =? 200)%Z
    then (Err ("GitHub API error for file " ++ path ++ ": " ++ status), [req])
    else match body with
    | Err e => (Err ("failed to decode file content response: " ++ e), [req])
    | Ok result =>
      match lookup result "content" with
      | Some (JString contentEncoded) =>
        match decodeString (strings.ReplaceAll contentEncoded LF "") with
        | Err e => (Err ("failed to decode base64 content: " ++ e), [req])
        | Ok contentBytes => (Ok contentBytes, [req])
        end
      | _ => (Err "no content field in response", [req])
      end
    end
  end.

(** [file["type"] != "blob"] *)
Definition isBlob (file : Object) : bool :=
  match lookup file "type" with
  | Some (JString t) => String.eqb t "blob"
  | _ => false
  end.

(** [l.FileFilter != nil && !l.FileFilter(path)] *)
Definition filteredOut (l : GitHubFileLoader) (path : string) : bool :=
  match FileFilter l with
  | Some filter => negb (filter path)
  | None => false
  end.

Definition fileDocument (l : GitHubFileLoader) (file : Object)
    (path content : string) : FileDocument :=
  {| FilePageContent := content;
     FileMetadata :=
       [("path", Some (JString path));
        ("sha", lookup file "sha");
        ("source", Some (JString (FileGitHubAPIURL l ++ "/" ++ FileRepo l
                                  ++ "/" ++ "blob" ++ "/" ++ Branch l
                                  ++ "/" ++ path)))] |}.

(** The [for _, file := range files] loop of the file loader's [Load];
    [sent] lists the requests handed to the client so far. *)
Fixpoint loadFiles (l : GitHubFileLoader) (files : list Object)
    (docs : list FileDocument) (sent : list Request)
    : outcome (list FileDocument) * list Request :=
  match files with
  | [] => (Returns docs, sent)
  | file :: rest =>
    if negb (isBlob file) then loadFiles l rest docs sent
    else match lookup file "path" with
    | Some (JString path) =>
      if filteredOut l path then loadFiles l rest docs sent
      else
        let '(content, asked) := getFileContent l path in
        let sent := (sent ++ asked)%list in
        match content with
        | Err _ => loadFiles l rest docs sent
        | Ok content =>
          if String.eqb content "" then loadFiles l rest docs sent
          else loadFiles l rest
                 (docs ++ [fileDocument l file path content])%list sent
        end
    | _ => (Panics "interface conversion: interface {} is not string", sent)
    end
  end.

(** [Load] of the file loader. *)
Definition FileLoad (l : GitHubFileLoader)
    : outcome (result (list FileDocument)) * list Request :=
  match getFilePaths l with
  | (Err e, sent) => (Returns (Err e), sent)
  | (Ok files, sent) =>
    match loadFiles l files [] sent with
    | (Returns docs, sent) => (Returns (Ok docs), sent)
    | (Panics msg, sent) => (Panics msg, sent)
    end
  end.

End FileLoading.

(** *** Vocabulary of the statements about the file loader *)

(** The path under which [Load] of the file loader asks for a tree
    entry: that of a blob whose path is a string the filter lets through. *)
Definition wantedPath (l : GitHubFileLoader) (file : Object) : option string :=
  if isBlob file
  then match lookup file "path" with
       | Some (JString path) => if filteredOut l path then None else Some path
       | _ => None
       end
  else None.

(** A blob entry whose path is no string: [Load] panics when it gets there. *)
Definition brokenEntry (file : Object) : bool :=
  isBlob file && match lookup file "path" with
                 | Some (JString _) => false
                 | _ => true
                 end.

(** The documents a tree entry gives: one when it is wanted and its
    content is fetched, decoded and not empty, none otherwise. *)
Definition documentsOf (fetch : Request -> FileExchange)
    (decodeString : string -> result string) (l : GitHubFileLoader)
    (file : Object) : list FileDocument :=
  match wantedPath l file with
  | Some path =>
    match fst (getFileContent fetch decodeString l path) with
    | Ok content => if String.eqb content "" then []
                    else [fileDocument l file path content]
    | Err _ => []
    end
  | None => []
  end.

(** The requests made for a tree entry. *)
Definition requestsOf (fetch : Request -> FileExchange)
    (decodeString : string -> result string) (l : GitHubFileLoader)
    (file : Object) : list Request :=
  match wantedPath l file with
  | Some path => snd (getFileContent fetch decodeString l path)
  | None => []
  end.

End documentloaders.

(* ================================================================== *)
(** ** Package [github]: the API wrapper                              *)
(* ================================================================== *)

(** *** The go-github client, as far as the wrapper uses it *)

Module githubapi.

Record Repository : Type := { DefaultBranch : string }.

(** A git reference with the hash of the object it points at. *)
Record Reference : Type := { Ref : string; ObjectSHA : option string }.

(** A file as [Repositories.GetContents] returns it: what [GetContent]
    decodes it to, and its blob hash. *)
Record RepositoryContent : Type := {
  GetContent : result string;
  SHA : option string
}.

Record RepositoryContentFileOptions : Type := {
  Message : string;
  Content : option string;
  Branch : string;
  FileSHA : option string
}.

(** The remote service is a value of an abstract type [World]; reading
    calls observe it, writing calls answer with an optional error and the
    world they leave behind. *)
Record Client (World : Type) : Type := {
  RepositoriesGet : World -> string -> string -> result Repository;
  RepositoriesListBranches : World -> string -> string -> result (list string);
  RepositoriesGetContents :
    World -> string -> string -> string -> string -> result RepositoryContent;
  GitGetRef : World -> string -> string -> string -> result Reference;
  GitCreateRef : World -> string -> string -> Reference -> option string * World;
  RepositoriesCreateFile :
    World -> string -> string -> string -> RepositoryContentFileOptions ->
    option string * World;
  RepositoriesUpdateFile :
    World -> string -> string -> string -> RepositoryContentFileOptions ->
    option string * World;
  RepositoriesDeleteFile :
    World -> string -> string -> string -> RepositoryContentFileOptions ->
    option string * World
}.

Arguments RepositoriesGet {World} _ _ _ _.
Arguments RepositoriesListBranches {World} _ _ _ _.
Arguments RepositoriesGetContents {World} _ _ _ _ _ _.
Arguments GitGetRef {World} _ _ _ _ _.
Arguments GitCreateRef {World} _ _ _ _ _.
Arguments RepositoriesCreateFile {World} _ _ _ _ _ _.
Arguments RepositoriesUpdateFile {World} _ _ _ _ _ _.
Arguments RepositoriesDeleteFile {World} _ _ _ _ _ _.

(** *** Issues, pull requests, search and releases *)

(** A user; an absent one is [None], whose login reads as empty. *)
Record User : Type := { Login : string }.

Definition GetLogin (u : option User) : string :=
  match u with
  | Some u => Login u
  | None => ""
  end.

Record Issue : Type := {
  IssueTitle : string;
  IssueNumber : Z;
  IssueBody : string;
  IssueState : string;
  IssueUser : option User;
  IsPullRequest : bool
}.

Record IssueComment : Type := {
  CommentBody : string;
  CommentUser : option User
}.

Record PullRequest : Type := {
  PullTitle : string;
  PullNumber : Z;
  PullBody : string;
  PullCommits : Z;
  PullComments : Z
}.

Record RepositoryCommit : Type := { CommitMessage : string }.

Record NewPullRequest : Type := {
  NewTitle : string;
  NewBody : string;
  Head : string;
  Base : string
}.

(** An entry of a directory as [Repositories.GetContents] lists it. *)
Record DirectoryEntry : Type := {
  EntryType : string;
  EntryPath : string
}.

Record IssuesSearchResult : Type := {
  IssuesTotal : Z;
  IssuesFound : list Issue
}.

Record CodeResult : Type := { CodePath : string }.

Record CodeSearchResult : Type := {
  CodeTotal : Z;
  CodeFound : list CodeResult
}.

Record RepositoryRelease : Type := {
  ReleaseName : string;
  ReleaseTagName : string;
  ReleaseBody : string
}.

(** The services of the client besides those of [Client], over the same
    [World].  [RepositoriesGetDirectory] is the directory side of
    [Repositories.GetContents]. *)
Record Services (World : Type) : Type := {
  IssuesListByRepo : World -> string -> string -> string -> result (list Issue);
  IssuesGet : World -> string -> string -> Z -> result Issue;
  IssuesListComments :
    World -> string -> string -> Z -> Z -> result (list IssueComment);
  IssuesCreateComment :
    World -> string -> string -> Z -> string -> option string * World;
  PullRequestsList :
    World -> string -> string -> string -> result (list PullRequest);
  PullRequestsGet : World -> string -> string -> Z -> result PullRequest;
  PullRequestsListCommits :
    World -> string -> string -> Z -> Z -> result (list RepositoryCommit);
  PullRequestsCreate :
    World -> string -> string -> NewPullRequest -> result PullRequest * World;
  SearchIssues : World -> string -> Z -> result IssuesSearchResult;
  SearchCode : World -> string -> Z -> result CodeSearchResult;
  RepositoriesGetLatestRelease :
    World -> string -> string -> result RepositoryRelease;
  RepositoriesListReleases :
    World -> string -> string -> Z -> result (list RepositoryRelease);
  RepositoriesGetReleaseByTag :
    World -> string -> string -> string -> result RepositoryRelease;
  RepositoriesGetDirectory :
    World -> string -> string -> string -> string -> result (list DirectoryEntry)
}.

Arguments IssuesListByRepo {World} _ _ _ _ _.
Arguments IssuesGet {World} _ _ _ _ _.
Arguments IssuesListComments {World} _ _ _ _ _ _.
Arguments IssuesCreateComment {World} _ _ _ _ _ _.
Arguments PullRequestsList {World} _ _ _ _ _.
Arguments PullRequestsGet {World} _ _ _ _ _.
Arguments PullRequestsListCommits {World} _ _ _ _ _ _.
Arguments PullRequestsCreate {World} _ _ _ _ _.
Arguments SearchIssues {World} _ _ _ _.
Arguments SearchCode {World} _ _ _ _.
Arguments RepositoriesGetLatestRelease {World} _ _ _ _.
Arguments RepositoriesListReleases {World} _ _ _ _ _.
Arguments RepositoriesGetReleaseByTag {World} _ _ _ _ _.
Arguments RepositoriesGetDirectory {World} _ _ _ _ _ _.

End githubapi.

Module github.

Import githubapi.

(** The remote calls a wrapper method issues, in order, each writing
    call with the answer it got. *)
Inductive Call : Type :=
| GetRepository (owner repo : string)
| ListBranches (owner repo : string)
| GetContents (owner repo path ref : string)
| GetRef (owner repo ref : string)
| CreateRef (owner repo : string) (ref : Reference) (err : option string)
| CreateFileCall (owner repo path : string)
                 (opts : RepositoryContentFileOptions) (err : option string)
| UpdateFileCall (owner repo path : string)
                 (opts : RepositoryContentFileOptions) (err : option string)
| DeleteFileCall (owner repo path : string)
                 (opts : RepositoryContentFileOptions) (err : option string).

Definition isWrite (c : Call) : bool :=
  match c with
  | CreateRef _ _ _ _ | CreateFileCall _ _ _ _ _
  | UpdateFileCall _ _ _ _ _ | DeleteFileCall _ _ _ _ _ => true
  | _ => false
  end.

(** The calls that write under [/contents]: create, update, delete. *)
Definition isFileWrite (c : Call) : bool :=
  match c with
  | CreateFileCall _ _ _ _ _ | UpdateFileCall _ _ _ _ _
  | DeleteFileCall _ _ _ _ _ => true
  | _ => false
  end.

Record Config : Type := {
  Repository : string;
  AppID : string;
  PrivateKey : string;
  ActiveBranch : string;
  GitHubBaseBranch : string
}.

Section Wrapper.

Variable World : Type.

Record GitHubAPIWrapper : Type := {
  client : Client World;
  repo : githubapi.Repository;
  owner : string;
  repoName : string;
  activeBranch : string;
  githubBaseBranch : string;
  appID : string;
  privateKey : string
}.

(** [githubapi.NewClient] over an [oauth2] transport holding the token. *)
Variable NewClient : string -> Client World.

(** [&Config{}] *)
Definition emptyConfig : Config :=
  {| Repository := ""; AppID := ""; PrivateKey := "";
     ActiveBranch := ""; GitHubBaseBranch := "" |}.

(** [config.X = os.Getenv(name)] when [config.X] is empty. *)
Definition orEnv (getenv : Env) (value name : string) : string :=
  if String.eqb value "" then getenv name else value.

Definition NewGitHubAPIWrapper (getenv : Env) (world : World)
    (config : option Config) : result GitHubAPIWrapper * list Call :=
  let config := match config with
                | Some c => c
                | None => emptyConfig
                end in
  let repository := orEnv getenv (Repository config) "GITHUB_REPOSITORY" in
  let appId := orEnv getenv (AppID config) "GITHUB_APP_ID" in
  let key := orEnv getenv (PrivateKey config) "GITHUB_APP_PRIVATE_KEY" in
  if String.eqb repository "" then (Err "GITHUB_REPOSITORY is required", [])
  else if String.eqb appId "" then (Err "GITHUB_APP_ID is required", [])
  else if String.eqb key "" then (Err "GITHUB_APP_PRIVATE_KEY is required", [])
  else match strings.Split repository "/" with
  | [owner; repoName] =>
    let client := NewClient key in
    match RepositoriesGet client world owner repoName with
    | Err e => (Err ("failed to get repository: " ++ e),
                [GetRepository owner repoName])
    | Ok repo =>
      let base := if String.eqb (GitHubBaseBranch config) ""
                  then DefaultBranch repo else GitHubBaseBranch config in
      let active := if String.eqb (ActiveBranch config) ""
                    then DefaultBranch repo else ActiveBranch config in
      (Ok {| client := client; repo := repo; owner := owner;
             repoName := repoName; activeBranch := active;
             githubBaseBranch := base; appID := appId; privateKey := key |},
       [GetRepository owner repoName])
    end
  | _ => (Err ("invalid repository format: " ++ repository
               ++ " (expected owner/repo)"), [])
  end.

(** *** Methods: the receiver, the remote world and the calls made *)

Record Session : Type := {
  self : GitHubAPIWrapper;
  remote : World;
  calls : list Call
}.

Definition M (A : Type) : Type := Session -> A * Session.

Definition ret {A : Type} (a : A) : M A := fun s => (a, s).

Definition bind {A B : Type} (m : M A) (k : A -> M B) : M B :=
  fun s => let '(a, s') := m s in k a s'.

Notation "x <- m ;; k" := (bind m (fun x => k))
  (at level 61, m at next level, right associativity).

Definition this : M GitHubAPIWrapper := fun s => (self s, s).

(** [w.activeBranch = name] *)
Definition assignActiveBranch (name : string) : M unit :=
  fun s =>
    let w := self s in
    (tt, {| self := {| client := client w; repo := repo w; owner := owner w;
                       repoName := repoName w; activeBranch := name;
                       githubBaseBranch := githubBaseBranch w;
                       appID := appID w; privateKey := privateKey w |};
            remote := remote s; calls := calls s |}).

Definition reading {A : Type} (c : Call) (f : World -> A) : M A :=
  fun s => (f (remote s),
            {| self := self s; remote := remote s;
               calls := (calls s ++ [c])%list |}).

Definition writing (c : option string -> Call)
    (f : World -> option string * World) : M (option string) :=
  fun s => let '(err, world) := f (remote s) in
           (err, {| self := self s; remote := world;
                    calls := (calls s ++ [c err])%list |}).

Definition getContents (w : GitHubAPIWrapper) (path ref : string)
    : M (result RepositoryContent) :=
  reading (GetContents (owner w) (repoName w) path ref)
          (fun world => RepositoriesGetContents (client w) world
                          (owner w) (repoName w) path ref).

(** The [%v] verb on a [[]string]. *)
Definition fmtStrings (l : list string) : string :=
  "[" ++ strings.Join l " " ++ "]".

Definition SetActiveBranch (branchName : string) : M (string * option string) :=
  w <- this ;;
  r <- reading (ListBranches (owner w) (repoName w))
               (fun world => RepositoriesListBranches (client w) world
                               (owner w) (repoName w)) ;;
  match r with
  | Err e => ret ("", Some ("failed to list branches: " ++ e))
  | Ok branches =>
    let '(branchNames, branchExists) :=
      fold_left (fun '(names, found) name =>
                   ((names ++ [name])%list,
                    if String.eqb name branchName then true else found))
                branches ([], false) in
    if negb branchExists
    then ret ("Error " ++ branchName
              ++ " does not exist, in repo with current branches: "
              ++ fmtStrings branchNames, None)
    else _ <- assignActiveBranch branchName ;;
         ret ("Switched to branch `" ++ branchName ++ "`", None)
  end.

(** The [for i := 0; i < 1000; i++] loop of [CreateBranch], [n]
    iterations from [i] on. *)
Fixpoint createLoop (n : nat) (i : Z) (proposedBranchName newBranchName : string)
    (sha : option string) : M (string * option string) :=
  match n with
  | O =>
    ret ("Unable to create branch. At least 1000 branches exist with named derived from proposed_branch_name: `"
         ++ proposedBranchName ++ "`", None)
  | S n' =>
    w <- this ;;
    let ref := {| Ref := "refs/heads/" ++ newBranchName; ObjectSHA := sha |} in
    err <- writing (CreateRef (owner w) (repoName w) ref)
                   (fun world => GitCreateRef (client w) world
                                   (owner w) (repoName w) ref) ;;
    match err with
    | None =>
      _ <- assignActiveBranch newBranchName ;;
      ret ("Branch '" ++ newBranchName
           ++ "' created successfully, and set as current active branch.", None)
    | Some e =>
      if strings.Contains e "Reference already exists"
      then createLoop n' (i + 1) proposedBranchName
             (proposedBranchName ++ "_v" ++ strconv.Itoa (i + 1)) sha
      else ret ("", Some ("failed to create branch: " ++ e))
    end
  end.

Definition CreateBranch (proposedBranchName : string) : M (string * option string) :=
  w <- this ;;
  r <- reading (GetRef (owner w) (repoName w) ("refs/heads/" ++ githubBaseBranch w))
               (fun world => GitGetRef (client w) world (owner w) (repoName w)
                               ("refs/heads/" ++ githubBaseBranch w)) ;;
  match r with
  | Err e => ret ("", Some ("failed to get base branch: " ++ e))
  | Ok baseBranch =>
    createLoop 1000 0 proposedBranchName proposedBranchName (ObjectSHA baseBranch)
  end.

Definition ReadFile (filePath : string) : M (string * option string) :=
  w <- this ;;
  r <- getContents w filePath (activeBranch w) ;;
  match r with
  | Err e => ret ("File not found `" ++ filePath ++ "` on branch `"
                  ++ activeBranch w ++ "`. Error: " ++ e, None)
  | Ok fileContent =>
    match GetContent fileContent with
    | Err e => ret ("Failed to decode file content: " ++ e, None)
    | Ok content => ret (content, None)
    end
  end.

Definition protectedBranch (w : GitHubAPIWrapper) : string :=
  "You're attempting to commit to the directly to the " ++ githubBaseBranch w
  ++ " branch, which is protected. Please create a new branch and try again.".

Definition CreateFile (fileQuery : string) : M (string * option string) :=
  w <- this ;;
  if String.eqb (activeBranch w) (githubBaseBranch w)
  then ret (protectedBranch w, None)
  else match strings.SplitN fileQuery LF 2 with
  | filePath :: fileContents :: _ =>
    r <- getContents w filePath (activeBranch w) ;;
    match r with
    | Ok _ => ret ("File already exists at `" ++ filePath ++ "` on branch `"
                   ++ activeBranch w
                   ++ "`. You must use `update_file` to modify it.", None)
    | Err _ =>
      let opts := {| Message := "Create " ++ filePath;
                     Content := Some fileContents;
                     Branch := activeBranch w; FileSHA := None |} in
      err <- writing (CreateFileCall (owner w) (repoName w) filePath opts)
                     (fun world => RepositoriesCreateFile (client w) world
                                     (owner w) (repoName w) filePath opts) ;;
      match err with
      | Some e => ret ("Unable to make file due to error:" ++ LF ++ e, None)
      | None => ret ("Created file " ++ filePath, None)
      end
    end
  | _ => ret ("Invalid file format", None)
  end.

(** The slice expression [s[lo:hi]], which panics out of range. *)
Definition slice (s : string) (lo hi : Z) : outcome string :=
  if ((0 <=? lo) && (lo <=? hi) && (hi <=? strings.len s))%Z
  then Returns (utf8.take (Z.to_nat (hi - lo)) (utf8.skip (Z.to_nat lo) s))
  else Panics "slice bounds out of range".

Definition notUpdated : string :=
  "File content was not updated because old content was not found. It may be helpful to use the read_file action to get the current file contents.".

Definition UpdateFile (fileQuery : string)
    : M (outcome (string * option string)) :=
  w <- this ;;
  if String.eqb (activeBranch w) (githubBaseBranch w)
  then ret (Returns (protectedBranch w, None))
  else match strings.Split fileQuery LF with
  | [] => ret (Returns ("Invalid file format", None))
  | filePath :: rest =>
    let content := strings.Join rest LF in
    let oldStartIdx := strings.Index content "OLD <<<<" in
    let oldEndIdx := strings.Index content ">>>> OLD" in
    let newStartIdx := strings.Index content "NEW <<<<" in
    let newEndIdx := strings.Index content ">>>> NEW" in
    if ((oldStartIdx =? -1) || (oldEndIdx =? -1)
        || (newStartIdx =? -1) || (newEndIdx =? -1))%Z
    then ret (Returns ("Invalid update format: missing OLD <<<< ... >>>> OLD or NEW <<<< ... >>>> NEW markers", None))
    else match slice content (oldStartIdx + 8) oldEndIdx with
    | Panics msg => ret (Panics msg)
    | Returns oldBlock =>
      let oldContent := strings.TrimSpace oldBlock in
      match slice content (newStartIdx + 8) newEndIdx with
      | Panics msg => ret (Panics msg)
      | Returns newBlock =>
        let newContent := strings.TrimSpace newBlock in
        read <- ReadFile filePath ;;
        match read with
        | (_, Some e) => ret (Returns ("Failed to read current file: " ++ e, None))
        | (currentContent, None) =>
          let updatedContent :=
            strings.ReplaceAll currentContent oldContent newContent in
          if String.eqb currentContent updatedContent
          then ret (Returns (notUpdated, None))
          else
            r <- getContents w filePath (activeBranch w) ;;
            match r with
            | Err e => ret (Returns ("Failed to get file SHA: " ++ e, None))
            | Ok fileContent =>
              let opts := {| Message := "Update " ++ filePath;
                             Content := Some updatedContent;
                             Branch := activeBranch w;
                             FileSHA := SHA fileContent |} in
              err <- writing (UpdateFileCall (owner w) (repoName w) filePath opts)
                             (fun world => RepositoriesUpdateFile (client w) world
                                             (owner w) (repoName w) filePath opts) ;;
              match err with
              | Some e => ret (Returns ("Unable to update file due to error:"
                                        ++ LF ++ e, None))
              | None => ret (Returns ("Updated file " ++ filePath, None))
              end
            end
        end
      end
    end
  end.

Definition DeleteFile (filePath : string) : M (string * option string) :=
  w <- this ;;
  if String.eqb (activeBranch w) (githubBaseBranch w)
  then ret (protectedBranch w, None)
  else
    r <- getContents w filePath (activeBranch w) ;;
    match r with
    | Err e => ret ("Unable to delete file due to error:" ++ LF ++ e, None)
    | Ok fileContent =>
      let opts := {| Message := "Delete " ++ filePath; Content := None;
                     Branch := activeBranch w; FileSHA := SHA fileContent |} in
      err <- writing (DeleteFileCall (owner w) (repoName w) filePath opts)
                     (fun world => RepositoriesDeleteFile (client w) world
                                     (owner w) (repoName w) filePath opts) ;;
      match err with
      | Some e => ret ("Unable to delete file due to error:" ++ LF ++ e, None)
      | None => ret ("Deleted file " ++ filePath, None)
      end
    end.

End Wrapper.

Arguments client {World} _.
Arguments repo {World} _.
Arguments owner {World} _.
Arguments repoName {World} _.
Arguments activeBranch {World} _.
Arguments githubBaseBranch {World} _.
Arguments appID {World} _.
Arguments privateKey {World} _.
Arguments self {World} _.
Arguments remote {World} _.
Arguments calls {World} _.
Arguments NewGitHubAPIWrapper {World} _ _ _ _.
Arguments protectedBranch {World} _.
Arguments ReadFile {World} _ _.
Arguments SetActiveBranch {World} _ _.
Arguments createLoop {World} _ _ _ _ _ _.
Arguments CreateBranch {World} _ _.
Arguments CreateFile {World} _ _.
Arguments UpdateFile {World} _ _.
Arguments DeleteFile {World} _ _.

(** *** Vocabulary of the statements about the wrapper *)

(** The name tried at attempt [k]: the proposed name, then [_v1], [_v2], ... *)
Definition candidate (proposed : string) (k : nat) : string :=
  match k with
  | O => proposed
  | S _ => proposed ++ "_v" ++ strconv.Itoa (Z.of_nat k)
  end.

(** The answer to a creation attempt is the already-exists conflict. *)
Definition conflict (err : option string) : bool :=
  match err with
  | Some e => strings.Contains e "Reference already exists"
  | None => false
  end.

(** The creation attempt number [k] of [CreateBranch] and its answer. *)
Definition attempt {World : Type} (w : GitHubAPIWrapper World)
    (proposed : string) (sha : option string) (p : nat * option string) : Call :=
  CreateRef (owner w) (repoName w)
            {| Ref := "refs/heads/" ++ candidate proposed (fst p);
               ObjectSHA := sha |} (snd p).

(** A creation call that the remote accepted. *)
Definition created (c : Call) : bool :=
  match c with
  | CreateRef _ _ _ None => true
  | _ => false
  end.

Definition withActiveBranch {World : Type} (w : GitHubAPIWrapper World)
    (name : string) : GitHubAPIWrapper World :=
  {| client := client w; repo := repo w; owner := owner w;
     repoName := repoName w; activeBranch := name;
     githubBaseBranch := githubBaseBranch w;
     appID := appID w; privateKey := privateKey w |}.

(** The answer to a call carries no error. *)
Definition isNil (err : option string) : bool :=
  match err with None => true | Some _ => false end.

(** The branch a call about a file names. *)
Definition branchOf (c : Call) : option string :=
  match c with
  | GetContents _ _ _ ref => Some ref
  | CreateFileCall _ _ _ opts _ | UpdateFileCall _ _ _ opts _
  | DeleteFileCall _ _ _ opts _ => Some (Branch opts)
  | _ => None
  end.

(** Every call a method makes from session [s] names [branch]. *)
Definition targets {World A : Type} (op : Session World -> A * Session World)
    (s : Session World) (branch : string) : Prop :=
  exists new, calls (snd (op s)) = (calls s ++ new)%list
              /\ Forall (fun c => branchOf c = Some branch) new.

(** What a well-formed [update_file] payload asks for: the path on its
    first line and the trimmed OLD and NEW blocks, read exactly as
    [UpdateFile] reads them.  [None] when a marker is missing or closes
    before it opens. *)
Definition updateRequest (fileQuery : string) : option (string * string * string) :=
  match strings.Split fileQuery LF with
  | [] => None
  | filePath :: rest =>
    let content := strings.Join rest LF in
    let oldStartIdx := strings.Index content "OLD <<<<" in
    let oldEndIdx := strings.Index content ">>>> OLD" in
    let newStartIdx := strings.Index content "NEW <<<<" in
    let newEndIdx := strings.Index content ">>>> NEW" in
    if ((oldStartIdx =? -1) || (oldEndIdx =? -1)
        || (newStartIdx =? -1) || (newEndIdx =? -1))%Z
    then None
    else match slice content (oldStartIdx + 8) oldEndIdx,
               slice content (newStartIdx + 8) newEndIdx with
         | Returns oldBlock, Returns newBlock =>
           Some (filePath, strings.TrimSpace oldBlock, strings.TrimSpace newBlock)
         | _, _ => None
         end
  end.

(** *** The remaining methods and the [Run] dispatcher *)

(** A call to one of the [Services], a writing call with its answer. *)
Inductive ServiceCall : Type :=
| ListIssues (owner repo state : string)
| GetIssueCall (owner repo : string) (number : Z)
| ListComments (owner repo : string) (number perPage : Z)
| CreateComment (owner repo : string) (number : Z) (body : string)
                (err : option string)
| ListPulls (owner repo state : string)
| GetPull (owner repo : string) (number : Z)
| ListCommits (owner repo : string) (number perPage : Z)
| CreatePull (owner repo : string) (new : NewPullRequest) (err : option string)
| SearchIssuesCall (query : string) (perPage : Z)
| SearchCodeCall (query : string) (perPage : Z)
| LatestRelease (owner repo : string)
| ListReleases (owner repo : string) (perPage : Z)
| ReleaseByTag (owner repo tag : string).

Definition isServiceWrite (c : ServiceCall) : bool :=
  match c with
  | CreateComment _ _ _ _ _ | CreatePull _ _ _ _ => true
  | _ => false
  end.

(** [Issue] of this package: what [ParseIssues] keeps of an issue. *)
Record ParsedIssue : Type := {
  Title : string;
  Number : Z;
  OpenedBy : string
}.

(** [PullRequest] of this package. *)
Record ParsedPullRequest : Type := {
  PRTitle : string;
  PRNumber : Z;
  Commits : string;
  Comments : string
}.

(** A value of a [map[string]interface{}] built by [GetIssue] and
    [GetPullRequest]. *)
Inductive Field : Type :=
| Text (s : string)
| Int (n : Z).

(** The [%+v] verb on a [[]Issue] and on a [[]PullRequest]. *)
Definition fmtIssues (l : list ParsedIssue) : string :=
  "[" ++ strings.Join
           (map (fun i => "{Title:" ++ Title i ++ " Number:"
                          ++ strconv.Itoa (Number i) ++ " OpenedBy:"
                          ++ OpenedBy i ++ "}") l) " " ++ "]".

Definition fmtPullRequests (l : list ParsedPullRequest) : string :=
  "[" ++ strings.Join
           (map (fun p => "{Title:" ++ PRTitle p ++ " Number:"
                          ++ strconv.Itoa (PRNumber p) ++ " Commits:"
                          ++ Commits p ++ " Comments:" ++ Comments p ++ "}") l)
           " " ++ "]".

Definition ParseIssues (issues : list githubapi.Issue) : list ParsedIssue :=
  map (fun issue =>
         {| Title := IssueTitle issue; Number := IssueNumber issue;
            OpenedBy := match IssueUser issue with
                        | Some u => Login u
                        | None => ""
                        end |}) issues.

Definition ParsePullRequests (prs : list githubapi.PullRequest)
    : list ParsedPullRequest :=
  map (fun pr =>
         {| PRTitle := PullTitle pr; PRNumber := PullNumber pr;
            Commits := strconv.Itoa (PullCommits pr);
            Comments := strconv.Itoa (PullComments pr) |}) prs.

Section Services.

Variable World : Type.

(** The services of [w.client] that [Client] leaves out. *)
Variable services : Services World.

(** [encoding/json]'s encoding of a string, quotes included. *)
Variable jsonString : string -> string.

(** [json.Marshal]: a string-keyed map comes out with its keys sorted, a
    nil slice as [null]. *)
Definition marshalField (f : Field) : string :=
  match f with
  | Text s => jsonString s
  | Int n => strconv.Itoa n
  end.

Definition marshalMap (m : list (string * Field)) : string :=
  "{" ++ strings.Join
           (map (fun kv => jsonString (fst kv) ++ ":" ++ snd kv)
                (url.sortByKey (map (fun kv => (fst kv, marshalField (snd kv))) m)))
           "," ++ "}".

Definition marshalStrings (l : list string) : string :=
  match l with
  | [] => "null"
  | _ => "[" ++ strings.Join (map jsonString l) "," ++ "]"
  end.

Definition marshalMaps (l : list (list (string * Field))) : string :=
  match l with
  | [] => "null"
  | _ => "[" ++ strings.Join (map marshalMap l) "," ++ "]"
  end.

(** The wrapper with the world and its two call logs. *)
Record Desk : Type := {
  session : Session World;
  served : list ServiceCall
}.

Definition D (A : Type) : Type := Desk -> A * Desk.

Definition pure {A : Type} (a : A) : D A := fun d => (a, d).

Definition andThen {A B : Type} (m : D A) (k : A -> D B) : D B :=
  fun d => let '(a, d') := m d in k a d'.

Notation "x <~ m ;; k" := (andThen m (fun x => k))
  (at level 61, m at next level, right associativity).

(** A method of the first part, run at the desk. *)
Definition lift {A : Type} (m : Session World -> A * Session World) : D A :=
  fun d => let '(a, s) := m (session d) in
           (a, {| session := s; served := served d |}).

Definition receiver : D (GitHubAPIWrapper World) :=
  fun d => (self (session d), d).

Definition asking {A : Type} (c : ServiceCall) (f : World -> A) : D A :=
  fun d => (f (remote (session d)),
            {| session := session d; served := (served d ++ [c])%list |}).

Definition telling {A : Type} (c : A -> ServiceCall) (f : World -> A * World)
    : D A :=
  fun d => let '(a, world) := f (remote (session d)) in
           (a, {| session := {| self := self (session d); remote := world;
                                calls := calls (session d) |};
                  served := (served d ++ [c a])%list |}).

Definition errorOf {A : Type} (r : result A) : option string :=
  match r with
  | Ok _ => None
  | Err e => Some e
  end.

Definition GetIssues : D (string * option string) :=
  w <~ receiver ;;
  r <~ asking (ListIssues (owner w) (repoName w) "open")
              (fun world => IssuesListByRepo services world
                              (owner w) (repoName w) "open") ;;
  match r with
  | Err e => pure ("", Some ("failed to fetch issues: " ++ e))
  | Ok issues =>
    let filteredIssues := filter (fun issue => negb (IsPullRequest issue)) issues in
    match filteredIssues with
    | [] => pure ("No open issues available", None)
    | _ =>
      let parsed := ParseIssues filteredIssues in
      pure ("Found " ++ strconv.Itoa (Z.of_nat (List.length parsed))
            ++ " issues:" ++ LF ++ fmtIssues parsed, None)
    end
  end.

Definition ListOpenPullRequests : D (string * option string) :=
  w <~ receiver ;;
  r <~ asking (ListPulls (owner w) (repoName w) "open")
              (fun world => PullRequestsList services world
                              (owner w) (repoName w) "open") ;;
  match r with
  | Err e => pure ("", Some ("failed to fetch pull requests: " ++ e))
  | Ok [] => pure ("No open pull requests available", None)
  | Ok prs =>
    let parsed := ParsePullRequests prs in
    pure ("Found " ++ strconv.Itoa (Z.of_nat (List.length parsed))
          ++ " pull requests:" ++ LF ++ fmtPullRequests parsed, None)
  end.

Definition ListBranchesInRepo : D (string * option string) :=
  w <~ receiver ;;
  r <~ lift (reading World (ListBranches (owner w) (repoName w))
               (fun world => RepositoriesListBranches (client w) world
                               (owner w) (repoName w))) ;;
  match r with
  | Err e => pure ("", Some ("failed to list branches: " ++ e))
  | Ok [] => pure ("No branches found in the repository", None)
  | Ok branchNames =>
    pure ("Found " ++ strconv.Itoa (Z.of_nat (List.length branchNames))
          ++ " branches in the repository:" ++ LF
          ++ strings.Join branchNames LF, None)
  end.

(** [listFiles], its recursion bounded by [fuel]: [None] when the
    directories nest deeper than that. *)
Fixpoint listFiles (fuel : nat) (path branch : string)
    : D (option (result (list string))) :=
  match fuel with
  | O => pure None
  | S k =>
    w <~ receiver ;;
    r <~ lift (reading World (GetContents (owner w) (repoName w) path branch)
                 (fun world => RepositoriesGetDirectory services world
                                 (owner w) (repoName w) path branch)) ;;
    match r with
    | Err e => pure (Some (Err e))
    | Ok contents =>
      (fix each (contents : list DirectoryEntry) (files : list string)
         : D (option (result (list string))) :=
         match contents with
         | [] => pure (Some (Ok files))
         | content :: rest =>
           if String.eqb (EntryType content) "dir"
           then
             sub <~ listFiles k (EntryPath content) branch ;;
             match sub with
             | None => pure None
             | Some (Err _) => each rest files
             | Some (Ok subFiles) => each rest (files ++ subFiles)%list
             end
           else each rest (files ++ [EntryPath content])%list
         end) contents []
    end
  end.

Definition ListFilesInMainBranch (fuel : nat) : D (option (string * option string)) :=
  w <~ receiver ;;
  r <~ listFiles fuel "" (githubBaseBranch w) ;;
  match r with
  | None => pure None
  | Some (Err e) =>
    pure (Some ("", Some ("failed to list files in main branch: " ++ e)))
  | Some (Ok []) => pure (Some ("No files found in the main branch", None))
  | Some (Ok files) =>
    pure (Some ("Found " ++ strconv.Itoa (Z.of_nat (List.length files))
                ++ " files in the main branch:" ++ LF ++ strings.Join files LF,
                None))
  end.

Definition ListFilesInBotBranch (fuel : nat) : D (option (string * option string)) :=
  w <~ receiver ;;
  r <~ listFiles fuel "" (activeBranch w) ;;
  match r with
  | None => pure None
  | Some (Err e) => pure (Some ("Error: " ++ e, None))
  | Some (Ok []) =>
    pure (Some ("No files found in branch: `" ++ activeBranch w ++ "`", None))
  | Some (Ok files) =>
    pure (Some ("Found " ++ strconv.Itoa (Z.of_nat (List.length files))
                ++ " files in branch `" ++ activeBranch w ++ "`:" ++ LF
                ++ strings.Join files LF, None))
  end.

Definition GetFilesFromDirectory (fuel : nat) (directoryPath : string)
    : D (option (string * option string)) :=
  w <~ receiver ;;
  r <~ listFiles fuel directoryPath (activeBranch w) ;;
  match r with
  | None => pure None
  | Some (Err e) => pure (Some ("Error: " ++ e, None))
  | Some (Ok files) => pure (Some (strings.Join files LF, None))
  end.

Definition GetIssue (issueNumber : Z) : D (result (list (string * Field))) :=
  w <~ receiver ;;
  r <~ asking (GetIssueCall (owner w) (repoName w) issueNumber)
              (fun world => IssuesGet services world
                              (owner w) (repoName w) issueNumber) ;;
  match r with
  | Err e => pure (Err ("failed to get issue: " ++ e))
  | Ok issue =>
    c <~ asking (ListComments (owner w) (repoName w) issueNumber 10)
                (fun world => IssuesListComments services world
                                (owner w) (repoName w) issueNumber 10) ;;
    match c with
    | Err e => pure (Err ("failed to get comments: " ++ e))
    | Ok comments =>
      let commentsList :=
        map (fun comment => [("body", Text (CommentBody comment));
                             ("user", Text (GetLogin (CommentUser comment)))])
            comments in
      let openedBy := match IssueUser issue with
                      | Some u => Login u
                      | None => ""
                      end in
      let commentsJSON := marshalMaps commentsList in
      pure (Ok [("number", Int issueNumber);
                ("title", Text (IssueTitle issue));
                ("body", Text (IssueBody issue));
                ("comments", Text commentsJSON);
                ("opened_by", Text openedBy)])
    end
  end.

Definition GetPullRequest (prNumber : Z) : D (result (list (string * Field))) :=
  w <~ receiver ;;
  r <~ asking (GetPull (owner w) (repoName w) prNumber)
              (fun world => PullRequestsGet services world
                              (owner w) (repoName w) prNumber) ;;
  match r with
  | Err e => pure (Err ("failed to get pull request: " ++ e))
  | Ok pr =>
    let result := [("title", Text (PullTitle pr));
                   ("number", Text (strconv.Itoa prNumber));
                   ("body", Text (PullBody pr))] in
    c <~ asking (ListComments (owner w) (repoName w) prNumber 10)
                (fun world => IssuesListComments services world
                                (owner w) (repoName w) prNumber 10) ;;
    let result :=
      match c with
      | Ok comments =>
        let commentsList :=
          map (fun comment =>
                 marshalMap [("body", Text (CommentBody comment));
                             ("user", Text (GetLogin (CommentUser comment)))])
              comments in
        (result ++ [("comments", Text (marshalStrings commentsList))])%list
      | Err _ => result
      end in
    m <~ asking (ListCommits (owner w) (repoName w) prNumber 10)
                (fun world => PullRequestsListCommits services world
                                (owner w) (repoName w) prNumber 10) ;;
    let result :=
      match m with
      | Ok commits =>
        let commitsList :=
          map (fun commit => marshalMap [("message", Text (CommitMessage commit))])
              commits in
        (result ++ [("commits", Text (marshalStrings commitsList))])%list
      | Err _ => result
      end in
    pure (Ok result)
  end.

Definition CreatePullRequest (prQuery : string) : D (string * option string) :=
  w <~ receiver ;;
  if String.eqb (githubBaseBranch w) (activeBranch w)
  then pure ("Cannot make a pull request because commits are already in the main or master branch.", None)
  else match strings.Split prQuery LF with
  | [] => pure ("Invalid PR query format", None)
  | title :: rest =>
    let body := match rest with
                | _ :: third :: more => strings.Join (third :: more) LF
                | _ => ""
                end in
    let newPR := {| NewTitle := title; NewBody := body;
                    Head := activeBranch w; Base := githubBaseBranch w |} in
    r <~ telling (fun r => CreatePull (owner w) (repoName w) newPR (errorOf r))
                 (fun world => PullRequestsCreate services world
                                 (owner w) (repoName w) newPR) ;;
    match r with
    | Err e => pure ("Unable to make pull request due to error:" ++ LF ++ e, None)
    | Ok pr => pure ("Successfully created PR number "
                     ++ strconv.Itoa (PullNumber pr), None)
    end
  end.

Definition CommentOnIssue (commentQuery : string) : D (string * option string) :=
  w <~ receiver ;;
  match strings.SplitN commentQuery (LF ++ LF) 2 with
  | [first; comment] =>
    match strconv.Atoi first with
    | None => pure ("Invalid issue number: " ++ first, None)
    | Some issueNumber =>
      err <~ telling (CreateComment (owner w) (repoName w) issueNumber comment)
                     (fun world => IssuesCreateComment services world
                                     (owner w) (repoName w) issueNumber comment) ;;
      match err with
      | Some e => pure ("Unable to make comment due to error:" ++ LF ++ e, None)
      | None => pure ("Commented on issue " ++ strconv.Itoa issueNumber, None)
      end
    end
  | _ => pure ("Invalid comment format", None)
  end.

(** [maxResults] of the two searches. *)
Definition maxResults (total : Z) : Z :=
  if (total <? 5)%Z then total else 5%Z.

Definition SearchIssuesAndPRs (query : string) : D (string * option string) :=
  w <~ receiver ;;
  let searchQuery := query ++ " repo:" ++ owner w ++ "/" ++ repoName w in
  r <~ asking (SearchIssuesCall searchQuery 5)
              (fun world => SearchIssues services world searchQuery 5) ;;
  match r with
  | Err e => pure ("Search failed: " ++ e, None)
  | Ok result =>
    if (IssuesTotal result =? 0)%Z then pure ("0 results found.", None)
    else
      let results :=
        ("Top " ++ strconv.Itoa (maxResults (IssuesTotal result)) ++ " results:")
        :: map (fun issue => "Title: " ++ IssueTitle issue ++ ", Number: "
                             ++ strconv.Itoa (IssueNumber issue) ++ ", State: "
                             ++ IssueState issue)
               (firstn (Z.to_nat (maxResults (IssuesTotal result)))
                       (IssuesFound result)) in
      pure (strings.Join results LF, None)
  end.

(** The loop of [SearchCode] over the results it shows. *)
Fixpoint readEach (codes : list CodeResult) (results : list string)
    : D (list string) :=
  match codes with
  | [] => pure results
  | code :: rest =>
    read <~ lift (ReadFile (CodePath code)) ;;
    let content := match read with
                   | (_, Some err) => "Error reading file: " ++ err
                   | (content, None) => content
                   end in
    let shown := "Filepath: `" ++ CodePath code ++ "`" ++ LF
                 ++ "File contents: " ++ content ++ LF ++ "<END OF FILE>" in
    readEach rest (results ++ [shown])%list
  end.

Definition SearchCode (query : string) : D (string * option string) :=
  w <~ receiver ;;
  let searchQuery := query ++ " repo:" ++ owner w ++ "/" ++ repoName w in
  r <~ asking (SearchCodeCall searchQuery 5)
              (fun world => githubapi.SearchCode services world searchQuery 5) ;;
  match r with
  | Err e => pure ("Search failed: " ++ e, None)
  | Ok result =>
    if (CodeTotal result =? 0)%Z then pure ("0 results found.", None)
    else
      results <~ readEach
                   (firstn (Z.to_nat (maxResults (CodeTotal result)))
                           (CodeFound result))
                   ["Showing top " ++ strconv.Itoa (maxResults (CodeTotal result))
                    ++ " of " ++ strconv.Itoa (CodeTotal result) ++ " results:"] ;;
      pure (strings.Join results LF, None)
  end.

Definition GetLatestRelease : D (string * option string) :=
  w <~ receiver ;;
  r <~ asking (LatestRelease (owner w) (repoName w))
              (fun world => RepositoriesGetLatestRelease services world
                              (owner w) (repoName w)) ;;
  match r with
  | Err e => pure ("Failed to get latest release: " ++ e, None)
  | Ok release =>
    pure ("Latest title: " ++ ReleaseName release ++ " tag: "
          ++ ReleaseTagName release ++ " body: " ++ ReleaseBody release, None)
  end.

Definition GetReleases : D (string * option string) :=
  w <~ receiver ;;
  r <~ asking (ListReleases (owner w) (repoName w) 5)
              (fun world => RepositoriesListReleases services world
                              (owner w) (repoName w) 5) ;;
  match r with
  | Err e => pure ("Failed to get releases: " ++ e, None)
  | Ok [] => pure ("No releases found.", None)
  | Ok releases =>
    let results :=
      ("Top " ++ strconv.Itoa (Z.of_nat (List.length releases)) ++ " results:")
      :: map (fun release => "Title: " ++ ReleaseName release ++ ", Tag: "
                             ++ ReleaseTagName release ++ ", Body: "
                             ++ ReleaseBody release) releases in
    pure (strings.Join results LF, None)
  end.

Definition GetRelease (tagName : string) : D (string * option string) :=
  w <~ receiver ;;
  r <~ asking (ReleaseByTag (owner w) (repoName w) tagName)
              (fun world => RepositoriesGetReleaseByTag services world
                              (owner w) (repoName w) tagName) ;;
  match r with
  | Err e => pure ("Failed to get release: " ++ e, None)
  | Ok release =>
    pure ("Release: " ++ ReleaseName release ++ " tag: "
          ++ ReleaseTagName release ++ " body: " ++ ReleaseBody release, None)
  end.

(** What a call of [Run] comes to: it returns its pair, panics, or, in
    the model only, runs out of [fuel] while listing directories. *)
Definition returned (m : D (string * option string))
    : D (option (outcome (string * option string))) :=
  r <~ m ;; pure (Some (Returns r)).

Definition bounded (m : D (option (string * option string)))
    : D (option (outcome (string * option string))) :=
  r <~ m ;; pure (option_map Returns r).

Definition Run (fuel : nat) (mode query : string)
    : D (option (outcome (string * option string))) :=
  if String.eqb mode "get_issue" then
    match strconv.Atoi query with
    | None => pure (Some (Returns ("", Some ("invalid issue number: " ++ query))))
    | Some issueNum =>
      r <~ GetIssue issueNum ;;
      match r with
      | Err e => pure (Some (Returns ("", Some e)))
      | Ok result => pure (Some (Returns (marshalMap result, None)))
      end
    end
  else if String.eqb mode "get_pull_request" then
    match strconv.Atoi query with
    | None => pure (Some (Returns ("", Some ("invalid PR number: " ++ query))))
    | Some prNum =>
      r <~ GetPullRequest prNum ;;
      match r with
      | Err e => pure (Some (Returns ("", Some e)))
      | Ok result => pure (Some (Returns (marshalMap result, None)))
      end
    end
  else if String.eqb mode "get_issues" then returned GetIssues
  else if String.eqb mode "comment_on_issue" then returned (CommentOnIssue query)
  else if String.eqb mode "create_file" then returned (lift (CreateFile query))
  else if String.eqb mode "create_pull_request"
  then returned (CreatePullRequest query)
  else if String.eqb mode "read_file" then returned (lift (ReadFile query))
  else if String.eqb mode "update_file"
  then r <~ lift (UpdateFile query) ;; pure (Some r)
  else if String.eqb mode "delete_file" then returned (lift (DeleteFile query))
  else if String.eqb mode "list_open_pull_requests"
  then returned ListOpenPullRequests
  else if String.eqb mode "list_files_in_main_branch"
  then bounded (ListFilesInMainBranch fuel)
  else if String.eqb mode "list_files_in_bot_branch"
  then bounded (ListFilesInBotBranch fuel)
  else if String.eqb mode "list_branches_in_repo" then returned ListBranchesInRepo
  else if String.eqb mode "set_active_branch"
  then returned (lift (SetActiveBranch query))
  else if String.eqb mode "create_branch" then returned (lift (CreateBranch query))
  else if String.eqb mode "get_files_from_directory"
  then bounded (GetFilesFromDirectory fuel query)
  else if String.eqb mode "search_issues_and_prs"
  then returned (SearchIssuesAndPRs query)
  else if String.eqb mode "search_code" then returned (SearchCode query)
  else if String.eqb mode "get_latest_release" then returned GetLatestRelease
  else if String.eqb mode "get_releases" then returned GetReleases
  else if String.eqb mode "get_release" then returned (GetRelease query)
  else pure (Some (Returns ("", Some ("invalid mode: " ++ mode)))).

End Services.

Arguments session {World} _.
Arguments served {World} _.
Arguments pure {World A} _ _.
Arguments andThen {World A B} _ _ _.
Arguments lift {World A} _ _.
Arguments receiver {World} _.
Arguments asking {World A} _ _ _.
Arguments telling {World A} _ _ _.
Arguments GetIssues {World} _ _.
Arguments ListOpenPullRequests {World} _ _.
Arguments ListBranchesInRepo {World} _.
Arguments listFiles {World} _ _ _ _ _.
Arguments ListFilesInMainBranch {World} _ _ _.
Arguments ListFilesInBotBranch {World} _ _ _.
Arguments GetFilesFromDirectory {World} _ _ _ _.
Arguments GetIssue {World} _ _ _ _.
Arguments GetPullRequest {World} _ _ _ _.
Arguments CreatePullRequest {World} _ _ _.
Arguments CommentOnIssue {World} _ _ _.
Arguments SearchIssuesAndPRs {World} _ _ _.
Arguments readEach {World} _ _ _.
Arguments SearchCode {World} _ _ _.
Arguments GetLatestRelease {World} _ _.
Arguments GetReleases {World} _ _.
Arguments GetRelease {World} _ _ _.
Arguments returned {World} _ _.
Arguments bounded {World} _ _.
Arguments Run {World} _ _ _ _ _ _.

(** *** Vocabulary of the statements about [Run] *)

(** The modes [Run] has a case for. *)
Definition modes : list string :=
  ["get_issue"; "get_pull_request"; "get_issues"; "comment_on_issue";
   "create_file"; "create_pull_request"; "read_file"; "update_file";
   "delete_file"; "list_open_pull_requests"; "list_files_in_main_branch";
   "list_files_in_bot_branch"; "list_branches_in_repo"; "set_active_branch";
   "create_branch"; "get_files_from_directory"; "search_issues_and_prs";
   "search_code"; "get_latest_release"; "get_releases"; "get_release"].

(** The modes whose methods call a writing endpoint. *)
Definition writeModes : list string :=
  ["comment_on_issue"; "create_file"; "create_pull_request"; "update_file";
   "delete_file"; "create_branch"].

(** The modes whose methods put every failure into the text. *)
Definition softModes : list string :=
  ["comment_on_issue"; "create_file"; "create_pull_request"; "read_file";
   "update_file"; "delete_file"; "list_files_in_bot_branch";
   "get_files_from_directory"; "search_issues_and_prs"; "search_code";
   "get_latest_release"; "get_releases"; "get_release"].

(** A computation that leaves the wrapper as it found it. *)
Definition keepsWrapper {World A : Type} (op : D World A) : Prop :=
  forall d, self (session (snd (op d))) = self (session d).

(** A computation that leaves the remote as it found it and logs no
    writing call. *)
Definition readsOnly {World A : Type} (op : D World A) : Prop :=
  forall d,
    remote (session (snd (op d))) = remote (session d)
    /\ filter isWrite (calls (session (snd (op d))))
       = filter isWrite (calls (session d))
    /\ filter isServiceWrite (served (snd (op d)))
       = filter isServiceWrite (served d).

(** A method whose error is always nil. *)
Definition nilError {World : Type} (op : D World (string * option string)) : Prop :=
  forall d, snd (fst (op d)) = None.

(** Directories nest at most [n] deep below [path] on [branch]. *)
Fixpoint shallow {World : Type} (services : Services World) (world : World)
    (owner repo branch : string) (n : nat) (path : string) : Prop :=
  match RepositoriesGetDirectory services world owner repo path branch with
  | Err _ => True
  | Ok contents =>
    match n with
    | O => forall entry, In entry contents -> EntryType entry <> "dir"
    | S k => forall entry, In entry contents -> EntryType entry = "dir" ->
                           shallow services world owner repo branch k
                                   (EntryPath entry)
    end
  end.

(** The modes whose methods can return an error. *)
Definition hardModes : list string :=
  ["get_issue"; "get_pull_request"; "get_issues"; "list_open_pull_requests";
   "list_files_in_main_branch"; "list_branches_in_repo"; "set_active_branch";
   "create_branch"].

(** A method whose error, when there is one, comes with an empty text
    and begins with [failed to]. *)
Definition failsPlainly {World : Type} (op : D World (string * option string))
    : Prop :=
  forall d e, snd (fst (op d)) = Some e ->
              fst (fst (op d)) = "" /\ exists what, e = "failed to " ++ what.

End github.


(* ================================================================== *)
(** ** Package [agents]                                               *)
(* ================================================================== *)

Module agents.

Import githubapi github.

Definition QUOTE : string := String (ascii_of_nat 34) EmptyString.

(** A tool of the toolkit.  The [wrapper] every tool points at is the
    one of the desk its [Call] runs at. *)
Record GitHubAgentTool : Type := {
  name : string;
  description : string;
  mode : string
}.

Record GitHubAgentToolkitOptions : Type := { IncludeReleaseTools : bool }.

Record GitHubAgentToolkit : Type := {
  includeReleaseTools : bool;
  tools : list GitHubAgentTool
}.

(** The tools [createTools] always appends, in its order. *)
Definition coreTools : list GitHubAgentTool :=
  [{| name := "Get Issues";
     description :=
       "This tool will fetch a list of the repository's issues. It will "
       ++ "return the title, and issue number of 5 issues. It takes no input.";
     mode := "get_issues" |};
   {| name := "Get Issue";
     description :=
       "This tool will fetch the title, body, and comment thread of a "
       ++ "specific issue. **VERY IMPORTANT**: You must specify the issue "
       ++ "number as an integer.";
     mode := "get_issue" |};
   {| name := "Comment on Issue";
     description :=
       "This tool is useful when you need to comment on a GitHub issue. "
       ++ "Simply pass in the issue number and the comment you would like to "
       ++ "make. Please use this sparingly as we don't want to clutter the "
       ++ "comment threads. **VERY IMPORTANT**: Your input to this tool MUST "
       ++ "strictly follow these rules: - First you must specify the issue "
       ++ "number as an integer - Then you must place two newlines - Then "
       ++ "you must specify your comment";
     mode := "comment_on_issue" |};
   {| name := "List open pull requests (PRs)";
     description :=
       "This tool will fetch a list of the repository's Pull Requests "
       ++ "(PRs). It will return the title, and PR number of 5 PRs. It takes "
       ++ "no input.";
     mode := "list_open_pull_requests" |};
   {| name := "Get Pull Request";
     description :=
       "This tool will fetch the title, body, comment thread and commit "
       ++ "history of a specific Pull Request (by PR number). **VERY "
       ++ "IMPORTANT**: You must specify the PR number as an integer.";
     mode := "get_pull_request" |};
   {| name := "Create Pull Request";
     description :=
       "This tool is useful when you need to create a new pull request in "
       ++ "a GitHub repository. **VERY IMPORTANT**: Your input to this tool "
       ++ "MUST strictly follow these rules: - First you must specify the "
       ++ "title of the pull request - Then you must place two newlines - "
       ++ "Then you must write the body or description of the pull request "
       ++ "When appropriate, always reference relevant issues in the body by "
       ++ "using the syntax `closes #<issue_number` like `closes #3, closes "
       ++ "#6`. For example, if you would like to create a pull request "
       ++ "called "
       ++ QUOTE
       ++ "README updates"
       ++ QUOTE
       ++ " with contents "
       ++ QUOTE
       ++ "added contributors' names, closes #3"
       ++ QUOTE
       ++ ", you would pass in the following string: README updates"
       ++ LF
       ++ LF
       ++ "added contributors' names, closes #3";
     mode := "create_pull_request" |};
   {| name := "Create File";
     description :=
       "This tool is a wrapper for the GitHub API, useful when you need "
       ++ "to create a file in a GitHub repository. **VERY IMPORTANT**: Your "
       ++ "input to this tool MUST strictly follow these rules: - First you "
       ++ "must specify which file to create by passing a full file path "
       ++ "(" ++ "**IMPORTANT**: the path must not start with a slash) - Then you "
       ++ "must specify the contents of the file For example, if you would "
       ++ "like to create a file called /test/test.txt with contents "
       ++ QUOTE
       ++ "test contents"
       ++ QUOTE
       ++ ", you would pass in the following string: test/test.txt"
       ++ LF
       ++ LF
       ++ "test contents";
     mode := "create_file" |};
   {| name := "Read File";
     description :=
       "This tool is a wrapper for the GitHub API, useful when you need "
       ++ "to read the contents of a file. Simply pass in the full file path "
       ++ "of the file you would like to read. **IMPORTANT**: the path must "
       ++ "not start with a slash";
     mode := "read_file" |};
   {| name := "Update File";
     description :=
       "This tool is a wrapper for the GitHub API, useful when you need "
       ++ "to update the contents of a file in a GitHub repository. **VERY "
       ++ "IMPORTANT**: Your input to this tool MUST strictly follow these "
       ++ "rules: - First you must specify which file to modify by passing a "
       ++ "full file path (" ++ "**IMPORTANT**: the path must not start with a "
       ++ "slash) - Then you must specify the old contents which you would "
       ++ "like to replace wrapped in OLD <<<< and >>>> OLD - Then you must "
       ++ "specify the new contents which you would like to replace the old "
       ++ "contents with wrapped in NEW <<<< and >>>> NEW For example, if "
       ++ "you would like to replace the contents of the file /test/test.txt "
       ++ "from "
       ++ QUOTE
       ++ "old contents"
       ++ QUOTE
       ++ " to "
       ++ QUOTE
       ++ "new contents"
       ++ QUOTE
       ++ ", you would pass in the following string: test/test.txt"
       ++ LF
       ++ "This is text that will not be changed"
       ++ LF
       ++ "OLD <<<<"
       ++ LF
       ++ "old contents"
       ++ LF
       ++ ">>>> OLD"
       ++ LF
       ++ "NEW <<<<"
       ++ LF
       ++ "new contents"
       ++ LF
       ++ ">>>> NEW";
     mode := "update_file" |};
   {| name := "Delete File";
     description :=
       "This tool is a wrapper for the GitHub API, useful when you need "
       ++ "to delete a file in a GitHub repository. Simply pass in the full "
       ++ "file path of the file you would like to delete. **IMPORTANT**: "
       ++ "the path must not start with a slash";
     mode := "delete_file" |};
   {| name := "Overview of existing files in Main branch";
     description :=
       "This tool will provide an overview of all existing files in the "
       ++ "main branch of the repository. It will list the file names, their "
       ++ "respective paths, and a brief summary of their contents. This can "
       ++ "be useful for understanding the structure and content of the "
       ++ "repository, especially when navigating through large codebases. "
       ++ "No input parameters are required.";
     mode := "list_files_in_main_branch" |};
   {| name := "Overview of files in current working branch";
     description :=
       "This tool will provide an overview of all files in your current "
       ++ "working branch where you should implement changes. This is great "
       ++ "for getting a high level overview of the structure of your code. "
       ++ "No input parameters are required.";
     mode := "list_files_in_bot_branch" |};
   {| name := "List branches in this repository";
     description :=
       "This tool will fetch a list of all branches in the repository. It "
       ++ "will return the name of each branch. No input parameters are "
       ++ "required.";
     mode := "list_branches_in_repo" |};
   {| name := "Set active branch";
     description :=
       "This tool will set the active branch in the repository, similar "
       ++ "to `git checkout <branch_name>` and `git switch -c "
       ++ "<branch_name>`. **VERY IMPORTANT**: You must specify the name of "
       ++ "the branch as a string input parameter.";
     mode := "set_active_branch" |};
   {| name := "Create a new branch";
     description :=
       "This tool will create a new branch in the repository. **VERY "
       ++ "IMPORTANT**: You must specify the name of the new branch as a "
       ++ "string input parameter.";
     mode := "create_branch" |};
   {| name := "Get files from a directory";
     description :=
       "This tool will fetch a list of all files in a specified "
       ++ "directory. **VERY IMPORTANT**: You must specify the path of the "
       ++ "directory as a string input parameter.";
     mode := "get_files_from_directory" |};
   {| name := "Search issues and pull requests";
     description :=
       "Searches issues and pull requests in the repository. **VERY "
       ++ "IMPORTANT**: You must specify the search query as a string input "
       ++ "parameter.";
     mode := "search_issues_and_prs" |};
   {| name := "Search code";
     description :=
       "This tool will search for code in the repository. **VERY "
       ++ "IMPORTANT**: You must specify the search query as a string input "
       ++ "parameter.";
     mode := "search_code" |}].

Definition releaseTools : list GitHubAgentTool :=
  [{| name := "Get latest release";
     description :=
       "This tool will fetch the latest release of the repository. No "
       ++ "input parameters are required.";
     mode := "get_latest_release" |};
   {| name := "Get releases";
     description :=
       "This tool will fetch the latest 5 releases of the repository. No "
       ++ "input parameters are required.";
     mode := "get_releases" |};
   {| name := "Get release";
     description :=
       "This tool will fetch a specific release of the repository. **VERY "
       ++ "IMPORTANT**: You must specify the tag name of the release as a "
       ++ "string input parameter.";
     mode := "get_release" |}].

Definition createTools (includeReleaseTools : bool) : list GitHubAgentTool :=
  if includeReleaseTools then (coreTools ++ releaseTools)%list else coreTools.

Definition NewGitHubAgentToolkit (opts : list GitHubAgentToolkitOptions)
    : GitHubAgentToolkit :=
  let options := match opts with
                 | first :: _ => first
                 | [] => {| IncludeReleaseTools := false |}
                 end in
  {| includeReleaseTools := IncludeReleaseTools options;
     tools := createTools (IncludeReleaseTools options) |}.

Definition FromGitHubAPIWrapper (includeReleaseTools : bool)
    : GitHubAgentToolkit :=
  NewGitHubAgentToolkit [{| IncludeReleaseTools := includeReleaseTools |}].

Definition GetTools (t : GitHubAgentToolkit) : list GitHubAgentTool := tools t.

Definition GetToolByName (t : GitHubAgentToolkit) (wanted : string)
    : option GitHubAgentTool :=
  find (fun tool => String.eqb (name tool) wanted) (tools t).

Definition GetToolNames (t : GitHubAgentToolkit) : list string :=
  map name (tools t).

(** The loop of [preprocessInput] over the fields of the input. *)
Fixpoint firstNumber (parts : list string) : option Z :=
  match parts with
  | [] => None
  | part :: rest =>
    match strconv.Atoi part with
    | Some num => Some num
    | None => firstNumber rest
    end
  end.

(** The first line and the rest of the input, each trimmed, with an
    empty line between them. *)
Definition twoParts (input : string) : string :=
  match strings.SplitN input LF 2 with
  | [first; second] =>
    strings.TrimSpace first ++ LF ++ LF ++ strings.TrimSpace second
  | _ => input
  end.

Definition preprocessInput (t : GitHubAgentTool) (input : string) : string :=
  let input := strings.TrimSpace input in
  if (String.eqb (mode t) "get_issue"
      || String.eqb (mode t) "get_pull_request")%bool
  then match strconv.Atoi input with
       | Some num => strconv.Itoa num
       | None =>
         match firstNumber (strings.Fields input) with
         | Some num => strconv.Itoa num
         | None => input
         end
       end
  else if String.eqb (mode t) "comment_on_issue" then twoParts input
  else if (String.eqb (mode t) "create_file"
           || String.eqb (mode t) "update_file")%bool
  then input
  else if String.eqb (mode t) "create_pull_request" then twoParts input
  else input.

(** The number [preprocessInput] finds in an input: the whole trimmed
    input when it is one, else the first of its fields that is. *)
Definition numberIn (input : string) : option Z :=
  match strconv.Atoi (strings.TrimSpace input) with
  | Some n => Some n
  | None => firstNumber (strings.Fields (strings.TrimSpace input))
  end.

Section Calling.

Variable World : Type.
Variable services : Services World.
Variable jsonString : string -> string.

Definition Call (fuel : nat) (t : GitHubAgentTool) (input : string)
    : D World (option (outcome (string * option string))) :=
  let processedInput := preprocessInput t input in
  andThen (Run services jsonString fuel (mode t) processedInput)
    (fun r =>
       match r with
       | Some (Returns (_, Some err)) =>
         pure (Some (Returns ("", Some ("GitHub operation failed: " ++ err))))
       | _ => pure r
       end).

End Calling.

Arguments Call {World} _ _ _ _ _ _.

End agents.

(* ================================================================== *)
(** ** Small remotes to run the model on                              *)
(* ================================================================== *)

Module Demo.

Import documentloaders githubapi github.

(** A remote made of branch names and of files, each a branch, a path
    and a content. *)
Record Toy : Type := {
  branchList : list string;
  fileList : list (string * string * string)
}.

Definition hasBranch (t : Toy) (ref : string) : bool :=
  existsb (fun b => String.eqb ("refs/heads/" ++ b) ref) (branchList t).

Fixpoint findFile (files : list (string * string * string))
    (branch path : string) : option string :=
  match files with
  | [] => None
  | (b, p, c) :: rest =>
    if (String.eqb b branch && String.eqb p path)%bool then Some c
    else findFile rest branch path
  end.

Definition dropFile (files : list (string * string * string))
    (branch path : string) : list (string * string * string) :=
  filter (fun f => negb (String.eqb (fst (fst f)) branch
                         && String.eqb (snd (fst f)) path)) files.

Definition putFile (t : Toy) (path : string)
    (opts : RepositoryContentFileOptions) : option string * Toy :=
  match Content opts with
  | Some c =>
    (None, {| branchList := branchList t;
              fileList := (Branch opts, path, c)
                          :: dropFile (fileList t) (Branch opts) path |})
  | None => (Some "422 Unprocessable Entity", t)
  end.

Definition toyClient (token : string) : Client Toy :=
  {| RepositoriesGet := fun _ _ _ => Ok {| DefaultBranch := "main" |};
     RepositoriesListBranches := fun t _ _ => Ok (branchList t);
     RepositoriesGetContents := fun t _ _ path ref =>
       match findFile (fileList t) ref path with
       | Some c => Ok {| GetContent := Ok c; SHA := Some "3b18e5" |}
       | None => Err "404 Not Found"
       end;
     GitGetRef := fun t _ _ ref =>
       if hasBranch t ref then Ok {| Ref := ref; ObjectSHA := Some "aa218f" |}
       else Err "404 Not Found";
     GitCreateRef := fun t _ _ ref =>
       if hasBranch t (Ref ref)
       then (Some "422 Reference already exists", t)
       else (None, {| branchList := (branchList t
                                     ++ [utf8.skip 11 (Ref ref)])%list;
                      fileList := fileList t |});
     RepositoriesCreateFile := fun t _ _ path opts => putFile t path opts;
     RepositoriesUpdateFile := fun t _ _ path opts => putFile t path opts;
     RepositoriesDeleteFile := fun t _ _ path opts =>
       (None, {| branchList := branchList t;
                 fileList := dropFile (fileList t) (Branch opts) path |}) |}.

(** A remote on which every name is taken. *)
Definition crowdedClient : Client Toy :=
  {| RepositoriesGet := RepositoriesGet (toyClient "");
     RepositoriesListBranches := RepositoriesListBranches (toyClient "");
     RepositoriesGetContents := RepositoriesGetContents (toyClient "");
     GitGetRef := fun _ _ _ ref => Ok {| Ref := ref; ObjectSHA := Some "aa218f" |};
     GitCreateRef := fun t _ _ _ => (Some "422 Reference already exists", t);
     RepositoriesCreateFile := RepositoriesCreateFile (toyClient "");
     RepositoriesUpdateFile := RepositoriesUpdateFile (toyClient "");
     RepositoriesDeleteFile := RepositoriesDeleteFile (toyClient "") |}.

Definition toy : Toy :=
  {| branchList := ["main"; "fix"; "fix_v1"];
     fileList := [("fix", "notes.txt", "hello world");
                  ("main", "notes.txt", "hello world")] |}.

Definition wrapperOn (c : Client Toy) (active : string) : GitHubAPIWrapper Toy :=
  {| client := c; repo := {| DefaultBranch := "main" |};
     owner := "octo"; repoName := "demo"; activeBranch := active;
     githubBaseBranch := "main"; appID := "1234"; privateKey := "key" |}.

Definition sessionOn (active : string) : Session Toy :=
  {| self := wrapperOn (toyClient "key") active; remote := toy; calls := [] |}.

Definition crowdedSession : Session Toy :=
  {| self := wrapperOn crowdedClient "main"; remote := toy; calls := [] |}.

(** An [update_file] payload whose OLD block is not in [notes.txt]. *)
Definition stalePayload : string :=
  Eval cbv in
    ("notes.txt" ++ LF ++ "OLD <<<<" ++ LF ++ "goodbye" ++ LF ++ ">>>> OLD"
     ++ LF ++ "NEW <<<<" ++ LF ++ "farewell" ++ LF ++ ">>>> NEW").

Definition tokenOnly : Env :=
  fun name => if String.eqb name "GITHUB_PERSONAL_ACCESS_TOKEN" then "ghp_token"
              else "".

Definition noEnv : Env := fun _ => "".

Definition fullEnv : Env :=
  fun name => if String.eqb name "GITHUB_PERSONAL_ACCESS_TOKEN" then "ghp_token"
              else if String.eqb name "GITHUB_APP_ID" then "1234"
              else if String.eqb name "GITHUB_APP_PRIVATE_KEY" then "key"
              else if String.eqb name "GITHUB_REPOSITORY" then "octo/demo"
              else "".

(** A remote that turns the repository lookup down. *)
Definition offlineClient (token : string) : Client Toy :=
  {| RepositoriesGet := fun _ _ _ => Err "401 Bad credentials";
     RepositoriesListBranches := RepositoriesListBranches (toyClient token);
     RepositoriesGetContents := RepositoriesGetContents (toyClient token);
     GitGetRef := GitGetRef (toyClient token);
     GitCreateRef := GitCreateRef (toyClient token);
     RepositoriesCreateFile := RepositoriesCreateFile (toyClient token);
     RepositoriesUpdateFile := RepositoriesUpdateFile (toyClient token);
     RepositoriesDeleteFile := RepositoriesDeleteFile (toyClient token) |}.

Definition appConfig : Config :=
  {| Repository := "octo/demo"; AppID := "1234"; PrivateKey := "key";
     ActiveBranch := ""; GitHubBaseBranch := "" |}.

(** *** A two-page issue listing *)

Definition issueA : Object :=
  [("title", JString "Crash on start"); ("body", JString "It crashes.")].

Definition pullB : Object :=
  [("title", JString "Fix crash"); ("body", JString "");
   ("pull_request", JObject [("url", JString "https://example.test/pull/2")])].

Definition issueC : Object :=
  [("title", JString "Typo"); ("body", JNull)].

Definition firstURL : string :=
  "https://api.github.com/repos/octo/demo/issues?state=open".

Definition secondURL : string := "https://api.github.com/repositories/1/issues?page=2".

Definition linkToSecond : string :=
  Eval cbv in ("<" ++ secondURL ++ ">; rel=" ++ DQ ++ "next" ++ DQ).

Definition listing (req : Request) : Exchange :=
  if String.eqb (URL req) firstURL
  then Response 200 "200 OK" (Ok [issueA; pullB]) linkToSecond
  else if String.eqb (URL req) secondURL
  then Response 200 "200 OK" (Ok [issueC]) ""
  else Response 404 "404 Not Found" (Err "unexpected end of JSON input") "".

(** A listing whose second page is out of order. *)
Definition brokenSecond (req : Request) : Exchange :=
  if String.eqb (URL req) firstURL
  then Response 200 "200 OK" (Ok [issueA]) linkToSecond
  else Response 500 "500 Internal Server Error" (Err "") "".

(** A listing that answers every request with a page and a next link. *)
Definition endless (req : Request) : Exchange :=
  Response 200 "200 OK" (Ok [issueA]) linkToSecond.

(** A listing of one page that holds a single pull request. *)
Definition onlyPull (req : Request) : Exchange :=
  Response 200 "200 OK" (Ok [pullB]) "".

Definition defaultLoader : GitHubIssuesLoader :=
  {| Repo := "octo/demo"; AccessToken := "ghp_token";
     GitHubAPIURL := "https://api.github.com"; IncludePRs := true;
     Milestone := None; State := "open"; Assignee := ""; Creator := "";
     Mentioned := ""; Labels := []; Sort := ""; Direction := ""; Since := "";
     Page := None; PerPage := None |}.

(** A next link written without its angle brackets. *)
Definition bareHeader : string := Eval cbv in ("foo; rel=" ++ DQ ++ "next" ++ DQ).

(** *** Issues, pull requests and directories of the toy remote *)

Definition bugReport : Issue :=
  {| IssueTitle := "Crash on start"; IssueNumber := 7; IssueBody := "It crashes.";
     IssueState := "open"; IssueUser := Some {| Login := "alice" |};
     IsPullRequest := false |}.

Definition bugFix : Issue :=
  {| IssueTitle := "Fix crash"; IssueNumber := 8; IssueBody := "";
     IssueState := "open"; IssueUser := None; IsPullRequest := true |}.

(** The directory of a branch: one file at the root and a directory
    [docs] holding one more; [vendor] cannot be listed. *)
Definition toyDirectory (path : string) : result (list DirectoryEntry) :=
  if String.eqb path ""
  then Ok [{| EntryType := "file"; EntryPath := "notes.txt" |};
           {| EntryType := "dir"; EntryPath := "vendor" |};
           {| EntryType := "dir"; EntryPath := "docs" |}]
  else if String.eqb path "docs"
  then Ok [{| EntryType := "file"; EntryPath := "docs/guide.md" |}]
  else Err "403 Forbidden".

Definition toyServices : Services Toy :=
  {| IssuesListByRepo := fun _ _ _ _ => Ok [bugReport; bugFix];
     IssuesGet := fun _ _ _ n =>
       if (n =? 7)%Z then Ok bugReport else Err "404 Not Found";
     IssuesListComments := fun _ _ _ n _ =>
       if (n =? 7)%Z
       then Ok [{| CommentBody := "Same here."; CommentUser := None |}]
       else Err "502 Bad Gateway";
     IssuesCreateComment := fun t _ _ n _ =>
       if (n =? 7)%Z then (None, t) else (Some "404 Not Found", t);
     PullRequestsList := fun _ _ _ _ => Ok [];
     PullRequestsGet := fun _ _ _ n =>
       if (n =? 8)%Z
       then Ok {| PullTitle := "Fix crash"; PullNumber := 8; PullBody := "";
                  PullCommits := 1; PullComments := 0 |}
       else Err "404 Not Found";
     PullRequestsListCommits := fun _ _ _ _ _ =>
       Ok [{| CommitMessage := "fix" |}];
     PullRequestsCreate := fun t _ _ new =>
       (Ok {| PullTitle := NewTitle new; PullNumber := 9;
              PullBody := NewBody new; PullCommits := 0; PullComments := 0 |}, t);
     SearchIssues := fun _ _ _ =>
       Ok {| IssuesTotal := 12; IssuesFound := [bugReport; bugFix] |};
     githubapi.SearchCode := fun _ _ _ =>
       Ok {| CodeTotal := 1; CodeFound := [{| CodePath := "notes.txt" |}] |};
     RepositoriesGetLatestRelease := fun _ _ _ => Err "404 Not Found";
     RepositoriesListReleases := fun _ _ _ _ => Ok [];
     RepositoriesGetReleaseByTag := fun _ _ _ _ => Err "404 Not Found";
     RepositoriesGetDirectory := fun _ _ _ path _ => toyDirectory path |}.

(** A stand-in for the JSON string encoder, right on strings that need
    no escaping. *)
Definition quoted (s : string) : string := agents.QUOTE ++ s ++ agents.QUOTE.

Definition deskOn (active : string) : Desk Toy :=
  {| session := sessionOn active; served := [] |}.

Definition toolOf (m : string) : agents.GitHubAgentTool :=
  {| agents.name := m; agents.description := ""; agents.mode := m |}.

(** An [update_file] payload that turns [hello] into [goodbye]. *)
Definition freshPayload : string :=
  Eval cbv in
    ("notes.txt" ++ LF ++ "OLD <<<<" ++ LF ++ "hello" ++ LF ++ ">>>> OLD"
     ++ LF ++ "NEW <<<<" ++ LF ++ "goodbye" ++ LF ++ ">>>> NEW").

(** Blocks of which the OLD one closes before it opens. *)
Definition misplacedBlocks : string :=
  Eval cbv in
    (">>>> OLD" ++ LF ++ "OLD <<<<" ++ LF ++ "NEW <<<<" ++ LF ++ "x" ++ LF
     ++ ">>>> NEW").

(** Blocks without the NEW markers. *)
Definition halfBlocks : string :=
  Eval cbv in ("OLD <<<<" ++ LF ++ "hello" ++ LF ++ ">>>> OLD").

(** *** A tree for the file loader *)

Definition fileLoader : GitHubFileLoader :=
  {| FileRepo := "octo/demo"; FileAccessToken := "ghp_token";
     FileGitHubAPIURL := "https://api.github.com";
     documentloaders.Branch := "main";
     FileFilter := Some (fun path => negb (String.eqb path "LICENSE")) |}.

(** A tree of a directory, three blobs and a stray string; the blob
    [notes.txt] is served in two base64 lines, [empty.txt] is empty and
    [LICENSE] is not served. *)
Definition treeServer (req : Request) : FileExchange :=
  if String.eqb (URL req)
       "https://api.github.com/repos/octo/demo/git/trees/main?recursive=1"
  then FileResponse 200 "200 OK"
         (Ok [("tree",
               JArray [JObject [("path", JString "docs"); ("type", JString "tree")];
                       JObject [("path", JString "notes.txt");
                                ("type", JString "blob");
                                ("sha", JString "3b18e5")];
                       JString "stray";
                       JObject [("path", JString "LICENSE");
                                ("type", JString "blob")];
                       JObject [("path", JString "empty.txt");
                                ("type", JString "blob")]])])
  else if String.eqb (URL req)
            "https://api.github.com/repos/octo/demo/contents/notes.txt?ref=main"
  then FileResponse 200 "200 OK"
         (Ok [("content", JString ("aGVsbG8g" ++ LF ++ "d29ybGQ=" ++ LF))])
  else if String.eqb (URL req)
            "https://api.github.com/repos/octo/demo/contents/empty.txt?ref=main"
  then FileResponse 200 "200 OK" (Ok [("content", JString "")])
  else FileResponse 404 "404 Not Found" (Err "unexpected end of JSON input").

(** A stand-in for the base64 decoder, right on the two contents served. *)
Definition decodeServed (s : string) : result string :=
  if String.eqb s "aGVsbG8gd29ybGQ=" then Ok "hello world"
  else if String.eqb s "" then Ok ""
  else Err "illegal base64 data at input byte 0".

End Demo.

(* ================================================================== *)
(** * Facts about the string functions                                *)
(* ================================================================== *)

Module StringFacts.

Import utf8 strings.

Lemma append_nil_r (s : string) : s ++ "" = s.
Proof. induction s as [|c s IH]; simpl; [reflexivity | now rewrite IH]. Qed.

Lemma append_assoc (a b c : string) : (a ++ b) ++ c = a ++ b ++ c.
Proof. induction a as [|x a IH]; simpl; [reflexivity | now rewrite IH]. Qed.

Lemma length_append (a b : string) :
  String.length (a ++ b) = (String.length a + String.length b)%nat.
Proof. induction a as [|x a IH]; simpl; [reflexivity | now rewrite IH]. Qed.

Lemma append_inv_head (p a b : string) : p ++ a = p ++ b -> a = b.
Proof.
  induction p as [|c p IH]; simpl; intros H; [exact H|].
  injection H as H. now apply IH.
Qed.

Lemma take_skip (n : nat) (s : string) : take n s ++ skip n s = s.
Proof.
  revert s; induction n as [|n IH]; intros [|c s]; simpl; try reflexivity.
  now rewrite IH.
Qed.

Lemma skip_append (a b : string) : skip (String.length a) (a ++ b) = b.
Proof. induction a as [|c a IH]; simpl; [reflexivity | exact IH]. Qed.

Lemma take_append (a b : string) : take (String.length a) (a ++ b) = a.
Proof. induction a as [|c a IH]; simpl; [reflexivity | now rewrite IH]. Qed.

Lemma take_length (s : string) : take (String.length s) s = s.
Proof. induction s as [|c s IH]; simpl; [reflexivity | now rewrite IH]. Qed.

Lemma skip_skip (n m : nat) (s : string) : skip n (skip m s) = skip (m + n) s.
Proof.
  revert s; induction m as [|m IH]; intros s; simpl; [reflexivity|].
  destruct s as [|c s]; [now destruct n | apply IH].
Qed.

Lemma length_skip (n : nat) (s : string) :
  String.length (skip n s) = (String.length s - n)%nat.
Proof.
  revert s; induction n as [|n IH]; intros [|c s]; simpl;
    try reflexivity; apply IH.
Qed.

Lemma prefix_append (p q : string) : String.prefix p (p ++ q) = true.
Proof.
  induction p as [|c p IH]; simpl; [now destruct q|].
  destruct (ascii_dec c c) as [_|ne]; [exact IH | now elim ne].
Qed.

Lemma prefix_split (p s : string) :
  String.prefix p s = true -> s = p ++ skip (String.length p) s.
Proof.
  revert s; induction p as [|c p IH]; intros s H; simpl; [reflexivity|].
  destruct s as [|d s]; simpl in H; [discriminate|].
  destruct (ascii_dec c d) as [->|]; [|discriminate].
  f_equal. now apply IH.
Qed.

Lemma indexNat_unfold (s sub : string) :
  indexNat s sub =
  if String.prefix sub s then Some O
  else match s with
       | EmptyString => None
       | String _ t => option_map S (indexNat t sub)
       end.
Proof. destruct s; reflexivity. Qed.

(** Where [indexNat] finds the substring, it is there. *)
Lemma indexNat_Some (s sub : string) (i : nat) :
  indexNat s sub = Some i ->
  s = take i s ++ sub ++ skip (i + String.length sub) s.
Proof.
  revert i; induction s as [|c s IH]; intros i; rewrite indexNat_unfold;
    destruct (String.prefix sub _) eqn:P.
  - intros [= <-]. apply prefix_split in P. exact P.
  - discriminate.
  - intros [= <-]. apply prefix_split in P. exact P.
  - destruct (indexNat s sub) as [j|] eqn:E; simpl; [|discriminate].
    intros [= <-]. simpl. f_equal. now apply IH.
Qed.

Lemma prefix_length (p s : string) :
  String.prefix p s = true -> (String.length p <= String.length s)%nat.
Proof.
  intros H. apply prefix_split in H.
  assert (L : String.length s = String.length (p ++ skip (String.length p) s))
    by now rewrite <- H.
  rewrite length_append in L. lia.
Qed.

Lemma indexNat_bound (s sub : string) (i : nat) :
  indexNat s sub = Some i -> (i + String.length sub <= String.length s)%nat.
Proof.
  revert i; induction s as [|c s IH]; intros i; rewrite indexNat_unfold;
    destruct (String.prefix sub _) eqn:P.
  - intros [= <-]. now apply prefix_length in P.
  - discriminate.
  - intros [= <-]. now apply prefix_length in P.
  - destruct (indexNat s sub) as [j|] eqn:E; simpl; [|discriminate].
    intros [= <-]. specialize (IH j eq_refl). lia.
Qed.

(** A substring that occurs is found. *)
Lemma Occurs_indexNat (sub s : string) :
  strings.Occurs sub s -> exists i, indexNat s sub = Some i.
Proof.
  intros (before & after & ->).
  induction before as [|c b IH]; rewrite indexNat_unfold.
  - simpl. rewrite prefix_append. now exists O.
  - destruct (String.prefix sub _).
    + now exists O.
    + simpl. destruct IH as [i ->]. now exists (S i).
Qed.

Lemma indexNat_None (sub s : string) :
  ~ strings.Occurs sub s -> indexNat s sub = None.
Proof.
  intros N. destruct (indexNat s sub) as [i|] eqn:E; [|reflexivity].
  elim N. apply indexNat_Some in E.
  now exists (take i s), (skip (i + String.length sub) s).
Qed.

Lemma indexNat_Occurs (sub s : string) (i : nat) :
  indexNat s sub = Some i -> strings.Occurs sub s.
Proof.
  intros E. apply indexNat_Some in E.
  now exists (take i s), (skip (i + String.length sub) s).
Qed.

Lemma Contains_Occurs (s sub : string) :
  Contains s sub = true -> strings.Occurs sub s.
Proof.
  unfold Contains, Index. destruct (indexNat s sub) as [i|] eqn:E.
  - intros _. now apply indexNat_Occurs in E.
  - intros H. apply Z.leb_le in H. lia.
Qed.

(** Replacing a block that does not occur changes nothing. *)
Lemma ReplaceAll_absent (s old new : string) :
  ~ strings.Occurs old s -> ReplaceAll s old new = s.
Proof.
  intros N. unfold ReplaceAll.
  destruct (String.eqb old new); [reflexivity|].
  destruct (String.eqb old "") eqn:E.
  - apply String.eqb_eq in E. subst old. elim N. now exists "", s.
  - destruct (String.length s); simpl; [reflexivity|].
    now rewrite (indexNat_None _ _ N).
Qed.

Lemma indexNat_empty (sub : string) : sub <> "" -> indexNat "" sub = None.
Proof. destruct sub; [now intros N; elim N | reflexivity]. Qed.

Lemma countLoop_fuel (sub : string) (fuel1 : nat) :
  sub <> "" ->
  forall fuel2 s,
    (String.length s <= fuel1)%nat -> (String.length s <= fuel2)%nat ->
    countLoop fuel1 s sub = countLoop fuel2 s sub.
Proof.
  intros NE. induction fuel1 as [|k IH]; intros fuel2 s L1 L2.
  - destruct s; [|cbn in L1; lia].
    destruct fuel2; cbn [countLoop]; [reflexivity|].
    now rewrite indexNat_empty.
  - destruct fuel2 as [|k2].
    + destruct s; [|cbn in L2; lia]. cbn [countLoop]. now rewrite indexNat_empty.
    + cbn [countLoop]. destruct (indexNat s sub) as [i|] eqn:E; [|reflexivity].
      f_equal. pose proof (indexNat_bound _ _ _ E) as B.
      assert (0 < String.length sub)%nat by (destruct sub; [now elim NE | cbn; lia]).
      apply IH; rewrite length_skip; lia.
Qed.

Lemma countLoop_bounds (sub : string) (fuel : nat) :
  forall s, (0 <= countLoop fuel s sub <= Z.of_nat fuel)%Z.
Proof.
  induction fuel as [|k IH]; intros s; cbn [countLoop]; [lia|].
  destruct (indexNat s sub) as [i|]; [|lia].
  specialize (IH (skip (i + String.length sub) s)). lia.
Qed.

Lemma eqb_empty_false (s : string) : s <> "" -> String.eqb s "" = false.
Proof. intros N. now apply String.eqb_neq. Qed.

Lemma Count_eq (s sep : string) :
  sep <> "" ->
  Count s sep = match indexNat s sep with
                | None => 0%Z
                | Some i => (1 + Count (skip (i + String.length sep) s) sep)%Z
                end.
Proof.
  intros NE. unfold Count. rewrite (eqb_empty_false _ NE).
  destruct (String.length s) as [|k] eqn:L.
  - destruct s; [|discriminate]. now rewrite indexNat_empty.
  - cbn [countLoop]. destruct (indexNat s sep) as [i|] eqn:E; [|reflexivity].
    f_equal. pose proof (indexNat_bound _ _ _ E) as B.
    assert (0 < String.length sep)%nat by (destruct sep; [now elim NE | cbn; lia]).
    apply countLoop_fuel; [exact NE | rewrite length_skip; lia | lia].
Qed.

Lemma Split_as_loop (s sep : string) :
  sep <> "" -> Split s sep = splitLoop (Z.to_nat (Count s sep)) s sep.
Proof.
  intros NE. unfold Split, genSplit. cbn [Z.eqb Z.ltb Z.compare].
  rewrite (eqb_empty_false _ NE).
  assert (B : (0 <= Count s sep <= len s)%Z).
  { unfold Count, len. rewrite (eqb_empty_false _ NE). apply countLoop_bounds. }
  destruct (len s + 1 <? Count s sep + 1)%Z eqn:C.
  - apply Z.ltb_lt in C. lia.
  - f_equal. lia.
Qed.

(** The equation of [Split] for a non-empty separator. *)
Lemma Split_eq (s sep : string) :
  sep <> "" ->
  Split s sep = match indexNat s sep with
                | None => [s]
                | Some m => take m s :: Split (skip (m + String.length sep) s) sep
                end.
Proof.
  intros NE. rewrite (Split_as_loop _ _ NE), (Count_eq _ _ NE).
  destruct (indexNat s sep) as [m|] eqn:E.
  - rewrite (Split_as_loop _ _ NE).
    assert (B : (0 <= Count (skip (m + String.length sep) s) sep)%Z).
    { unfold Count. rewrite (eqb_empty_false _ NE). apply countLoop_bounds. }
    replace (Z.to_nat (1 + Count (skip (m + String.length sep) s) sep))
      with (S (Z.to_nat (Count (skip (m + String.length sep) s) sep))) by lia.
    cbn [splitLoop]. now rewrite E.
  - cbn [Z.to_nat splitLoop]. reflexivity.
Qed.

Lemma prefix_byte (c d : ascii) (s : string) :
  String.prefix (String c "") (String d s) = if ascii_dec c d then true else false.
Proof. cbn. destruct (ascii_dec c d); [now destruct s | reflexivity]. Qed.

Lemma indexNat_byte_first (c : ascii) (a b : string) :
  ~ strings.Occurs (String c "") a ->
  indexNat (a ++ String c b) (String c "") = Some (String.length a).
Proof.
  induction a as [|d a IH]; intros N; rewrite indexNat_unfold.
  - cbn [append]. rewrite prefix_byte. now destruct (ascii_dec c c).
  - cbn [append]. rewrite prefix_byte. destruct (ascii_dec c d) as [->|ne].
    + elim N. now exists "", a.
    + rewrite IH; [reflexivity|]. intros (x & y & ->). elim N.
      now exists (String d x), y.
Qed.

Lemma Split_byte_cons (c : ascii) (a b : string) :
  ~ strings.Occurs (String c "") a ->
  Split (a ++ String c b) (String c "") = a :: Split b (String c "").
Proof.
  intros N. rewrite Split_eq by discriminate.
  rewrite (indexNat_byte_first c a b N).
  rewrite take_append.
  replace (String.length a + String.length (String c ""))%nat
    with (String.length (a ++ String c "")) by (rewrite length_append; reflexivity).
  replace (a ++ String c b) with ((a ++ String c "") ++ b)
    by (rewrite append_assoc; reflexivity).
  now rewrite skip_append.
Qed.

Lemma Split_absent (sep s : string) :
  sep <> "" -> ~ strings.Occurs sep s -> Split s sep = [s].
Proof.
  intros NE N. rewrite (Split_eq _ _ NE). now rewrite (indexNat_None _ _ N).
Qed.


(** *** Substrings *)

Lemma Occurs_refl (s : string) : strings.Occurs s s.
Proof. exists "", "". cbn. now rewrite append_nil_r. Qed.

Lemma Occurs_trans (a b c : string) :
  strings.Occurs a b -> strings.Occurs b c -> strings.Occurs a c.
Proof.
  intros (p & q & ->) (p' & q' & ->). exists (p' ++ p), (q ++ q').
  now rewrite !append_assoc.
Qed.

Lemma Occurs_take (n : nat) (s : string) : strings.Occurs (take n s) s.
Proof. exists "", (skip n s). cbn. now rewrite take_skip. Qed.

Lemma Occurs_skip (n : nat) (s : string) : strings.Occurs (skip n s) s.
Proof. exists (take n s), "". now rewrite append_nil_r, take_skip. Qed.

Lemma Occurs_tail (c : ascii) (x t : string) :
  strings.Occurs x t -> strings.Occurs x (String c t).
Proof. intros (p & q & ->). now exists (String c p), q. Qed.

Lemma splitLoop_pieces (sep x : string) (k : nat) :
  forall s, In x (splitLoop k s sep) -> strings.Occurs x s.
Proof.
  induction k as [|k IH]; intros s; cbn [splitLoop].
  - intros [<-|[]]. apply Occurs_refl.
  - destruct (indexNat s sep) as [m|].
    + intros [<-|I]; [apply Occurs_take|].
      eapply Occurs_trans; [apply (IH _ I) | apply Occurs_skip].
    + intros [<-|[]]. apply Occurs_refl.
Qed.

(** Every piece [Split] cuts is a substring of what it cuts. *)
Lemma Split_pieces (s sep x : string) :
  sep <> "" -> In x (Split s sep) -> strings.Occurs x s.
Proof.
  intros NE. rewrite (Split_as_loop _ _ NE). apply splitLoop_pieces.
Qed.

Lemma trimLeftLoop_sub (f : N -> bool) (fuel : nat) :
  forall s, strings.Occurs (trimLeftLoop fuel s f) s.
Proof.
  induction fuel as [|k IH]; intros s; cbn [trimLeftLoop].
  - exists "", s. reflexivity.
  - destruct s as [|c t]; [apply Occurs_refl|].
    destruct (DecodeRuneInString (String c t)) as [r wid].
    destruct (f r); [|apply Occurs_refl].
    eapply Occurs_trans; [apply IH | apply Occurs_skip].
Qed.

Lemma TrimRightFunc_sub (f : N -> bool) (s : string) :
  strings.Occurs (TrimRightFunc s f) s.
Proof.
  unfold TrimRightFunc.
  destruct (_ && _)%bool.
  - destruct (DecodeRuneInString _) as [r wid]. apply Occurs_take.
  - apply Occurs_take.
Qed.

Lemma trimSpaceStop_sub (s : string) (stop : nat) :
  strings.Occurs (trimSpaceStop stop s) s.
Proof.
  induction stop as [|k IH]; cbn [trimSpaceStop].
  - exists "", s. reflexivity.
  - destruct (String.get k s) as [c|]; [|apply Occurs_take].
    destruct (RuneSelf <=? byteOf c)%N.
    + eapply Occurs_trans; [apply TrimRightFunc_sub | apply Occurs_take].
    + destruct (asciiSpace c); [exact IH | apply Occurs_take].
Qed.

(** What [TrimSpace] returns is a substring of its argument. *)
Lemma TrimSpace_sub (s : string) : strings.Occurs (TrimSpace s) s.
Proof.
  induction s as [|c t IH]; [apply Occurs_refl|].
  cbn [TrimSpace].
  destruct (RuneSelf <=? byteOf c)%N.
  - unfold TrimFunc, TrimLeftFunc.
    eapply Occurs_trans; [apply TrimRightFunc_sub | apply trimLeftLoop_sub].
  - destruct (asciiSpace c).
    + now apply Occurs_tail.
    + apply trimSpaceStop_sub.
Qed.

(** *** Trimming strings that are already tight *)

Lemma get_append_last (a b : string) (d : ascii) :
  String.get (String.length a) (a ++ String d b) = Some d.
Proof. induction a as [|c a IH]; [reflexivity | exact IH]. Qed.

Lemma tight_spec (c : ascii) :
  tight c = true -> (RuneSelf <=? byteOf c)%N = false /\ asciiSpace c = false.
Proof.
  unfold tight. intros H. apply andb_true_iff in H. destruct H as (L & S).
  apply N.ltb_lt in L. apply negb_true_iff in S. split; [|exact S].
  apply N.leb_gt. exact L.
Qed.

Lemma TrimSpace_tight (c d : ascii) (m : string) :
  tight c = true -> tight d = true ->
  TrimSpace (String c (m ++ String d "")) = String c (m ++ String d "").
Proof.
  intros Tc Td. apply tight_spec in Tc, Td. destruct Tc as (C1 & C2).
  destruct Td as (D1 & D2). cbn [TrimSpace]. rewrite C1, C2.
  change (String c (m ++ String d "")) with (String c m ++ String d "").
  rewrite length_append. cbn [String.length].
  replace (S (String.length m) + 1)%nat with (S (String.length (String c m)))
    by (cbn; lia).
  cbn [trimSpaceStop]. rewrite get_append_last, D1, D2.
  replace (S (String.length (String c m)))
    with (String.length (String c m ++ String d ""))
    by (rewrite length_append; cbn; lia).
  apply take_length.
Qed.

Lemma TrimSpace_space (t : string) : TrimSpace (String " " t) = TrimSpace t.
Proof. reflexivity. Qed.

(** *** [Trim] with an ASCII cutset *)

Lemma take_prefix (n : nat) (a b : string) :
  (n <= String.length a)%nat -> take n (a ++ b) = take n a.
Proof.
  revert a; induction n as [|n IH]; intros a L; [reflexivity|].
  destruct a as [|c a]; [cbn in L; lia|]. cbn. f_equal. apply IH. cbn in L. lia.
Qed.

Lemma trimRightStop_cons (cs : string) (c : ascii) (t : string) (n : nat) :
  (n <= String.length t)%nat ->
  trimRightStop (S n) (String c t) cs
  = match trimRightStop n t cs with
    | EmptyString => if inBytes cs c then "" else String c ""
    | r => String c r
    end.
Proof.
  induction n as [|n IH]; intros L.
  - cbn. now destruct (inBytes cs c).
  - change (trimRightStop (S (S n)) (String c t) cs)
      with (match String.get n t with
            | None => take (S (S n)) (String c t)
            | Some d => if inBytes cs d then trimRightStop (S n) (String c t) cs
                        else take (S (S n)) (String c t)
            end).
    cbn [trimRightStop].
    destruct (String.get n t) as [d|] eqn:G.
    + destruct (inBytes cs d); [apply IH; lia|].
      cbn [take]. destruct t as [|e t]; [discriminate G | reflexivity].
    + cbn [take]. destruct t as [|e t]; [cbn in L; lia | reflexivity].
Qed.

Lemma trimRightASCII_cons (cs : string) (c : ascii) (t : string) :
  trimRightASCII (String c t) cs
  = match trimRightASCII t cs with
    | EmptyString => if inBytes cs c then "" else String c ""
    | r => String c r
    end.
Proof. unfold trimRightASCII. cbn [String.length]. now apply trimRightStop_cons. Qed.

Lemma trimRightASCII_snoc (cs : string) (d : ascii) (a : string) :
  inBytes cs d = true ->
  trimRightASCII (a ++ String d "") cs = trimRightASCII a cs.
Proof.
  intros I. induction a as [|c a IH].
  - cbn. now rewrite I.
  - cbn [append]. now rewrite !trimRightASCII_cons, IH.
Qed.

(** Angle brackets around a string do not survive [Trim]. *)
Lemma Trim_brackets (u : string) :
  Trim ("<" ++ u ++ ">") "<>" = Trim u "<>".
Proof.
  unfold Trim. cbn [append String.eqb Ascii.eqb Bool.eqb orb isASCII].
  change (isASCII "<>") with true. cbv iota.
  replace (String "<" (u ++ ">")) with (String "<" u ++ ">") by reflexivity.
  rewrite trimRightASCII_snoc by reflexivity.
  rewrite trimRightASCII_cons.
  destruct u as [|c u]; [reflexivity|].
  cbn [String.eqb orb]. 
  destruct (trimRightASCII (String c u) "<>") eqn:E; reflexivity.
Qed.

End StringFacts.

(* ================================================================== *)
(** * The API wrapper                                                 *)
(* ================================================================== *)

Module WrapperFacts.

Import githubapi github StringFacts.

Ltac run_method :=
  unfold ReadFile, SetActiveBranch, CreateFile, UpdateFile, DeleteFile,
    CreateBranch, getContents, bind, this, ret, reading, writing,
    assignActiveBranch;
  cbn [fst snd self remote calls].

(** What [ReadFile] comes to, by the answer of the remote. *)
Lemma ReadFile_run {World : Type} (s : Session World) (filePath : string) :
  ReadFile filePath s =
  ((match RepositoriesGetContents (client (self s)) (remote s)
             (owner (self s)) (repoName (self s)) filePath
             (activeBranch (self s)) with
    | Err e => "File not found `" ++ filePath ++ "` on branch `"
               ++ activeBranch (self s) ++ "`. Error: " ++ e
    | Ok fileContent =>
      match GetContent fileContent with
      | Err e => "Failed to decode file content: " ++ e
      | Ok content => content
      end
    end, None),
   {| self := self s; remote := remote s;
      calls := (calls s
                ++ [GetContents (owner (self s)) (repoName (self s)) filePath
                      (activeBranch (self s))])%list |}).
Proof.
  run_method.
  destruct (RepositoriesGetContents _ _ _ _ _ _) as [fc|e]; [|reflexivity].
  destruct (GetContent fc); reflexivity.
Qed.



(** C3. When the active branch is the base branch, [CreateFile],
    [UpdateFile] and [DeleteFile] each return the protected-branch message
    with a nil error, and leave the session as it was: no call reaches the
    remote, so nothing is written. *)
Theorem protected_branch_refuses_file_writes {World : Type}
    (s : Session World) (fileQuery filePath : string) :
  activeBranch (self s) = githubBaseBranch (self s) ->
  CreateFile fileQuery s = ((protectedBranch (self s), None), s)
  /\ UpdateFile fileQuery s = (Returns (protectedBranch (self s), None), s)
  /\ DeleteFile filePath s = ((protectedBranch (self s), None), s)
  /\ protectedBranch (self s)
     = "You're attempting to commit to the directly to the "
       ++ githubBaseBranch (self s)
       ++ " branch, which is protected. Please create a new branch and try again.".
Proof.
  intros E. run_method. rewrite E, String.eqb_refl. repeat split.
Qed.

(** The three methods on the base branch of the demo remote. *)
Lemma protected_branch_witness :
  activeBranch (self (Demo.sessionOn "main"))
  = githubBaseBranch (self (Demo.sessionOn "main"))
  /\ fst (CreateFile Demo.stalePayload (Demo.sessionOn "main"))
     = ("You're attempting to commit to the directly to the main branch, which is protected. Please create a new branch and try again.", None)
  /\ calls (snd (UpdateFile Demo.stalePayload (Demo.sessionOn "main"))) = []
  /\ calls (snd (DeleteFile "notes.txt" (Demo.sessionOn "main"))) = [].
Proof.
  split; [reflexivity|].
  destruct (protected_branch_refuses_file_writes (Demo.sessionOn "main")
              Demo.stalePayload "notes.txt" eq_refl) as (C & U & D & _).
  rewrite C, U, D. repeat split.
Defined.

(** The loop over the branches of [SetActiveBranch]. *)
Lemma branch_scan (branchName : string) (branches : list string) :
  forall names found,
    fold_left (fun '(names, found) name =>
                 ((names ++ [name])%list,
                  if String.eqb name branchName then true else found))
              branches (names, found)
    = ((names ++ branches)%list,
       (found || existsb (fun name => String.eqb name branchName) branches)%bool).
Proof.
  induction branches as [|b bs IH]; intros names found; simpl.
  - now rewrite app_nil_r, orb_false_r.
  - rewrite IH, <- app_assoc. simpl. f_equal.
    destruct (String.eqb b branchName); simpl; [now rewrite orb_true_r | reflexivity].
Qed.

Lemma existsb_eqb_In (branchName : string) (branches : list string) :
  existsb (fun name => String.eqb name branchName) branches = true
  <-> In branchName branches.
Proof.
  rewrite existsb_exists. split.
  - intros (x & I & E). apply String.eqb_eq in E. now subst.
  - intros I. exists branchName. split; [exact I | apply String.eqb_refl].
Qed.

(** C8. For a name that is not among the branches the repository lists,
    [SetActiveBranch] answers with the "does not exist" message and a nil
    error and leaves the wrapper as it was; and whenever the active branch
    is changed by a call, the requested branch is one of those listed and
    is the new active branch. *)
Theorem SetActiveBranch_only_to_existing {World : Type} (s : Session World)
    (branchName : string) :
  (forall branches,
     RepositoriesListBranches (client (self s)) (remote s) (owner (self s))
       (repoName (self s)) = Ok branches ->
     ~ In branchName branches ->
     fst (SetActiveBranch branchName s)
     = ("Error " ++ branchName
        ++ " does not exist, in repo with current branches: "
        ++ fmtStrings branches, None)
     /\ self (snd (SetActiveBranch branchName s)) = self s
     /\ remote (snd (SetActiveBranch branchName s)) = remote s)
  /\ (activeBranch (self (snd (SetActiveBranch branchName s)))
      <> activeBranch (self s) ->
      exists branches,
        RepositoriesListBranches (client (self s)) (remote s) (owner (self s))
          (repoName (self s)) = Ok branches
        /\ In branchName branches
        /\ activeBranch (self (snd (SetActiveBranch branchName s))) = branchName).
Proof.
  run_method.
  destruct (RepositoriesListBranches _ _ _ _) as [branches|e].
  - rewrite branch_scan. cbn [app orb].
    destruct (existsb _ branches) eqn:X; cbn [negb fst snd self remote].
    + split.
      * intros bs [= <-] N. elim N. now apply existsb_eqb_In.
      * intros _. exists branches. repeat split. now apply existsb_eqb_In.
    + split.
      * intros bs [= <-] _. repeat split.
      * intros N. now elim N.
  - cbn [fst snd self remote]. split; [discriminate|]. intros N. now elim N.
Qed.

(** A branch the demo remote does not list. *)
Lemma SetActiveBranch_witness :
  fst (SetActiveBranch "nope" (Demo.sessionOn "fix"))
  = ("Error nope does not exist, in repo with current branches: [main fix fix_v1]",
     None)
  /\ activeBranch (self (snd (SetActiveBranch "nope" (Demo.sessionOn "fix")))) = "fix".
Proof.
  destruct (SetActiveBranch_only_to_existing (Demo.sessionOn "fix") "nope")
    as [H _].
  destruct (H ["main"; "fix"; "fix_v1"] eq_refl) as (R & W & _).
  - simpl. intros [E|[E|[E|[]]]]; discriminate E.
  - rewrite R, W. split; reflexivity.
Defined.

Lemma candidate_succ (proposed : string) (k : nat) :
  proposed ++ "_v" ++ strconv.Itoa (Z.of_nat k + 1) = candidate proposed (S k).
Proof.
  unfold candidate. now rewrite Nat2Z.inj_succ.
Qed.

Lemma createLoop_run {World : Type} (proposed : string) (sha : option string)
    (n : nat) :
  forall (k : nat) (s : Session World),
  exists errs : list (option string),
    (List.length errs <= n)%nat
    /\ calls (snd (createLoop n (Z.of_nat k) proposed (candidate proposed k) sha s))
       = (calls s ++ map (attempt (self s) proposed sha)
                         (combine (seq k (List.length errs)) errs))%list
    /\ forallb conflict (removelast errs) = true
    /\ match rev errs with
       | [] =>
         n = O
         /\ fst (createLoop n (Z.of_nat k) proposed (candidate proposed k) sha s)
            = ("Unable to create branch. At least 1000 branches exist with named derived from proposed_branch_name: `"
               ++ proposed ++ "`", None)
         /\ self (snd (createLoop n (Z.of_nat k) proposed (candidate proposed k) sha s))
            = self s
       | None :: _ =>
         fst (createLoop n (Z.of_nat k) proposed (candidate proposed k) sha s)
         = ("Branch '" ++ candidate proposed (k + List.length errs - 1)
            ++ "' created successfully, and set as current active branch.", None)
         /\ self (snd (createLoop n (Z.of_nat k) proposed (candidate proposed k) sha s))
            = withActiveBranch (self s) (candidate proposed (k + List.length errs - 1))
       | Some e :: _ =>
         self (snd (createLoop n (Z.of_nat k) proposed (candidate proposed k) sha s))
         = self s
         /\ if strings.Contains e "Reference already exists"
            then List.length errs = n
                 /\ fst (createLoop n (Z.of_nat k) proposed (candidate proposed k) sha s)
                    = ("Unable to create branch. At least 1000 branches exist with named derived from proposed_branch_name: `"
                       ++ proposed ++ "`", None)
            else fst (createLoop n (Z.of_nat k) proposed (candidate proposed k) sha s)
                 = ("", Some ("failed to create branch: " ++ e))
       end.
Proof.
  induction n as [|n IH]; intros k s.
  - exists []. cbn. rewrite app_nil_r. repeat split; auto.
  - cbn [createLoop]. unfold bind, this, writing, ret, assignActiveBranch.
    cbn [self remote calls].
    destruct (GitCreateRef _ _ _ _ _) as [[e|] world] eqn:G.
    + destruct (strings.Contains e "Reference already exists") eqn:C.
      * rewrite candidate_succ. change (Z.of_nat k + 1)%Z with (Z.succ (Z.of_nat k)).
        rewrite <- Nat2Z.inj_succ.
        match goal with
        | |- context [createLoop n _ _ _ _ ?s'] => set (s1 := s')
        end.
        destruct (IH (S k) s1) as (errs & L & Cs & F & E).
        exists (Some e :: errs). cbn [List.length]. split; [lia|]. split.
        { rewrite Cs. subst s1. cbn [calls self seq combine map].
          now rewrite <- app_assoc. }
        split.
        { destruct errs as [|x errs]; [reflexivity|].
          change (removelast (Some e :: x :: errs))
            with (Some e :: removelast (x :: errs)).
          cbn [forallb conflict]. now rewrite C, F. }
        cbn [rev]. destruct (rev errs) as [|[e'|] r] eqn:R; cbn [app].
        -- apply (f_equal (@rev _)) in R. rewrite rev_involutive in R.
           cbn in R. subst errs. destruct E as (-> & Fr & Sf).
           rewrite C. repeat split; assumption.
        -- destruct E as (Sf & E). split; [exact Sf|].
           destruct (strings.Contains e' _); [|exact E].
           destruct E as (<- & Fr). split; [reflexivity | exact Fr].
        -- replace (k + S (List.length errs) - 1)%nat
             with (S k + List.length errs - 1)%nat by lia.
           exact E.
      * exists [Some e]. cbn. rewrite C. repeat split; auto. lia.
    + exists [None]. cbn. replace (k + 1 - 1)%nat with k by lia.
      repeat split; auto. lia.
Qed.

Lemma rev_head_last {A : Type} (l r : list A) (x d : A) :
  rev l = x :: r -> l = (rev r ++ [x])%list /\ last l d = x /\ removelast l = rev r.
Proof.
  intros R. apply (f_equal (@rev _)) in R. rewrite rev_involutive in R.
  cbn [rev] in R. subst l. split; [reflexivity|]. split.
  - apply last_last.
  - apply removelast_last.
Qed.

Lemma created_attempts {World : Type} (w : GitHubAPIWrapper World)
    (proposed : string) (sha : option string) (errs : list (option string)) :
  forall k,
    existsb created (map (attempt w proposed sha)
                         (combine (seq k (List.length errs)) errs))
    = existsb isNil errs.
Proof.
  induction errs as [|e errs IH]; intros k; [reflexivity|].
  cbn [List.length seq combine map existsb]. rewrite IH.
  now destruct e.
Qed.

Lemma conflict_not_nil (errs : list (option string)) :
  forallb conflict errs = true -> existsb isNil errs = false.
Proof.
  induction errs as [|[e|] errs IH]; cbn; [reflexivity| |discriminate].
  intros H. apply andb_true_iff in H. now apply IH.
Qed.

Lemma In_last_attempt {A : Type} (l : list A) (x : A) :
  forall k, In ((k + List.length l)%nat, x)
               (combine (seq k (List.length (l ++ [x]))) (l ++ [x])).
Proof.
  induction l as [|y l IH]; intros k; cbn.
  - left. f_equal. lia.
  - right. replace (k + S (List.length l))%nat with (S k + List.length l)%nat by lia.
    apply IH.
Qed.

(** C2. [CreateBranch] looks the base branch up and then makes creation
    attempts only: attempt number [k] asks for [candidate proposed k], that
    is the proposed name first and then its [_v1], [_v2], ... variants in
    increasing order; there are at most 1000 attempts, and at least one
    once the base branch was found.  Every attempt before the last was
    answered by the already-exists conflict; an attempt answered by any
    other error is the last one and the error is returned; and when all
    attempts met the conflict there were exactly 1000 of them and the
    result is the "Unable to create branch" message with a nil error. *)
Theorem CreateBranch_retries_with_version_suffix {World : Type}
    (s : Session World) (proposed : string) :
  exists (sha : option string) (errs : list (option string)),
    calls (snd (CreateBranch proposed s))
    = (calls s
       ++ GetRef (owner (self s)) (repoName (self s))
                 ("refs/heads/" ++ githubBaseBranch (self s))
          :: map (attempt (self s) proposed sha)
                 (combine (seq 0 (List.length errs)) errs))%list
    /\ (List.length errs <= 1000)%nat
    /\ (isOk (GitGetRef (client (self s)) (remote s) (owner (self s))
                (repoName (self s)) ("refs/heads/" ++ githubBaseBranch (self s)))
         = true -> (1 <= List.length errs)%nat)
    /\ candidate proposed 0 = proposed
    /\ (forall k, candidate proposed (S k)
                   = proposed ++ "_v" ++ strconv.Itoa (Z.of_nat (S k)))
    /\ forallb conflict (removelast errs) = true
    /\ (forall e, last errs None = Some e -> conflict (Some e) = false ->
          fst (CreateBranch proposed s)
          = ("", Some ("failed to create branch: " ++ e)))
    /\ (forallb conflict errs = true -> errs <> [] ->
          List.length errs = 1000%nat
          /\ fst (CreateBranch proposed s)
              = ("Unable to create branch. At least 1000 branches exist with named derived from proposed_branch_name: `"
                 ++ proposed ++ "`", None)).
Proof.
  unfold CreateBranch, bind, this, reading, ret. cbn [self remote calls].
  destruct (GitGetRef _ _ _ _ _) as [baseBranch|e0].
  - match goal with
    | |- context [createLoop _ _ _ _ _ ?s'] => set (s1 := s')
    end.
    destruct (createLoop_run proposed (ObjectSHA baseBranch) 1000 0 s1)
      as (errs & L & Cs & F & E).
    change (Z.of_nat 0) with 0%Z in *. change (candidate proposed 0) with proposed in *.
    exists (ObjectSHA baseBranch), errs.
    split. { rewrite Cs. subst s1. cbn [calls self]. now rewrite <- app_assoc. }
    split; [exact L|].
    split.
    { intros _. destruct errs; [|cbn [List.length]; lia].
      cbn [rev] in E. destruct E as (E & _). discriminate E. }
    split; [reflexivity|]. split; [reflexivity|]. split; [exact F|].
    destruct (rev errs) as [|[e'|] r] eqn:R.
    + destruct E as (E & _). discriminate E.
    + destruct (rev_head_last _ _ _ None R) as (_ & La & _).
      destruct E as (_ & E). split.
      * intros e. rewrite La. intros [= <-]. cbn [conflict]. intros C.
        now rewrite C in E.
      * intros A _. destruct (rev_head_last _ _ _ None R) as (Eq & _ & _).
        rewrite Eq, forallb_app in A. apply andb_true_iff in A.
        destruct A as (_ & A). cbn in A. rewrite andb_true_r in A.
        rewrite A in E. exact E.
    + destruct (rev_head_last _ _ _ None R) as (Eq & La & _). split.
      * intros e. rewrite La. discriminate.
      * intros A _. rewrite Eq, forallb_app in A. apply andb_true_iff in A.
        destruct A as (_ & A). discriminate A.
  - exists None, []. cbn [List.length seq combine map removelast forallb last isOk].
    split; [reflexivity|]. split; [lia|]. split; [discriminate|].
    split; [reflexivity|]. split; [reflexivity|]. split; [reflexivity|].
    split; [discriminate|]. intros _ N. now elim N.
Qed.

Ltac split_cases :=
  repeat match goal with
         | |- context [RepositoriesGetContents ?a ?b ?c ?d ?e ?f] =>
           destruct (RepositoriesGetContents a b c d e f)
         | |- context [RepositoriesCreateFile ?a ?b ?c ?d ?e ?f] =>
           destruct (RepositoriesCreateFile a b c d e f) as [[?|] ?]
         | |- context [RepositoriesUpdateFile ?a ?b ?c ?d ?e ?f] =>
           destruct (RepositoriesUpdateFile a b c d e f) as [[?|] ?]
         | |- context [RepositoriesDeleteFile ?a ?b ?c ?d ?e ?f] =>
           destruct (RepositoriesDeleteFile a b c d e f) as [[?|] ?]
         | |- context [if ?x then _ else _] => destruct x
         | |- context [strings.SplitN ?a ?b ?c] =>
           destruct (strings.SplitN a b c) as [|? [|? ?]]
         end.

Ltac close_targets :=
  cbn [fst snd calls self remote]; rewrite <- ?app_assoc;
  first [ exists []; split; [now rewrite app_nil_r | constructor]
        | eexists; split; [reflexivity | repeat constructor] ].

Lemma file_methods_target_active_branch {World : Type} (s : Session World)
    (fileQuery : string) :
  targets (CreateFile fileQuery) s (activeBranch (self s))
  /\ targets (UpdateFile fileQuery) s (activeBranch (self s))
  /\ targets (DeleteFile fileQuery) s (activeBranch (self s)).
Proof.
  unfold targets. split; [|split].
  - run_method. split_cases; close_targets.
  - unfold UpdateFile. unfold bind at 1. unfold this at 1. cbn [self].
    destruct (String.eqb _ _); [unfold ret; close_targets|].
    destruct (strings.Split fileQuery LF) as [|path rest];
      [unfold ret; close_targets|].
    cbv zeta. destruct (_ || _ || _ || _)%bool; [unfold ret; close_targets|].
    destruct (slice _ _ _); [|unfold ret; close_targets].
    destruct (slice _ _ _); [|unfold ret; close_targets].
    unfold bind at 1. rewrite ReadFile_run.
    destruct (String.eqb _ _); [unfold ret; close_targets|].
    run_method. split_cases; close_targets.
  - run_method. split_cases; close_targets.
Qed.

(** C10. When a creation attempt of [CreateBranch] is accepted, the wrapper
    differs from the one before the call in its active branch alone, which
    is now the name that was created ([candidate proposed k], the proposed
    name or a [_v<k>] variant), and every remote call that [CreateFile],
    [UpdateFile] or [DeleteFile] makes from then on names that branch.
    When no attempt is accepted (the base lookup failed, an attempt met
    another error, or all 1000 names were taken) the wrapper is unchanged. *)
Theorem CreateBranch_activates_created_branch {World : Type}
    (s : Session World) (proposed : string) :
  exists new : list Call,
    calls (snd (CreateBranch proposed s)) = (calls s ++ new)%list
    /\ (existsb created new = true ->
        exists k sha,
          (k < 1000)%nat
          /\ In (attempt (self s) proposed sha (k, None)) new
          /\ fst (CreateBranch proposed s)
              = ("Branch '" ++ candidate proposed k
                 ++ "' created successfully, and set as current active branch.",
                 None)
          /\ self (snd (CreateBranch proposed s))
              = withActiveBranch (self s) (candidate proposed k)
          /\ activeBranch (self (snd (CreateBranch proposed s)))
              = candidate proposed k
          /\ (forall fileQuery,
                targets (CreateFile fileQuery) (snd (CreateBranch proposed s))
                        (candidate proposed k)
                /\ targets (UpdateFile fileQuery) (snd (CreateBranch proposed s))
                           (candidate proposed k)
                /\ targets (DeleteFile fileQuery) (snd (CreateBranch proposed s))
                           (candidate proposed k)))
    /\ (existsb created new = false ->
        self (snd (CreateBranch proposed s)) = self s).
Proof.
  unfold CreateBranch, bind, this, reading, ret. cbn [self remote calls].
  destruct (GitGetRef _ _ _ _ _) as [baseBranch|e0].
  - match goal with
    | |- context [createLoop _ _ _ _ _ ?s'] => set (s1 := s')
    end.
    destruct (createLoop_run proposed (ObjectSHA baseBranch) 1000 0 s1)
      as (errs & L & Cs & F & E).
    change (Z.of_nat 0) with 0%Z in *. change (candidate proposed 0) with proposed in *.
    eexists. split.
    { rewrite Cs. subst s1. cbn [calls self]. rewrite <- app_assoc. reflexivity. }
    cbn [app existsb created orb]. rewrite created_attempts.
    destruct (rev errs) as [|[e'|] r] eqn:R.
    + destruct E as (E & _). discriminate E.
    + destruct (rev_head_last _ _ _ None R) as (Eq & _ & Rl).
      rewrite Rl in F. rewrite Eq, existsb_app, (conflict_not_nil _ F).
      cbn [existsb isNil orb]. split; [discriminate|]. intros _.
      destruct E as (E & _). exact E.
    + destruct (rev_head_last _ _ _ None R) as (Eq & _ & Rl).
      destruct E as (Fr & Sf). split.
      * intros _. exists (0 + List.length errs - 1)%nat, (ObjectSHA baseBranch).
        assert (Len : List.length errs = S (List.length (rev r))).
        { rewrite Eq at 1. rewrite length_app. cbn. lia. }
        split; [lia|]. split.
        { right. replace (0 + List.length errs - 1)%nat
            with (0 + List.length (rev r))%nat by lia.
          apply in_map. rewrite Eq. apply In_last_attempt. }
        split; [exact Fr|]. split; [exact Sf|]. split; [now rewrite Sf|].
        intros fileQuery.
        pose proof (file_methods_target_active_branch
                      (snd (createLoop 1000 0 proposed proposed
                              (ObjectSHA baseBranch) s1)) fileQuery) as T.
        rewrite Sf in T. exact T.
      * rewrite Eq, existsb_app. cbn [existsb isNil orb]. rewrite orb_true_r.
        discriminate.
  - exists [GetRef (owner (self s)) (repoName (self s))
              ("refs/heads/" ++ githubBaseBranch (self s))].
    cbn. repeat split; auto. discriminate.
Qed.


Lemma UpdateFile_stale_run {World : Type} (s : Session World)
    (fileQuery filePath oldContent newContent : string) :
  activeBranch (self s) <> githubBaseBranch (self s) ->
  updateRequest fileQuery = Some (filePath, oldContent, newContent) ->
  ~ strings.Occurs oldContent (fst (fst (ReadFile filePath s))) ->
  UpdateFile fileQuery s
  = (Returns (notUpdated, None),
     {| self := self s; remote := remote s;
        calls := (calls s ++ [GetContents (owner (self s)) (repoName (self s))
                                filePath (activeBranch (self s))])%list |}).
Proof.
  intros NE Req Absent. apply String.eqb_neq in NE.
  unfold updateRequest in Req. unfold UpdateFile.
  unfold bind at 1. unfold this at 1. cbn [self]. rewrite NE.
  destruct (strings.Split fileQuery LF) as [|path rest]; [discriminate|].
  cbv zeta in Req |- *.
  destruct (_ || _ || _ || _)%bool; [discriminate|].
  destruct (slice _ _ _) as [oldBlock|]; [|discriminate].
  destruct (slice _ _ _) as [newBlock|]; [|discriminate].
  injection Req as -> <- <-.
  unfold bind. rewrite ReadFile_run in Absent |- *. cbn [fst snd] in Absent.
  rewrite (ReplaceAll_absent _ _ _ Absent), String.eqb_refl.
  reflexivity.
Qed.

(** C1 (amended). On a branch other than the base branch, for a payload
    that carries a path line and well-formed OLD and NEW blocks: when the
    trimmed OLD block does not occur in the text [ReadFile] yields for the
    path, [UpdateFile] returns the "old content was not found" message with
    a nil error, the remote is left as it was, and the only call made is
    the one that read the file. *)
Theorem UpdateFile_stale_old_block_is_noop {World : Type} (s : Session World)
    (fileQuery filePath oldContent newContent : string) :
  activeBranch (self s) <> githubBaseBranch (self s) ->
  updateRequest fileQuery = Some (filePath, oldContent, newContent) ->
  ~ strings.Occurs oldContent (fst (fst (ReadFile filePath s))) ->
  fst (UpdateFile fileQuery s)
  = Returns ("File content was not updated because old content was not found. It may be helpful to use the read_file action to get the current file contents.", None)
  /\ remote (snd (UpdateFile fileQuery s)) = remote s
  /\ self (snd (UpdateFile fileQuery s)) = self s
  /\ calls (snd (UpdateFile fileQuery s))
      = (calls s ++ [GetContents (owner (self s)) (repoName (self s)) filePath
                       (activeBranch (self s))])%list.
Proof.
  intros NE Req Absent.
  rewrite (UpdateFile_stale_run s fileQuery filePath oldContent newContent NE Req Absent).
  repeat split.
Qed.

(** A stale payload on the [fix] branch of the demo remote. *)
Lemma UpdateFile_stale_witness :
  activeBranch (self (Demo.sessionOn "fix")) <> githubBaseBranch (self (Demo.sessionOn "fix"))
  /\ updateRequest Demo.stalePayload = Some ("notes.txt", "goodbye", "farewell")
  /\ fst (ReadFile "notes.txt" (Demo.sessionOn "fix")) = ("hello world", None)
  /\ fst (UpdateFile Demo.stalePayload (Demo.sessionOn "fix"))
      = Returns ("File content was not updated because old content was not found. It may be helpful to use the read_file action to get the current file contents.", None)
  /\ remote (snd (UpdateFile Demo.stalePayload (Demo.sessionOn "fix"))) = Demo.toy.
Proof.
  assert (NE : activeBranch (self (Demo.sessionOn "fix"))
               <> githubBaseBranch (self (Demo.sessionOn "fix")))
    by (intros E; discriminate E).
  assert (Absent : ~ strings.Occurs "goodbye"
                     (fst (fst (ReadFile "notes.txt" (Demo.sessionOn "fix"))))).
  { intros O. apply Occurs_indexNat in O. destruct O as [i O].
    vm_compute in O. discriminate O. }
  split; [exact NE|]. split; [reflexivity|]. split; [reflexivity|].
  destruct (UpdateFile_stale_old_block_is_noop (Demo.sessionOn "fix")
              Demo.stalePayload "notes.txt" "goodbye" "farewell" NE eq_refl Absent)
    as (R & W & _).
  split; [exact R | exact W].
Defined.

(** C1 as stated fails on the base branch: the OLD block [goodbye] does
    not occur in [notes.txt], yet the answer is the protected-branch
    message, not the "old content was not found" one. *)
Lemma UpdateFile_on_base_branch_is_refused :
  updateRequest Demo.stalePayload = Some ("notes.txt", "goodbye", "farewell")
  /\ fst (ReadFile "notes.txt" (Demo.sessionOn "main")) = ("hello world", None)
  /\ strings.Contains "hello world" "goodbye" = false
  /\ fst (UpdateFile Demo.stalePayload (Demo.sessionOn "main"))
      = Returns ("You're attempting to commit to the directly to the main branch, which is protected. Please create a new branch and try again.", None)
  /\ fst (UpdateFile Demo.stalePayload (Demo.sessionOn "main"))
      <> Returns ("File content was not updated because old content was not found. It may be helpful to use the read_file action to get the current file contents.", None).
Proof.
  repeat split; try reflexivity. intros E. vm_compute in E. discriminate E.
Qed.

(** The attempts on a remote where every name is taken. *)
Lemma CreateBranch_retries_witness :
  exists sha errs,
    calls (snd (CreateBranch "fix" Demo.crowdedSession))
    = GetRef "octo" "demo" "refs/heads/main"
      :: map (attempt (self Demo.crowdedSession) "fix" sha)
             (combine (seq 0 (List.length errs)) errs)
    /\ (1 <= List.length errs <= 1000)%nat
    /\ forallb conflict (removelast errs) = true.
Proof.
  destruct (CreateBranch_retries_with_version_suffix Demo.crowdedSession "fix")
    as (sha & errs & Cs & L & One & _ & _ & F & _).
  exists sha, errs. split; [exact Cs|]. split; [|exact F].
  split; [exact (One eq_refl) | exact L].
Defined.

(** The branch made active on a remote where [fix] and [fix_v1] are taken. *)
Lemma CreateBranch_activation_witness :
  exists k,
    (k < 1000)%nat
    /\ activeBranch (self (snd (CreateBranch "fix" (Demo.sessionOn "main"))))
       = candidate "fix" k.
Proof.
  destruct (CreateBranch_activates_created_branch (Demo.sessionOn "main") "fix")
    as (new & Cs & Hs & _).
  assert (X : existsb created new = true).
  { cbn [calls Demo.sessionOn app] in Cs. rewrite <- Cs. vm_compute. reflexivity. }
  destruct (Hs X) as (k & sha & L & _ & _ & _ & A & _).
  exists k. split; [exact L | exact A].
Defined.

(** The retry on a remote where [fix] and [fix_v1] are taken. *)
Example CreateBranch_takes_first_free_name :
  fst (CreateBranch "fix" (Demo.sessionOn "main"))
  = ("Branch 'fix_v2' created successfully, and set as current active branch.", None)
  /\ activeBranch (self (snd (CreateBranch "fix" (Demo.sessionOn "main")))) = "fix_v2"
  /\ map (fun c => match c with
                   | CreateRef _ _ ref err => (Ref ref, isNil err)
                   | _ => ("", false)
                   end)
         (calls (snd (CreateBranch "fix" (Demo.sessionOn "main"))))
     = [("", false); ("refs/heads/fix", false); ("refs/heads/fix_v1", false);
        ("refs/heads/fix_v2", true)].
Proof. repeat split; vm_compute; reflexivity. Qed.

(** The retry on a remote where every name is taken: 1000 attempts, the
    last one for [fix_v999]. *)
Example CreateBranch_gives_up_after_1000_attempts :
  fst (CreateBranch "fix" Demo.crowdedSession)
  = ("Unable to create branch. At least 1000 branches exist with named derived from proposed_branch_name: `fix`", None)
  /\ List.length (filter isWrite (calls (snd (CreateBranch "fix" Demo.crowdedSession))))
     = 1000%nat
  /\ last (calls (snd (CreateBranch "fix" Demo.crowdedSession))) (GetRepository "" "")
     = CreateRef "octo" "demo"
         {| Ref := "refs/heads/fix_v999"; ObjectSHA := Some "aa218f" |}
         (Some "422 Reference already exists")
  /\ activeBranch (self (snd (CreateBranch "fix" Demo.crowdedSession))) = "main".
Proof. repeat split; vm_compute; reflexivity. Qed.

End WrapperFacts.

(* ================================================================== *)
(** * The document loaders                                            *)
(* ================================================================== *)

Module LoaderFacts.

Import utf8 strings documentloaders StringFacts.

Lemma Occurs_byte_app (c : ascii) (x y : string) :
  strings.Occurs (String c "") (x ++ y) ->
  strings.Occurs (String c "") x \/ strings.Occurs (String c "") y.
Proof.
  induction x as [|d x IH]; [now right|].
  intros (p & q & E). destruct p as [|e p].
  - cbn in E. injection E as -> _. left. now exists "", x.
  - cbn in E. injection E as _ E. destruct IH as [(p' & q' & ->)|R].
    + now exists p, q.
    + left. now exists (String d p'), q'.
    + now right.
Qed.

Ltac no_occurrence :=
  let O := fresh "O" in
  let i := fresh "i" in
  intros O; apply Occurs_indexNat in O; destruct O as [i O];
  vm_compute in O; discriminate O.

Lemma TrimSpace_tight_app (c d : ascii) (a b : string) :
  tight c = true -> tight d = true ->
  TrimSpace (String c a ++ b ++ String d "") = String c a ++ b ++ String d "".
Proof.
  intros Tc Td. cbn [append]. rewrite <- append_assoc.
  now apply TrimSpace_tight.
Qed.

Lemma getNextURL_prev_next (url1 url2 : string) :
  ~ strings.Occurs "," url1 -> ~ strings.Occurs ";" url1 ->
  ~ strings.Occurs "," url2 -> ~ strings.Occurs ";" url2 ->
  Trim url2 "<>" = url2 ->
  getNextURL (prevNextHeader url1 url2) = url2.
Proof.
  intros C1 S1 C2 S2 T.
  assert (Shape : prevNextHeader url1 url2
                  = (String "<" url1 ++ (">; rel=" ++ DQ ++ "prev") ++ DQ)
                    ++ String "," (String " " (String "<" url2 ++ (">; rel=" ++ DQ ++ "next") ++ DQ))).
  { unfold prevNextHeader. cbn [append DQ]. rewrite !append_assoc. reflexivity. }
  set (A := String "<" url1 ++ (">; rel=" ++ DQ ++ "prev") ++ DQ) in *.
  set (B := String "<" url2 ++ (">; rel=" ++ DQ ++ "next") ++ DQ) in *.
  assert (TA : TrimSpace A = A) by (apply TrimSpace_tight_app; reflexivity).
  assert (TB : TrimSpace B = B) by (apply TrimSpace_tight_app; reflexivity).
  assert (cA : ~ strings.Occurs "," A).
  { intros O. apply Occurs_byte_app in O. destruct O as [O|O].
    - apply (Occurs_byte_app _ "<" url1) in O. destruct O as [O|O];
        [revert O; no_occurrence | now apply C1].
    - revert O; no_occurrence. }
  assert (cB : ~ strings.Occurs "," (String " " B)).
  { intros O. apply (Occurs_byte_app _ " <" (url2 ++ _)) in O.
    destruct O as [O|O]; [revert O; no_occurrence|].
    apply Occurs_byte_app in O. destruct O as [O|O];
      [now apply C2 | revert O; no_occurrence]. }
  assert (PA : Split A ";" = [String "<" url1 ++ ">";
                              String " " ("rel=" ++ DQ ++ "prev" ++ DQ)]).
  { replace A with ((String "<" url1 ++ ">")
                    ++ String ";" (String " " ("rel=" ++ DQ ++ "prev" ++ DQ)))
      by (subst A; cbn [append DQ]; rewrite !append_assoc; reflexivity).
    rewrite Split_byte_cons; [reflexivity|].
    intros O. apply (Occurs_byte_app _ "<" (url1 ++ _)) in O.
    destruct O as [O|O]; [revert O; no_occurrence|].
    apply Occurs_byte_app in O. destruct O as [O|O];
      [now apply S1 | revert O; no_occurrence]. }
  assert (PB : Split B ";" = [String "<" url2 ++ ">";
                              String " " ("rel=" ++ DQ ++ "next" ++ DQ)]).
  { replace B with ((String "<" url2 ++ ">")
                    ++ String ";" (String " " ("rel=" ++ DQ ++ "next" ++ DQ)))
      by (subst B; cbn [append DQ]; rewrite !append_assoc; reflexivity).
    rewrite Split_byte_cons; [reflexivity|].
    intros O. apply (Occurs_byte_app _ "<" (url2 ++ _)) in O.
    destruct O as [O|O]; [revert O; no_occurrence|].
    apply Occurs_byte_app in O. destruct O as [O|O];
      [now apply S2 | revert O; no_occurrence]. }
  unfold getNextURL. rewrite Shape.
  replace (String.eqb (A ++ String "," (String " " B)) "") with false
    by (subst A; reflexivity).
  rewrite (Split_byte_cons _ _ _ cA), (Split_absent "," _ ltac:(discriminate) cB).
  cbn [nextAmong]. rewrite TA, PA.
  replace (Contains (String " " ("rel=" ++ DQ ++ "prev" ++ DQ)) relNext)
    with false by reflexivity.
  rewrite TrimSpace_space, TB, PB.
  replace (Contains (String " " ("rel=" ++ DQ ++ "next" ++ DQ)) relNext)
    with true by reflexivity.
  change (String "<" url2 ++ ">") with (String "<" (url2 ++ String ">" "")).
  rewrite TrimSpace_tight by reflexivity.
  change (String "<" (url2 ++ String ">" "")) with ("<" ++ url2 ++ ">").
  now rewrite Trim_brackets.
Qed.

Lemma nextAmong_absent (links : list string) :
  (forall link, In link links -> ~ strings.Occurs relNext link) ->
  nextAmong links = "".
Proof.
  induction links as [|link rest IH]; intros N; [reflexivity|].
  cbn [nextAmong].
  assert (R : nextAmong rest = "") by (apply IH; intros l I; apply N; now right).
  destruct (Split (TrimSpace link) ";") as [|p0 [|p1 [|p2 ps]]] eqn:P; try exact R.
  destruct (Contains p1 relNext) eqn:C; [|exact R].
  exfalso. apply (N link); [now left|].
  apply Contains_Occurs in C.
  eapply Occurs_trans; [exact C|].
  eapply Occurs_trans; [|apply TrimSpace_sub].
  apply (Split_pieces _ ";"); [discriminate|]. rewrite P. right. now left.
Qed.

Lemma getNextURL_absent (linkHeader : string) :
  ~ strings.Occurs relNext linkHeader -> getNextURL linkHeader = "".
Proof.
  intros N. unfold getNextURL. destruct (String.eqb linkHeader ""); [reflexivity|].
  apply nextAmong_absent. intros link I O. apply N.
  eapply Occurs_trans; [exact O|]. apply (Split_pieces _ ","); [discriminate|exact I].
Qed.


(** C6 (amended). For the header [<url1>; rel="prev", <url2>; rel="next"]
    whose URLs hold no comma and no semicolon and whose second URL neither
    starts nor ends with an angle bracket, [getNextURL] returns exactly
    [url2]; it returns the empty string for the empty header and for every
    header in which [rel="next"] does not occur. *)
Theorem getNextURL_finds_the_next_link (url1 url2 linkHeader : string) :
  (~ strings.Occurs "," url1 -> ~ strings.Occurs ";" url1 ->
   ~ strings.Occurs "," url2 -> ~ strings.Occurs ";" url2 ->
   Trim url2 "<>" = url2 ->
   getNextURL (prevNextHeader url1 url2) = url2)
  /\ getNextURL "" = ""
  /\ (~ strings.Occurs relNext linkHeader -> getNextURL linkHeader = "")
  /\ relNext = "rel=" ++ DQ ++ "next" ++ DQ.
Proof.
  split; [apply getNextURL_prev_next|]. split; [reflexivity|].
  split; [apply getNextURL_absent | reflexivity].
Qed.

(** The header of the example, with GitHub's URLs and with the literal ones. *)
Lemma getNextURL_witness :
  getNextURL (prevNextHeader "https://api.github.com/repositories/1/issues?page=1"
                             "https://api.github.com/repositories/1/issues?page=3")
  = "https://api.github.com/repositories/1/issues?page=3"
  /\ getNextURL (prevNextHeader "url1" "url2") = "url2"
  /\ getNextURL ("<url1>; rel=" ++ DQ ++ "prev" ++ DQ) = "".
Proof.
  split; [|split].
  - apply (getNextURL_finds_the_next_link _ _ ""); try no_occurrence. reflexivity.
  - apply (getNextURL_finds_the_next_link _ _ ""); try no_occurrence. reflexivity.
  - apply (getNextURL_finds_the_next_link "" ""). no_occurrence.
Defined.

(** C6 as stated fails twice over: a next link written without angle
    brackets is malformed, yet its text is returned; and a well-formed
    header whose next URL holds a comma does not give that URL back. *)
Lemma getNextURL_is_lenient_and_splits_on_commas :
  Demo.bareHeader = "foo; rel=" ++ DQ ++ "next" ++ DQ
  /\ getNextURL Demo.bareHeader = "foo"
  /\ getNextURL (prevNextHeader "https://h/p?page=1" "https://h/p?ids=1,2") = "2".
Proof. repeat split. Qed.

(** C7. The content of the document [parseIssue] builds is the issue's
    body, unless the body is empty (or absent, or not a string), in which
    case it is the title; so the content is non-empty whenever the title
    is. *)
Theorem parseIssue_content_is_body_or_title (issue : Object) :
  PageContent (parseIssue issue)
  = (if String.eqb (getString issue "body") "" then getString issue "title"
     else getString issue "body")
  /\ (getString issue "body" <> "" ->
      PageContent (parseIssue issue) = getString issue "body")
  /\ (getString issue "body" = "" ->
      PageContent (parseIssue issue) = getString issue "title")
  /\ (getString issue "title" <> "" -> PageContent (parseIssue issue) <> "").
Proof.
  cbn [parseIssue PageContent].
  destruct (String.eqb (getString issue "body") "") eqn:E.
  - apply String.eqb_eq in E. repeat split; auto. intros N. now elim N.
  - apply String.eqb_neq in E. repeat split; auto. intros B. now elim E.
Qed.

(** An issue with an empty body, one with a null body, one with a body. *)
Lemma parseIssue_witness :
  getString Demo.pullB "body" = ""
  /\ getString Demo.pullB "title" <> ""
  /\ PageContent (parseIssue Demo.pullB) = "Fix crash"
  /\ PageContent (parseIssue Demo.issueC) = "Typo"
  /\ PageContent (parseIssue Demo.issueA) = "It crashes.".
Proof.
  destruct (parseIssue_content_is_body_or_title Demo.pullB) as (_ & _ & T & _).
  destruct (parseIssue_content_is_body_or_title Demo.issueC) as (_ & _ & T' & _).
  destruct (parseIssue_content_is_body_or_title Demo.issueA) as (_ & B & _ & _).
  split; [reflexivity|]. split; [discriminate|].
  split; [exact (T eq_refl)|]. split; [exact (T' eq_refl)|].
  apply B. discriminate.
Defined.


Lemma append_cons_nonempty (a b : string) (c : ascii) : a ++ String c b <> "".
Proof. destruct a; discriminate. Qed.

Lemma Split_owner_repo (owner repoName : string) :
  ~ strings.Occurs "/" owner -> ~ strings.Occurs "/" repoName ->
  Split (owner ++ "/" ++ repoName) "/" = [owner; repoName].
Proof.
  intros O R. cbn [append]. rewrite (Split_byte_cons _ _ _ O).
  now rewrite (Split_absent "/" _ ltac:(discriminate) R).
Qed.

(** C4 (amended). With a non-empty repository string, both loaders are
    constructed whenever the GITHUB_PERSONAL_ACCESS_TOKEN variable is set,
    whatever the app credentials, and neither is when no access token is
    present at all.  With a repository string of the form owner/repo, the
    API wrapper is constructed exactly when the app ID and the private
    key are present (in the configuration or the environment) and the
    lookup of the repository succeeds; when one of the two is absent,
    construction fails before any remote call is made. *)
Theorem constructors_require_their_own_credentials :
  (forall (getenv : Env) (repo : string)
          (opts : list GitHubIssuesLoaderOption)
          (fileOpts : list GitHubFileLoaderOption),
     repo <> "" ->
     (getenv "GITHUB_PERSONAL_ACCESS_TOKEN" <> "" ->
      succeeds (NewGitHubIssuesLoader getenv repo opts)
      /\ succeeds (NewGitHubFileLoader getenv repo fileOpts))
     /\ (getenv "GITHUB_PERSONAL_ACCESS_TOKEN" = "" ->
         (forall l, AccessToken l = "" -> AccessToken (applyOptions opts l) = "") ->
         ~ succeeds (NewGitHubIssuesLoader getenv repo opts))
     /\ (getenv "GITHUB_PERSONAL_ACCESS_TOKEN" = "" ->
         (forall l, FileAccessToken l = "" ->
                    FileAccessToken (applyOptions fileOpts l) = "") ->
         ~ succeeds (NewGitHubFileLoader getenv repo fileOpts)))
  /\ (forall (World : Type) (NewClient : string -> githubapi.Client World)
             (getenv : Env) (world : World) (config : option github.Config)
             (owner repoName : string),
        let cfg := match config with
                   | Some c => c
                   | None => github.emptyConfig
                   end in
        let appId := github.orEnv getenv (github.AppID cfg) "GITHUB_APP_ID" in
        let key := github.orEnv getenv (github.PrivateKey cfg)
                                "GITHUB_APP_PRIVATE_KEY" in
        github.orEnv getenv (github.Repository cfg) "GITHUB_REPOSITORY"
        = owner ++ "/" ++ repoName ->
        ~ strings.Occurs "/" owner -> ~ strings.Occurs "/" repoName ->
        (succeeds (fst (github.NewGitHubAPIWrapper NewClient getenv world config))
         <-> appId <> "" /\ key <> ""
             /\ succeeds (githubapi.RepositoriesGet (NewClient key) world
                            owner repoName))
        /\ (appId = "" \/ key = "" ->
            ~ succeeds (fst (github.NewGitHubAPIWrapper NewClient getenv world config))
            /\ snd (github.NewGitHubAPIWrapper NewClient getenv world config) = [])).
Proof.
  split.
  - intros getenv repo opts fileOpts NE.
    unfold NewGitHubIssuesLoader, NewGitHubFileLoader.
    rewrite (eqb_empty_false _ NE). cbn [AccessToken FileAccessToken].
    split; [|split].
    + intros T. rewrite (eqb_empty_false _ T). split; eexists; reflexivity.
    + intros T _. rewrite T. cbn. intros [l E]. discriminate E.
    + intros T _. rewrite T. cbn. intros [l E]. discriminate E.
  - intros World NewClient getenv world config owner repoName cfg appId key
           Rp No Nr.
    unfold github.NewGitHubAPIWrapper.
    fold cfg. fold appId. fold key. rewrite Rp.
    rewrite (Split_owner_repo _ _ No Nr).
    rewrite (eqb_empty_false (owner ++ "/" ++ repoName))
      by (cbn [append]; apply append_cons_nonempty).
    destruct (String.eqb appId "") eqn:A.
    { apply String.eqb_eq in A. cbn [fst snd]. split.
      - split.
        + intros [w E]. discriminate E.
        + intros (N & _). now elim N.
      - intros _. split; [|reflexivity]. intros [w E]. discriminate E. }
    apply String.eqb_neq in A.
    destruct (String.eqb key "") eqn:K.
    { apply String.eqb_eq in K. cbn [fst snd]. split.
      - split.
        + intros [w E]. discriminate E.
        + intros (_ & N & _). now elim N.
      - intros _. split; [|reflexivity]. intros [w E]. discriminate E. }
    apply String.eqb_neq in K.
    destruct (githubapi.RepositoriesGet (NewClient key) world owner repoName)
      as [repo|e]; cbn [fst snd].
    + split.
      * split.
        -- intros _. split; [exact A|]. split; [exact K|]. now exists repo.
        -- intros _. eexists. reflexivity.
      * intros [E|E]; [now elim A | now elim K].
    + split.
      * split.
        -- intros [w E]. discriminate E.
        -- intros (_ & _ & [r E]). discriminate E.
      * intros [E|E]; [now elim A | now elim K].
Qed.


Lemma appendIssues_pageDocs (l : GitHubIssuesLoader) (issues : list Object) :
  forall allDocs,
    appendIssues l issues allDocs = Returns (allDocs ++ pageDocs l issues)%list.
Proof.
  unfold pageDocs, keeps.
  induction issues as [|issue rest IH]; intros allDocs; cbn [appendIssues].
  - cbn. now rewrite app_nil_r.
  - change (isPullRequest (parseIssue issue))
      with (Returns (notNil (lookup issue "pull_request"))).
    cbn [filter]. destruct (IncludePRs l); cbn [negb orb].
    + rewrite IH. cbn [map]. now rewrite <- app_assoc.
    + destruct (notNil _); cbn [negb]; rewrite IH; [reflexivity|].
      cbn [map]. now rewrite <- app_assoc.
Qed.

Lemma buildURL_nonempty (l : GitHubIssuesLoader) : buildURL l <> "".
Proof.
  unfold buildURL. cbv zeta.
  match goal with
  | |- match ?p with _ => _ end <> _ => destruct p
  end.
  - cbn [append]. apply append_cons_nonempty.
  - cbn [append]. apply append_cons_nonempty.
Qed.

Section Walking.

Variable roundTrip : Request -> Exchange.
Variable l : GitHubIssuesLoader.

Lemma loadLoop_follows_walk (url : string) (pages : list (Request * list Object)) :
  explicitPage l = false ->
  Walk roundTrip l url pages ->
  forall fuel allDocs sent,
    (List.length pages <= fuel)%nat ->
    loadLoop roundTrip fuel l url allDocs sent
    = Some (Returns (Ok (allDocs ++ walked l pages)%list),
            (sent ++ map fst pages)%list).
Proof.
  intros Auto W. induction W as [url status link issues NE RT Last
                                |url status link issues pages NE RT W IH];
    intros fuel allDocs sent L.
  - destruct fuel as [|fuel]; [cbn in L; lia|].
    cbn [loadLoop]. rewrite (eqb_empty_false _ NE), RT. cbn [Z.eqb Pos.eqb negb].
    rewrite appendIssues_pageDocs, Auto, Last.
    destruct fuel; cbn; now rewrite app_nil_r.
  - destruct fuel as [|fuel]; [cbn in L; lia|].
    cbn [loadLoop]. rewrite (eqb_empty_false _ NE), RT. cbn [Z.eqb Pos.eqb negb].
    rewrite appendIssues_pageDocs, Auto.
    rewrite IH by (cbn in L; lia).
    unfold walked. cbn [flat_map map fst snd]. now rewrite <- !app_assoc.
Qed.

Lemma loadLoop_walk_of_success (fuel : nat) :
  explicitPage l = false ->
  forall url allDocs sent docs sent',
    url <> "" ->
    loadLoop roundTrip fuel l url allDocs sent = Some (Returns (Ok docs), sent') ->
    exists pages,
      Walk roundTrip l url pages
      /\ docs = (allDocs ++ walked l pages)%list
      /\ sent' = (sent ++ map fst pages)%list.
Proof.
  intros Auto. induction fuel as [|fuel IH]; intros url allDocs sent docs sent' NE;
    cbn [loadLoop]; rewrite (eqb_empty_false _ NE); [discriminate|].
  destruct (roundTrip (request l url)) as [e|e|code status body link] eqn:RT;
    try discriminate.
  destruct (code =? 200)%Z eqn:C; cbn [negb]; [|discriminate].
  apply Z.eqb_eq in C. subst code.
  destruct body as [issues|e]; [|discriminate].
  rewrite appendIssues_pageDocs, Auto.
  destruct (String.eqb (getNextURL link) "") eqn:N.
  - apply String.eqb_eq in N. rewrite N.
    replace (loadLoop roundTrip fuel l "" (allDocs ++ pageDocs l issues)
                      (sent ++ [request l url]))
      with (Some (Returns (Ok (allDocs ++ pageDocs l issues)%list),
                  (sent ++ [request l url])%list))
      by (destruct fuel; reflexivity).
    intros [= <- <-]. exists [(request l url, issues)]. split.
    + now apply (Walk_last _ _ url status link).
    + unfold walked. cbn. now rewrite app_nil_r.
  - apply String.eqb_neq in N. intros H.
    destruct (IH _ _ _ _ _ N H) as (pages & W & -> & ->).
    exists ((request l url, issues) :: pages). split.
    + now apply (Walk_next _ _ url status link).
    + unfold walked. cbn [flat_map map fst snd]. now rewrite <- !app_assoc.
Qed.

Lemma loadLoop_never_panics (fuel : nat) :
  forall url allDocs sent msg sent',
    loadLoop roundTrip fuel l url allDocs sent <> Some (Panics msg, sent').
Proof.
  induction fuel as [|fuel IH]; intros url allDocs sent msg sent';
    cbn [loadLoop]; destruct (String.eqb url ""); try discriminate.
  destruct (roundTrip _) as [e|e|code status body link]; try discriminate.
  destruct (negb _); [discriminate|].
  destruct body as [issues|e]; [|discriminate].
  rewrite appendIssues_pageDocs. destruct (explicitPage l); [discriminate|].
  apply IH.
Qed.

Lemma loadLoop_single_page (fuel : nat) (url : string) :
  explicitPage l = true -> url <> "" ->
  (exists out sent,
     loadLoop roundTrip (S fuel) l url [] [] = Some (out, sent)
     /\ (sent = [] \/ sent = [request l url]))
  /\ (forall status issues link,
        roundTrip (request l url) = Response 200 status (Ok issues) link ->
        loadLoop roundTrip (S fuel) l url [] []
        = Some (Returns (Ok (pageDocs l issues)), [request l url])).
Proof.
  intros Ex NE. cbn [loadLoop]. rewrite (eqb_empty_false _ NE). split.
  - destruct (roundTrip (request l url)) as [e|e|code status body link].
    + eexists _, _. split; [reflexivity | now left].
    + eexists _, _. split; [reflexivity | now right].
    + destruct (negb _); [eexists _, _; split; [reflexivity | now right]|].
      destruct body as [issues|e]; [|eexists _, _; split; [reflexivity | now right]].
      rewrite appendIssues_pageDocs, Ex.
      eexists _, _; split; [reflexivity | now right].
  - intros status issues link ->. cbn [Z.eqb Pos.eqb negb].
    now rewrite appendIssues_pageDocs, Ex.
Qed.

End Walking.



(** With the variable unset, a token passed as an option comes too late:
    the check precedes the options. *)
Example option_token_comes_after_the_check :
  NewGitHubIssuesLoader Demo.noEnv "owner/repo" [WithAccessToken "test-token"]
  = Err "GITHUB_PERSONAL_ACCESS_TOKEN environment variable is required"
  /\ NewGitHubFileLoader Demo.noEnv "owner/repo" [WithFileAccessToken "test-token"]
     = Err "GITHUB_PERSONAL_ACCESS_TOKEN environment variable is required".
Proof. split; reflexivity. Qed.

(** The constructors on the demo environments. *)
Lemma constructors_witness :
  succeeds (NewGitHubIssuesLoader Demo.tokenOnly "octo/demo" [WithState "all"])
  /\ succeeds (NewGitHubFileLoader Demo.tokenOnly "octo/demo" [WithBranch "dev"])
  /\ ~ succeeds (NewGitHubIssuesLoader Demo.noEnv "octo/demo" [WithState "all"])
  /\ succeeds (fst (github.NewGitHubAPIWrapper Demo.toyClient Demo.noEnv
                      Demo.toy (Some Demo.appConfig)))
  /\ snd (github.NewGitHubAPIWrapper Demo.toyClient Demo.fullEnv Demo.toy
            (Some {| github.Repository := ""; github.AppID := "";
                     github.PrivateKey := "-"; github.ActiveBranch := "";
                     github.GitHubBaseBranch := "" |})) = [github.GetRepository "octo" "demo"].
Proof.
  destruct constructors_require_their_own_credentials as (L & W).
  assert (NE : "octo/demo" <> "") by discriminate.
  destruct (L Demo.tokenOnly "octo/demo" [WithState "all"] [WithBranch "dev"] NE)
    as (S & _).
  destruct (L Demo.noEnv "octo/demo" [WithState "all"] [] NE) as (_ & F & _).
  destruct (S ltac:(discriminate)) as (S1 & S2).
  split; [exact S1|]. split; [exact S2|].
  split; [apply F; [reflexivity | intros l E; exact E]|].
  split; [|reflexivity].
  apply (W Demo.Toy Demo.toyClient Demo.noEnv Demo.toy (Some Demo.appConfig)
           "octo" "demo" eq_refl); try no_occurrence.
  split; [discriminate|]. split; [discriminate|]. eexists. reflexivity.
Defined.

(** C4 as stated fails in both directions: a loader is constructed with
    an access token and no app credentials, the wrapper with app
    credentials and no access token, and with every credential present
    the wrapper is still not constructed when the repository lookup
    fails. *)
Lemma construction_does_not_need_both_credentials :
  isOk (NewGitHubIssuesLoader Demo.tokenOnly "octo/demo" []) = true
  /\ isOk (NewGitHubFileLoader Demo.tokenOnly "octo/demo" []) = true
  /\ Demo.tokenOnly "GITHUB_APP_ID" = ""
  /\ Demo.tokenOnly "GITHUB_APP_PRIVATE_KEY" = ""
  /\ isOk (fst (github.NewGitHubAPIWrapper Demo.toyClient Demo.noEnv Demo.toy
                  (Some Demo.appConfig))) = true
  /\ Demo.noEnv "GITHUB_PERSONAL_ACCESS_TOKEN" = ""
  /\ github.NewGitHubAPIWrapper Demo.offlineClient Demo.fullEnv Demo.toy None
     = (Err "failed to get repository: 401 Bad credentials",
        [github.GetRepository "octo" "demo"]).
Proof. repeat split. Qed.



End LoaderFacts.

Module MoreStringFacts.

Import utf8 strings StringFacts.

(** [SplitN] with a limit of two cuts at the first separator only. *)
Lemma SplitN_two (s sep : string) :
  sep <> "" ->
  SplitN s sep 2 = match indexNat s sep with
                   | None => [s]
                   | Some m => [take m s; skip (m + String.length sep) s]
                   end.
Proof.
  intros NE. unfold SplitN, genSplit. cbn [Z.eqb Z.ltb Z.compare].
  rewrite (eqb_empty_false _ NE).
  destruct (len s + 1 <? 2)%Z eqn:C.
  - apply Z.ltb_lt in C. unfold len in C.
    destruct s; [|cbn [String.length] in C; lia].
    rewrite indexNat_empty by exact NE. reflexivity.
  - change (Z.to_nat (2 - 1)) with 1%nat. cbn [splitLoop].
    destruct (indexNat s sep); reflexivity.
Qed.

Lemma SplitN_two_cut (c : ascii) (a b : string) :
  ~ Occurs (String c "") a ->
  SplitN (a ++ String c b) (String c "") 2 = [a; b].
Proof.
  intros N. rewrite SplitN_two by discriminate.
  rewrite (indexNat_byte_first c a b N), take_append.
  replace (String.length a + String.length (String c ""))%nat
    with (String.length (a ++ String c "")) by (rewrite length_append; reflexivity).
  replace (a ++ String c b) with ((a ++ String c "") ++ b)
    by (rewrite append_assoc; reflexivity).
  now rewrite skip_append.
Qed.

Lemma SplitN_two_whole (s sep : string) :
  sep <> "" -> ~ Occurs sep s -> SplitN s sep 2 = [s].
Proof.
  intros NE N. rewrite (SplitN_two _ _ NE). now rewrite (indexNat_None _ _ N).
Qed.

Lemma splitLoop_nonempty (sep s : string) (k : nat) : splitLoop k s sep <> [].
Proof.
  destruct k; cbn [splitLoop]; [discriminate|].
  destruct (indexNat s sep); discriminate.
Qed.

(** Joining what [Split] cut gives the string back. *)
Lemma splitLoop_join (sep : string) (k : nat) :
  forall s, Join (splitLoop k s sep) sep = s.
Proof.
  induction k as [|k IH]; intros s; cbn [splitLoop]; [reflexivity|].
  destruct (indexNat s sep) as [m|] eqn:E; [|reflexivity].
  unfold Join in *. cbn [String.concat].
  destruct (splitLoop k (skip (m + String.length sep) s) sep) as [|x xs] eqn:L.
  - now apply splitLoop_nonempty in L.
  - rewrite <- L, IH. symmetry. now apply indexNat_Some.
Qed.

Lemma Join_Split (s sep : string) : sep <> "" -> Join (Split s sep) sep = s.
Proof. intros NE. rewrite (Split_as_loop _ _ NE). apply splitLoop_join. Qed.

Lemma indexNat_first (sub : string) :
  sub <> "" ->
  forall s m, indexNat s sub = Some m -> ~ Occurs sub (take m s).
Proof.
  intros NE. induction s as [|c s IH]; intros m; rewrite indexNat_unfold;
    destruct (String.prefix sub _) eqn:P.
  - intros [= <-] (x & y & E). cbn in E. destruct x; [|discriminate].
    destruct sub; [now elim NE|discriminate].
  - discriminate.
  - intros [= <-] (x & y & E). cbn in E. destruct x; [|discriminate].
    destruct sub; [now elim NE|discriminate].
  - destruct (indexNat s sub) as [j|] eqn:E; cbn [option_map]; [|discriminate].
    intros [= <-] (x & y & Q). cbn [take] in Q. destruct x as [|d x].
    + cbn [append] in Q.
      assert (T : String c s = sub ++ y ++ skip j s).
      { rewrite <- (take_skip j s) at 1.
        change (String c (take j s ++ skip j s))
          with (String c (take j s) ++ skip j s).
        now rewrite Q, append_assoc. }
      rewrite T, prefix_append in P. discriminate.
    + cbn [append] in Q. injection Q as _ Q. apply (IH j eq_refl).
      now exists x, y.
Qed.

Lemma splitLoop_length (sep : string) (fuel : nat) :
  forall s, List.length (splitLoop (Z.to_nat (countLoop fuel s sep)) s sep)
            = S (Z.to_nat (countLoop fuel s sep)).
Proof.
  induction fuel as [|k IH]; intros s; cbn [countLoop]; [reflexivity|].
  destruct (indexNat s sep) as [i|] eqn:E; [|cbn [Z.to_nat splitLoop]; reflexivity].
  pose proof (countLoop_bounds sep k (skip (i + String.length sep) s)) as B.
  replace (Z.to_nat (1 + countLoop k (skip (i + String.length sep) s) sep))
    with (S (Z.to_nat (countLoop k (skip (i + String.length sep) s) sep))) by lia.
  cbn [splitLoop]. rewrite E. cbn [List.length]. now rewrite IH.
Qed.

Lemma Split_length (s sep : string) :
  sep <> "" -> Z.of_nat (List.length (Split s sep)) = (Count s sep + 1)%Z.
Proof.
  intros NE. rewrite (Split_as_loop _ _ NE). unfold Count.
  rewrite (eqb_empty_false _ NE), splitLoop_length.
  pose proof (countLoop_bounds sep (String.length s) s). lia.
Qed.

(** A literal does not occur in another, by running [indexNat]. *)
Ltac absent :=
  let O := fresh "O" in
  let i := fresh "i" in
  intros O; apply Occurs_indexNat in O; destruct O as [i O];
  vm_compute in O; discriminate O.

Ltac differ := let E := fresh "E" in intros E; discriminate E.

End MoreStringFacts.

Module MoreWrapperFacts.

Import utf8 githubapi github strings StringFacts WrapperFacts MoreStringFacts.

Lemma payload_lines (filePath content : string) :
  ~ Occurs LF filePath ->
  Split (filePath ++ LF ++ content) LF = filePath :: Split content LF.
Proof. intros N. unfold LF in *. cbn [append]. now apply Split_byte_cons. Qed.

Lemma payload_content (content : string) : Join (Split content LF) LF = content.
Proof. apply Join_Split. discriminate. Qed.

Lemma payload_two (filePath fileContents : string) :
  ~ Occurs LF filePath ->
  SplitN (filePath ++ LF ++ fileContents) LF 2 = [filePath; fileContents].
Proof. intros N. unfold LF in *. cbn [append]. now apply SplitN_two_cut. Qed.

(** X1. On a branch other than the base branch, [CreateFile] with a
    query of a path line and a text, for a path the remote already has
    on the active branch, answers that the file exists and that
    [update_file] is to be used, with a nil error: it looked the file up
    once and made no writing call, and the remote is as it was. *)
Theorem CreateFile_never_overwrites {World : Type} (s : Session World)
    (filePath fileContents : string) (existing : RepositoryContent) :
  activeBranch (self s) <> githubBaseBranch (self s) ->
  ~ Occurs LF filePath ->
  RepositoriesGetContents (client (self s)) (remote s) (owner (self s))
    (repoName (self s)) filePath (activeBranch (self s)) = Ok existing ->
  CreateFile (filePath ++ LF ++ fileContents) s
  = (("File already exists at `" ++ filePath ++ "` on branch `"
      ++ activeBranch (self s)
      ++ "`. You must use `update_file` to modify it.", None),
     {| self := self s; remote := remote s;
        calls := (calls s ++ [GetContents (owner (self s)) (repoName (self s))
                                filePath (activeBranch (self s))])%list |}).
Proof.
  intros NE N G. apply String.eqb_neq in NE. run_method.
  rewrite NE, (payload_two _ _ N), G. reflexivity.
Qed.

Lemma CreateFile_never_overwrites_witness :
  fst (CreateFile ("notes.txt" ++ LF ++ "new text") (Demo.sessionOn "fix"))
  = ("File already exists at `notes.txt` on branch `fix`. You must use `update_file` to modify it.",
     None)
  /\ remote (snd (CreateFile ("notes.txt" ++ LF ++ "new text") (Demo.sessionOn "fix")))
     = Demo.toy.
Proof.
  rewrite (CreateFile_never_overwrites (Demo.sessionOn "fix") "notes.txt" "new text"
             {| GetContent := Ok "hello world"; SHA := Some "3b18e5" |});
    [split; reflexivity | differ | absent | reflexivity].
Defined.

(** X2. On a branch other than the base branch, for a path the lookup
    does not find, [CreateFile] makes one creation call on the active
    branch with the message [Create <path>] and, as content, everything
    after the first newline of the query, further newlines included; its
    answer is [Created file <path>] or carries the error of the call,
    with a nil error either way. *)
Theorem CreateFile_sends_text_after_first_line {World : Type}
    (s : Session World) (filePath fileContents e : string) :
  activeBranch (self s) <> githubBaseBranch (self s) ->
  ~ Occurs LF filePath ->
  RepositoriesGetContents (client (self s)) (remote s) (owner (self s))
    (repoName (self s)) filePath (activeBranch (self s)) = Err e ->
  let opts := {| Message := "Create " ++ filePath; Content := Some fileContents;
                 Branch := activeBranch (self s); FileSHA := None |} in
  let answer := RepositoriesCreateFile (client (self s)) (remote s)
                  (owner (self s)) (repoName (self s)) filePath opts in
  CreateFile (filePath ++ LF ++ fileContents) s
  = ((match fst answer with
      | None => "Created file " ++ filePath
      | Some err => "Unable to make file due to error:" ++ LF ++ err
      end, None),
     {| self := self s; remote := snd answer;
        calls := (calls s
                  ++ [GetContents (owner (self s)) (repoName (self s))
                        filePath (activeBranch (self s));
                      CreateFileCall (owner (self s)) (repoName (self s))
                        filePath opts (fst answer)])%list |}).
Proof.
  intros NE N G opts answer. apply String.eqb_neq in NE. run_method.
  rewrite NE, (payload_two _ _ N), G. fold opts. subst answer.
  destruct (RepositoriesCreateFile _ _ _ _ _ _) as [[err|] world];
    cbn [fst snd self remote calls]; rewrite <- app_assoc; reflexivity.
Qed.

Lemma CreateFile_sends_text_after_first_line_witness :
  CreateFile ("todo.txt" ++ LF ++ LF ++ "buy milk") (Demo.sessionOn "fix")
  = (("Created file todo.txt", None),
     {| self := self (Demo.sessionOn "fix");
        remote := {| Demo.branchList := Demo.branchList Demo.toy;
                     Demo.fileList := ("fix", "todo.txt", LF ++ "buy milk")
                                      :: Demo.fileList Demo.toy |};
        calls := [GetContents "octo" "demo" "todo.txt" "fix";
                  CreateFileCall "octo" "demo" "todo.txt"
                    {| Message := "Create todo.txt";
                       Content := Some (LF ++ "buy milk");
                       Branch := "fix"; FileSHA := None |} None] |}).
Proof.
  rewrite (CreateFile_sends_text_after_first_line (Demo.sessionOn "fix")
             "todo.txt" (LF ++ "buy milk") "404 Not Found");
    [reflexivity | differ | absent | reflexivity].
Defined.

(** X3. On a branch other than the base branch, a [CreateFile] query
    without a newline is answered by [Invalid file format] with a nil
    error, and nothing is called. *)
Theorem CreateFile_single_line_is_invalid {World : Type} (s : Session World)
    (fileQuery : string) :
  activeBranch (self s) <> githubBaseBranch (self s) ->
  ~ Occurs LF fileQuery ->
  CreateFile fileQuery s = (("Invalid file format", None), s).
Proof.
  intros NE N. apply String.eqb_neq in NE. run_method.
  rewrite NE, (SplitN_two_whole _ LF ltac:(discriminate) N). reflexivity.
Qed.

Lemma CreateFile_single_line_is_invalid_witness :
  CreateFile "todo.txt" (Demo.sessionOn "fix")
  = (("Invalid file format", None), Demo.sessionOn "fix").
Proof.
  apply (CreateFile_single_line_is_invalid (Demo.sessionOn "fix") "todo.txt");
    [differ | absent].
Defined.




(** X5. On a branch other than the base branch, for a well-formed
    payload whose trimmed OLD block changes the current content when
    replaced, [UpdateFile] reads the file, looks it up once more for its
    hash, and makes one update call on the active branch: the content is
    the current one with every occurrence of the OLD block replaced by
    the NEW block, the hash is that of the file found, the message is
    [Update <path>]. *)
Theorem UpdateFile_replaces_under_the_current_hash {World : Type}
    (s : Session World) (fileQuery filePath oldContent newContent : string)
    (current : RepositoryContent) (text : string) :
  activeBranch (self s) <> githubBaseBranch (self s) ->
  updateRequest fileQuery = Some (filePath, oldContent, newContent) ->
  RepositoriesGetContents (client (self s)) (remote s) (owner (self s))
    (repoName (self s)) filePath (activeBranch (self s)) = Ok current ->
  GetContent current = Ok text ->
  ReplaceAll text oldContent newContent <> text ->
  let opts := {| Message := "Update " ++ filePath;
                 Content := Some (ReplaceAll text oldContent newContent);
                 Branch := activeBranch (self s); FileSHA := SHA current |} in
  let answer := RepositoriesUpdateFile (client (self s)) (remote s)
                  (owner (self s)) (repoName (self s)) filePath opts in
  UpdateFile fileQuery s
  = (Returns (match fst answer with
              | None => "Updated file " ++ filePath
              | Some err => "Unable to update file due to error:" ++ LF ++ err
              end, None),
     {| self := self s; remote := snd answer;
        calls := (calls s
                  ++ [GetContents (owner (self s)) (repoName (self s))
                        filePath (activeBranch (self s));
                      GetContents (owner (self s)) (repoName (self s))
                        filePath (activeBranch (self s));
                      UpdateFileCall (owner (self s)) (repoName (self s))
                        filePath opts (fst answer)])%list |}).
Proof.
  intros NE Req G D Changed opts answer. apply String.eqb_neq in NE.
  unfold updateRequest in Req. unfold UpdateFile.
  unfold bind at 1. unfold this at 1. cbn [self]. rewrite NE.
  destruct (Split fileQuery LF) as [|path rest]; [discriminate|].
  cbv zeta in Req |- *.
  destruct (_ || _ || _ || _)%bool; [discriminate|].
  destruct (slice _ _ _) as [oldBlock|]; [|discriminate].
  destruct (slice _ _ _) as [newBlock|]; [|discriminate].
  injection Req as -> <- <-.
  unfold bind at 1. rewrite ReadFile_run, G, D.
  assert (C : String.eqb text (ReplaceAll text (TrimSpace oldBlock)
                                          (TrimSpace newBlock)) = false).
  { apply String.eqb_neq. intros E. apply Changed. now symmetry. }
  rewrite C. run_method. rewrite G. fold opts. subst answer.
  destruct (RepositoriesUpdateFile _ _ _ _ _ _) as [[err|] world];
    cbn [fst snd self remote calls]; rewrite <- !app_assoc; reflexivity.
Qed.

Lemma UpdateFile_replaces_under_the_current_hash_witness :
  fst (UpdateFile Demo.freshPayload (Demo.sessionOn "fix"))
  = Returns ("Updated file notes.txt", None)
  /\ Demo.fileList (remote (snd (UpdateFile Demo.freshPayload (Demo.sessionOn "fix"))))
     = [("fix", "notes.txt", "goodbye world"); ("main", "notes.txt", "hello world")].
Proof.
  rewrite (UpdateFile_replaces_under_the_current_hash (Demo.sessionOn "fix")
             Demo.freshPayload "notes.txt" "hello" "goodbye"
             {| GetContent := Ok "hello world"; SHA := Some "3b18e5" |}
             "hello world");
    [split; reflexivity | differ | reflexivity | reflexivity | reflexivity
    | vm_compute; differ].
Defined.

(** X6. Whatever the payload and the branch, when the file named on the
    first line of the payload cannot be looked up on the active branch,
    [UpdateFile] leaves the remote as it was and makes no writing call. *)
Theorem UpdateFile_never_writes_what_it_could_not_read {World : Type}
    (s : Session World) (fileQuery filePath e : string) (rest : list string) :
  Split fileQuery LF = filePath :: rest ->
  RepositoriesGetContents (client (self s)) (remote s) (owner (self s))
    (repoName (self s)) filePath (activeBranch (self s)) = Err e ->
  remote (snd (UpdateFile fileQuery s)) = remote s
  /\ filter isWrite (calls (snd (UpdateFile fileQuery s)))
     = filter isWrite (calls s).
Proof.
  intros Sp G.
  assert (X : exists out extra,
             UpdateFile fileQuery s
             = (out, {| self := self s; remote := remote s;
                        calls := (calls s ++ extra)%list |})
             /\ filter isWrite extra = []).
  { unfold UpdateFile. unfold bind at 1. unfold this at 1. cbn [self].
    assert (Same : forall out : outcome (string * option string),
               exists out' extra,
                 @ret World _ out s = (out', {| self := self s; remote := remote s;
                                       calls := (calls s ++ extra)%list |})
                 /\ filter isWrite extra = []).
    { intros out. exists out, []. rewrite app_nil_r. destruct s. now split. }
    destruct (String.eqb _ _); [apply Same|].
    rewrite Sp. cbv zeta.
    destruct (_ || _ || _ || _)%bool; [apply Same|].
    destruct (slice _ _ _); [|apply Same].
    destruct (slice _ _ _); [|apply Same].
    unfold bind at 1. rewrite ReadFile_run, G.
    destruct (String.eqb _ _).
    - unfold ret. eexists _, _. split; [reflexivity|reflexivity].
    - run_method. rewrite G. eexists _, _. rewrite <- app_assoc.
      split; [reflexivity|reflexivity]. }
  destruct X as (out & extra & -> & W). cbn [snd remote calls].
  split; [reflexivity|]. now rewrite filter_app, W, app_nil_r.
Qed.

Lemma UpdateFile_never_writes_what_it_could_not_read_witness :
  remote (snd (UpdateFile Demo.freshPayload (Demo.sessionOn "fix_v1"))) = Demo.toy
  /\ filter isWrite (calls (snd (UpdateFile Demo.freshPayload (Demo.sessionOn "fix_v1"))))
     = [].
Proof.
  apply (UpdateFile_never_writes_what_it_could_not_read (Demo.sessionOn "fix_v1")
           Demo.freshPayload "notes.txt" "404 Not Found"
           ["OLD <<<<"; "hello"; ">>>> OLD"; "NEW <<<<"; "goodbye"; ">>>> NEW"]);
    reflexivity.
Defined.

Lemma Index_absent (s sub : string) : ~ Occurs sub s -> Index s sub = (-1)%Z.
Proof. intros N. unfold Index. now rewrite (indexNat_None _ _ N). Qed.

(** X7. On a branch other than the base branch, a payload in which one
    of the four markers [OLD <<<<], [>>>> OLD], [NEW <<<<], [>>>> NEW]
    does not occur after the path line, and a payload of a path line
    alone, are answered by the invalid-update-format message with a nil
    error; nothing is called and the wrapper is as it was. *)
Theorem UpdateFile_rejects_missing_markers {World : Type} (s : Session World)
    (filePath content marker : string) :
  activeBranch (self s) <> githubBaseBranch (self s) ->
  ~ Occurs LF filePath ->
  In marker ["OLD <<<<"; ">>>> OLD"; "NEW <<<<"; ">>>> NEW"] ->
  ~ Occurs marker content ->
  UpdateFile (filePath ++ LF ++ content) s
  = (Returns ("Invalid update format: missing OLD <<<< ... >>>> OLD or NEW <<<< ... >>>> NEW markers", None), s)
  /\ UpdateFile filePath s
     = (Returns ("Invalid update format: missing OLD <<<< ... >>>> OLD or NEW <<<< ... >>>> NEW markers", None), s).
Proof.
  intros NE N M A. apply String.eqb_neq in NE. split.
  - unfold UpdateFile. unfold bind at 1. unfold this at 1. cbn [self].
    rewrite NE, (payload_lines _ _ N), payload_content. cbv zeta.
    assert (X : ((Index content "OLD <<<<" =? -1) || (Index content ">>>> OLD" =? -1)
                 || (Index content "NEW <<<<" =? -1)
                 || (Index content ">>>> NEW" =? -1))%Z = true).
    { destruct M as [<-|[<-|[<-|[<-|[]]]]]; rewrite (Index_absent _ _ A);
        cbn [Z.eqb Pos.eqb orb]; now rewrite ?orb_true_r. }
    rewrite X. reflexivity.
  - unfold UpdateFile. unfold bind at 1. unfold this at 1. cbn [self].
    rewrite NE, (Split_absent LF _ ltac:(discriminate) N). reflexivity.
Qed.

Lemma UpdateFile_rejects_missing_markers_witness :
  UpdateFile ("notes.txt" ++ LF ++ Demo.halfBlocks) (Demo.sessionOn "fix")
  = (Returns ("Invalid update format: missing OLD <<<< ... >>>> OLD or NEW <<<< ... >>>> NEW markers",
              None), Demo.sessionOn "fix")
  /\ UpdateFile "notes.txt" (Demo.sessionOn "fix")
     = (Returns ("Invalid update format: missing OLD <<<< ... >>>> OLD or NEW <<<< ... >>>> NEW markers",
                 None), Demo.sessionOn "fix").
Proof.
  apply (UpdateFile_rejects_missing_markers (Demo.sessionOn "fix") "notes.txt"
           Demo.halfBlocks "NEW <<<<");
    [differ | absent | cbn; tauto | absent].
Defined.

(** X8. On a branch other than the base branch, when all four markers
    occur but the first [>>>> OLD] lies before the end of the first [OLD
    <<<<], or the first [>>>> NEW] before the end of the first [NEW
    <<<<], [UpdateFile] panics with a slice out of range, before it
    calls anything. *)
Theorem UpdateFile_panics_on_misplaced_markers {World : Type}
    (s : Session World) (filePath content : string) :
  activeBranch (self s) <> githubBaseBranch (self s) ->
  ~ Occurs LF filePath ->
  Occurs "OLD <<<<" content -> Occurs ">>>> OLD" content ->
  Occurs "NEW <<<<" content -> Occurs ">>>> NEW" content ->
  (Index content ">>>> OLD" < Index content "OLD <<<<" + 8
   \/ Index content ">>>> NEW" < Index content "NEW <<<<" + 8)%Z ->
  UpdateFile (filePath ++ LF ++ content) s
  = (Panics "slice bounds out of range", s).
Proof.
  intros NE N O1 O2 O3 O4 Bad. apply String.eqb_neq in NE.
  unfold UpdateFile. unfold bind at 1. unfold this at 1. cbn [self].
  rewrite NE, (payload_lines _ _ N), payload_content. cbv zeta.
  assert (P : forall m, Occurs m content -> (Index content m =? -1)%Z = false).
  { intros m O. apply Occurs_indexNat in O. destruct O as [i O].
    unfold Index. rewrite O. apply Z.eqb_neq. lia. }
  rewrite (P _ O1), (P _ O2), (P _ O3), (P _ O4). cbn [orb].
  unfold slice.
  destruct ((0 <=? Index content "OLD <<<<" + 8)
            && (Index content "OLD <<<<" + 8 <=? Index content ">>>> OLD")
            && (Index content ">>>> OLD" <=? len content))%Z eqn:S1;
    [|reflexivity].
  destruct ((0 <=? Index content "NEW <<<<" + 8)
            && (Index content "NEW <<<<" + 8 <=? Index content ">>>> NEW")
            && (Index content ">>>> NEW" <=? len content))%Z eqn:S2;
    [|reflexivity].
  exfalso. apply andb_true_iff in S1, S2. destruct S1 as (S1 & _), S2 as (S2 & _).
  apply andb_true_iff in S1, S2. destruct S1 as (_ & S1), S2 as (_ & S2).
  apply Z.leb_le in S1, S2. lia.
Qed.

Lemma UpdateFile_panics_on_misplaced_markers_witness :
  UpdateFile ("notes.txt" ++ LF ++ Demo.misplacedBlocks) (Demo.sessionOn "fix")
  = (Panics "slice bounds out of range", Demo.sessionOn "fix").
Proof.
  apply (UpdateFile_panics_on_misplaced_markers (Demo.sessionOn "fix") "notes.txt"
           Demo.misplacedBlocks);
    [ differ | absent
    | now exists (">>>> OLD" ++ LF), (LF ++ "NEW <<<<" ++ LF ++ "x" ++ LF ++ ">>>> NEW")
    | now exists "", (LF ++ "OLD <<<<" ++ LF ++ "NEW <<<<" ++ LF ++ "x" ++ LF ++ ">>>> NEW")
    | now exists (">>>> OLD" ++ LF ++ "OLD <<<<" ++ LF), (LF ++ "x" ++ LF ++ ">>>> NEW")
    | now exists (">>>> OLD" ++ LF ++ "OLD <<<<" ++ LF ++ "NEW <<<<" ++ LF ++ "x" ++ LF), ""
    | left; vm_compute; reflexivity ].
Defined.


(** X9. When the repository lists the requested branch,
    [SetActiveBranch] makes it the active branch and answers [Switched
    to branch `<name>`] with a nil error; it made one call, the listing,
    and nothing else of the wrapper or of the remote has changed. *)
Theorem SetActiveBranch_switches_to_listed_branch {World : Type}
    (s : Session World) (branchName : string) (branches : list string) :
  RepositoriesListBranches (client (self s)) (remote s) (owner (self s))
    (repoName (self s)) = Ok branches ->
  In branchName branches ->
  SetActiveBranch branchName s
  = (("Switched to branch `" ++ branchName ++ "`", None),
     {| self := withActiveBranch (self s) branchName; remote := remote s;
        calls := (calls s ++ [ListBranches (owner (self s)) (repoName (self s))])%list |}).
Proof.
  intros L I. run_method. rewrite L, branch_scan. cbn [app orb].
  apply existsb_eqb_In in I. rewrite I. reflexivity.
Qed.

Lemma SetActiveBranch_switches_to_listed_branch_witness :
  fst (SetActiveBranch "fix_v1" (Demo.sessionOn "fix"))
  = ("Switched to branch `fix_v1`", None)
  /\ activeBranch (self (snd (SetActiveBranch "fix_v1" (Demo.sessionOn "fix"))))
     = "fix_v1".
Proof.
  rewrite (SetActiveBranch_switches_to_listed_branch (Demo.sessionOn "fix") "fix_v1"
             ["main"; "fix"; "fix_v1"]);
    [split; reflexivity | reflexivity | cbn; tauto].
Defined.

(** X10. [NewGitHubAPIWrapper] turns down, without calling the remote, a
    repository string that does not hold exactly one slash.  When it
    does call the remote, it makes one call, the lookup of the
    repository, whose owner and name are the two sides of the only
    slash; these are the owner and the name of the wrapper it returns. *)
Theorem NewGitHubAPIWrapper_wants_owner_slash_name {World : Type}
    (NewClient : string -> Client World) (getenv : Env) (world : World)
    (config : option Config) :
  let c := match config with Some c => c | None => emptyConfig end in
  let repository := orEnv getenv (Repository c) "GITHUB_REPOSITORY" in
  (repository <> "" ->
   orEnv getenv (AppID c) "GITHUB_APP_ID" <> "" ->
   orEnv getenv (PrivateKey c) "GITHUB_APP_PRIVATE_KEY" <> "" ->
   Count repository "/" <> 1%Z ->
   NewGitHubAPIWrapper NewClient getenv world config
   = (Err ("invalid repository format: " ++ repository
           ++ " (expected owner/repo)"), []))
  /\ (forall call, In call (snd (NewGitHubAPIWrapper NewClient getenv world config)) ->
       exists o n, call = GetRepository o n
                   /\ repository = o ++ "/" ++ n
                   /\ ~ Occurs "/" o /\ ~ Occurs "/" n
                   /\ snd (NewGitHubAPIWrapper NewClient getenv world config)
                      = [call])
  /\ (forall w, fst (NewGitHubAPIWrapper NewClient getenv world config) = Ok w ->
       repository = owner w ++ "/" ++ repoName w).
Proof.
  intros c repository. unfold NewGitHubAPIWrapper. fold c. fold repository.
  cbv zeta.
  assert (Shape : forall o n, Split repository "/" = [o; n] ->
            repository = o ++ "/" ++ n /\ ~ Occurs "/" o /\ ~ Occurs "/" n).
  { assert (NS : "/" <> "") by discriminate.
    intros o n Sp. pose proof (Join_Split repository "/" NS) as J.
    rewrite Sp in J. cbn in J. split; [now symmetry|].
    pose proof (Split_length repository "/" ltac:(discriminate)) as L.
    rewrite Sp in L. cbn [List.length] in L.
    assert (C1 : Count repository "/" = 1%Z) by lia.
    rewrite (Split_eq _ _ NS) in Sp.
    destruct (indexNat repository "/") as [m|] eqn:E; [|discriminate].
    injection Sp as <- Sp.
    rewrite (Split_eq _ _ NS) in Sp.
    destruct (indexNat (skip _ _) "/") as [m'|] eqn:E'.
    { injection Sp as _ Sp. rewrite (Split_as_loop _ _ NS) in Sp.
      now apply splitLoop_nonempty in Sp. }
    injection Sp as <-. split.
    - intros O. apply Occurs_indexNat in O. destruct O as [i O].
      apply (indexNat_first "/" NS _ _ E).
      apply (indexNat_Occurs _ _ _ O).
    - intros O. apply Occurs_indexNat in O. destruct O as [i O]. congruence. }
  split; [|split].
  - intros R A K C. rewrite (eqb_empty_false _ R), (eqb_empty_false _ A),
      (eqb_empty_false _ K).
    pose proof (Split_length repository "/" ltac:(discriminate)) as L.
    destruct (Split repository "/") as [|o [|n [|x rest]]]; try reflexivity.
    cbn [List.length] in L. lia.
  - destruct (String.eqb repository ""); [intros ? []|].
    destruct (String.eqb (orEnv _ _ _) ""); [intros ? []|].
    destruct (String.eqb (orEnv _ _ _) ""); [intros ? []|].
    destruct (Split repository "/") as [|o [|n [|x rest]]] eqn:Sp;
      try (intros ? []).
    destruct (Shape o n eq_refl) as (J & No & Nn).
    destruct (RepositoriesGet _ _ _ _); cbn [snd];
      intros call [<-|[]]; exists o, n; repeat split; assumption.
  - destruct (String.eqb repository ""); [discriminate|].
    destruct (String.eqb (orEnv _ _ _) ""); [discriminate|].
    destruct (String.eqb (orEnv _ _ _) ""); [discriminate|].
    destruct (Split repository "/") as [|o [|n [|x rest]]] eqn:Sp;
      try discriminate.
    destruct (Shape o n eq_refl) as (J & _).
    destruct (RepositoriesGet _ _ _ _); cbn [fst]; [|discriminate].
    intros w [= <-]. exact J.
Qed.


(** X11. A wrapper built from a config that names the same active and
    base branch, or none of the two, or from no config, has its active
    branch equal to its base branch (the default branch of the
    repository when there is no config): until a branch is created or
    chosen, [CreateFile], [UpdateFile] and [DeleteFile] answer with the
    protected-branch message and call nothing. *)
Theorem fresh_wrapper_refuses_file_writes {World : Type}
    (NewClient : string -> Client World) (getenv : Env) (world : World)
    (config : option Config) (w : GitHubAPIWrapper World) (log : list Call) :
  NewGitHubAPIWrapper NewClient getenv world config = (Ok w, log) ->
  (forall c, config = Some c -> ActiveBranch c = GitHubBaseBranch c) ->
  activeBranch w = githubBaseBranch w
  /\ (config = None -> activeBranch w = DefaultBranch (repo w))
  /\ forall (fileQuery : string) (s : Session World),
       self s = w ->
       CreateFile fileQuery s = ((protectedBranch w, None), s)
       /\ UpdateFile fileQuery s = (Returns (protectedBranch w, None), s)
       /\ DeleteFile fileQuery s = ((protectedBranch w, None), s).
Proof.
  intros Built Same.
  assert (E : activeBranch w = githubBaseBranch w
              /\ (config = None -> activeBranch w = DefaultBranch (repo w))).
  { unfold NewGitHubAPIWrapper in Built. cbv zeta in Built.
    destruct (String.eqb _ ""); [discriminate|].
    destruct (String.eqb _ ""); [discriminate|].
    destruct (String.eqb _ ""); [discriminate|].
    destruct (Split _ "/") as [|o [|n [|x rest]]]; try discriminate.
    destruct (RepositoriesGet _ _ _ _) as [r|e]; [|discriminate].
    injection Built as <- _. cbn [activeBranch githubBaseBranch repo].
    destruct config as [c|].
    - rewrite (Same c eq_refl). split; [reflexivity|discriminate].
    - split; reflexivity. }
  destruct E as (E & D). split; [exact E|]. split; [exact D|].
  intros fileQuery s <-. apply String.eqb_eq in E.
  run_method. rewrite E. repeat split.
Qed.

Lemma fresh_wrapper_refuses_file_writes_witness :
  CreateFile ("todo.txt" ++ LF ++ "buy milk") (Demo.sessionOn "main")
  = (("You're attempting to commit to the directly to the main branch, which is protected. Please create a new branch and try again.",
      None), Demo.sessionOn "main").
Proof.
  destruct (fresh_wrapper_refuses_file_writes Demo.toyClient Demo.fullEnv Demo.toy
              None (Demo.wrapperOn (Demo.toyClient "key") "main")
              [GetRepository "octo" "demo"] eq_refl)
    as (_ & _ & Refused); [discriminate|].
  apply (Refused ("todo.txt" ++ LF ++ "buy milk") (Demo.sessionOn "main") eq_refl).
Defined.

(** X12. [CreateBranch] first looks up the head of the base branch.
    When that fails it returns the error [failed to get base branch:
    ...] and attempts nothing; when it succeeds every creation attempt
    asks for a reference at the hash of that head. *)
Theorem CreateBranch_starts_at_base_head {World : Type} (s : Session World)
    (proposed : string) :
  (forall e,
     GitGetRef (client (self s)) (remote s) (owner (self s)) (repoName (self s))
       ("refs/heads/" ++ githubBaseBranch (self s)) = Err e ->
     CreateBranch proposed s
     = (("", Some ("failed to get base branch: " ++ e)),
        {| self := self s; remote := remote s;
           calls := (calls s
                     ++ [GetRef (owner (self s)) (repoName (self s))
                           ("refs/heads/" ++ githubBaseBranch (self s))])%list |}))
  /\ (forall base,
       GitGetRef (client (self s)) (remote s) (owner (self s)) (repoName (self s))
         ("refs/heads/" ++ githubBaseBranch (self s)) = Ok base ->
       exists errs : list (option string),
         calls (snd (CreateBranch proposed s))
         = (calls s
            ++ GetRef (owner (self s)) (repoName (self s))
                 ("refs/heads/" ++ githubBaseBranch (self s))
               :: map (attempt (self s) proposed (ObjectSHA base))
                      (combine (seq 0 (List.length errs)) errs))%list).
Proof.
  split.
  - intros e G. unfold CreateBranch. run_method. rewrite G. reflexivity.
  - intros base G. unfold CreateBranch. unfold bind at 1. unfold this at 1.
    unfold bind at 1. unfold reading at 1. cbn [self remote calls]. rewrite G.
    destruct (createLoop_run proposed (ObjectSHA base) 1000 0
                {| self := self s; remote := remote s;
                   calls := (calls s
                             ++ [GetRef (owner (self s)) (repoName (self s))
                                   ("refs/heads/" ++ githubBaseBranch (self s))])%list |})
      as (errs & _ & C & _).
    exists errs. cbn [candidate Z.of_nat self calls] in C. rewrite C.
    rewrite <- app_assoc. reflexivity.
Qed.

End MoreWrapperFacts.
Module NumberFacts.

Import strconv.

Lemma digits_acc (d : Decimal.uint) :
  forall p : positive,
    digits (NilEmpty.string_of_uint d) (Zpos p) = Some (Zpos (Pos.of_uint_acc d p)).
Proof.
  induction d; intros p; cbn [NilEmpty.string_of_uint Pos.of_uint_acc];
    [reflexivity|..];
    unfold digits; fold digits;
    match goal with
    | |- context [N_of_ascii ?c] =>
      let v := eval vm_compute in (N_of_ascii c) in
      change (N_of_ascii c) with v
    end;
    cbn [N.leb N.compare Pos.compare Pos.compare_cont andb N.sub Pos.sub_mask
         Pos.succ_double_mask Pos.double_mask Pos.pred_double Z.of_N
         Pos.double_pred_mask];
    match goal with
    | |- digits _ ?a = Some (Zpos (Pos.of_uint_acc _ ?q)) =>
      replace a with (Zpos q) by lia
    end; apply IHd.
Qed.

Lemma digits_uint (d : Decimal.uint) :
  digits (NilEmpty.string_of_uint d) 0 = Some (Z.of_N (Pos.of_uint d)).
Proof.
  induction d; cbn [NilEmpty.string_of_uint Pos.of_uint];
    [reflexivity|..];
    unfold digits; fold digits;
    match goal with
    | |- context [N_of_ascii ?c] =>
      let v := eval vm_compute in (N_of_ascii c) in
      change (N_of_ascii c) with v
    end;
    cbn [N.leb N.compare Pos.compare Pos.compare_cont andb N.sub Pos.sub_mask
         Pos.succ_double_mask Pos.double_mask Pos.pred_double Z.of_N
         Pos.double_pred_mask Z.mul Z.add];
    first [ exact IHd | apply digits_acc ].
Qed.

Lemma string_of_uint_head (p : positive) :
  exists c t, NilEmpty.string_of_uint (Pos.to_uint p) = String c t
              /\ c <> "-"%char /\ c <> "+"%char.
Proof.
  pose proof (DecimalPos.Unsigned.to_uint_nonnil p) as NN.
  destruct (Pos.to_uint p); [now elim NN|..];
    eexists _, _; (split; [reflexivity|]); split; discriminate.
Qed.

(** [Atoi] reads back what [Itoa] writes, for every value of an [int]. *)
Lemma Atoi_Itoa (n : Z) :
  (- 2 ^ 63 <= n <= 2 ^ 63 - 1)%Z -> Atoi (Itoa n) = Some n.
Proof.
  intros R. unfold Itoa. destruct n as [|p|p]; [reflexivity|..];
    cbn [Z.to_int NilZero.string_of_int].
  - pose proof (DecimalPos.Unsigned.to_uint_nonnil p) as NN.
    assert (E : NilZero.string_of_uint (Pos.to_uint p)
                = NilEmpty.string_of_uint (Pos.to_uint p))
      by (destruct (Pos.to_uint p); [now elim NN|reflexivity..]).
    rewrite E. destruct (string_of_uint_head p) as (c & t & H & M & P).
    unfold Atoi.
    assert (S : match NilEmpty.string_of_uint (Pos.to_uint p) with
                | String "-" t => (true, t)
                | String "+" t => (false, t)
                | _ => (false, NilEmpty.string_of_uint (Pos.to_uint p))
                end = (false, NilEmpty.string_of_uint (Pos.to_uint p))).
    { rewrite H. destruct c as [[] [] [] [] [] [] [] []]; try reflexivity;
        [now elim M | now elim P]. }
    rewrite S. rewrite digits_uint, DecimalPos.Unsigned.of_to. rewrite H.
    cbn [Z.of_N].
    destruct ((- 2 ^ 63 <=? Z.pos p) && (Z.pos p <=? 2 ^ 63 - 1))%Z eqn:B;
      [reflexivity|].
    apply andb_false_iff in B. destruct B as [B|B]; apply Z.leb_gt in B; lia.
  - pose proof (DecimalPos.Unsigned.to_uint_nonnil p) as NN.
    assert (E : NilZero.string_of_uint (Pos.to_uint p)
                = NilEmpty.string_of_uint (Pos.to_uint p))
      by (destruct (Pos.to_uint p); [now elim NN|reflexivity..]).
    rewrite E. destruct (string_of_uint_head p) as (c & t & H & _).
    unfold Atoi. rewrite digits_uint, DecimalPos.Unsigned.of_to. rewrite H.
    cbn [Z.of_N Z.opp].
    destruct ((- 2 ^ 63 <=? Z.neg p) && (Z.neg p <=? 2 ^ 63 - 1))%Z eqn:B;
      [reflexivity|].
    apply andb_false_iff in B. destruct B as [B|B]; apply Z.leb_gt in B; lia.
Qed.

End NumberFacts.
Module ToolkitFacts.

Import utf8 strings strconv githubapi github StringFacts MoreStringFacts
       MoreWrapperFacts NumberFacts.

Lemma Atoi_range (s : string) (n : Z) :
  Atoi s = Some n -> (- 2 ^ 63 <= n <= 2 ^ 63 - 1)%Z.
Proof.
  unfold Atoi.
  destruct (match s with
            | String "-" t => (true, t)
            | String "+" t => (false, t)
            | _ => (false, s)
            end) as [neg body].
  destruct body; [discriminate|].
  destruct (digits _ 0) as [v|]; [|discriminate].
  destruct ((- 2 ^ 63 <=? (if neg then (- v)%Z else v))
            && ((if neg then (- v)%Z else v) <=? 2 ^ 63 - 1))%Z eqn:B;
    [|discriminate].
  intros [= <-]. apply andb_true_iff in B. destruct B as (B1 & B2).
  apply Z.leb_le in B1, B2. lia.
Qed.

Lemma firstNumber_In (parts : list string) (n : Z) :
  agents.firstNumber parts = Some n -> exists part, In part parts /\ Atoi part = Some n.
Proof.
  induction parts as [|p parts IH]; cbn [agents.firstNumber]; [discriminate|].
  destruct (Atoi p) as [m|] eqn:E.
  - intros [= <-]. exists p. split; [now left|exact E].
  - intros F. destruct (IH F) as (q & I & A). exists q. split; [now right|exact A].
Qed.

Lemma firstNumber_None (parts : list string) :
  agents.firstNumber parts = None -> forall part, In part parts -> Atoi part = None.
Proof.
  induction parts as [|p parts IH]; cbn [agents.firstNumber]; [intros _ ? []|].
  destruct (Atoi p) as [m|] eqn:E; [discriminate|].
  intros F part [<-|I]; [exact E|now apply IH].
Qed.

(** X13. For the tools of the modes [get_issue] and [get_pull_request],
    [preprocessInput] finds a number in the input when the trimmed input
    is one or, failing that, when one of its white-space separated
    fields is, taking the first; it then returns the decimal form of
    that number, which [Atoi] reads back as the same number.  When there
    is none it returns the trimmed input, which [Atoi] rejects. *)
Theorem preprocessInput_makes_numbers_canonical (t : agents.GitHubAgentTool)
    (input : string) :
  agents.mode t = "get_issue" \/ agents.mode t = "get_pull_request" ->
  match agents.numberIn input with
  | Some n =>
    agents.preprocessInput t input = Itoa n
    /\ Atoi (agents.preprocessInput t input) = Some n
  | None =>
    agents.preprocessInput t input = TrimSpace input
    /\ Atoi (agents.preprocessInput t input) = None
    /\ forall part, In part (Fields (TrimSpace input)) -> Atoi part = None
  end.
Proof.
  intros Mode. unfold agents.numberIn, agents.preprocessInput. cbv zeta.
  assert (Numeric : (String.eqb (agents.mode t) "get_issue"
                     || String.eqb (agents.mode t) "get_pull_request")%bool = true)
    by (destruct Mode as [-> | ->]; reflexivity).
  rewrite Numeric.
  destruct (Atoi (TrimSpace input)) as [n|] eqn:A.
  - split; [reflexivity|]. apply Atoi_Itoa. exact (Atoi_range _ _ A).
  - destruct (agents.firstNumber _) as [n|] eqn:F.
    + split; [reflexivity|]. apply Atoi_Itoa.
      destruct (firstNumber_In _ _ F) as (p & _ & P). exact (Atoi_range _ _ P).
    + repeat split; [exact A|]. exact (firstNumber_None _ F).
Qed.

Lemma preprocessInput_makes_numbers_canonical_witness :
  agents.preprocessInput (Demo.toolOf "get_issue") "Issue number 123" = "123"
  /\ Atoi (agents.preprocessInput (Demo.toolOf "get_issue") "Issue number 123")
     = Some 123%Z.
Proof.
  exact (preprocessInput_makes_numbers_canonical (Demo.toolOf "get_issue")
           "Issue number 123" (or_introl eq_refl)).
Defined.


Ltac run_desk :=
  unfold agents.Call, returned, bounded, GetIssue, GetPullRequest, GetIssues,
    CommentOnIssue, CreatePullRequest, ListOpenPullRequests, ListBranchesInRepo,
    SearchIssuesAndPRs, GetLatestRelease, GetReleases, GetRelease,
    andThen, pure, receiver, asking, telling, lift;
  cbn [fst snd session served self remote calls].

(** X14. [Call] on a tool of mode [get_issue] (of mode
    [get_pull_request]) asks the remote first for the issue (the pull
    request) whose number [preprocessInput] found in the input; when the
    input holds no number it returns the invalid-number error of [Run],
    wrapped as [GitHub operation failed: ...], with nothing called and
    nothing changed. *)
Theorem Call_looks_up_the_number_found {World : Type}
    (services : Services World) (jsonString : string -> string) (fuel : nat)
    (t : agents.GitHubAgentTool) (input : string) (d : Desk World) :
  let w := self (session d) in
  let after := agents.Call services jsonString fuel t input d in
  (agents.mode t = "get_issue" ->
   match agents.numberIn input with
   | Some n =>
     exists more,
       served (snd after)
       = (served d ++ GetIssueCall (owner w) (repoName w) n :: more)%list
   | None =>
     after = (Some (Returns ("", Some ("GitHub operation failed: invalid issue number: "
                                       ++ TrimSpace input))), d)
   end)
  /\ (agents.mode t = "get_pull_request" ->
      match agents.numberIn input with
      | Some n =>
        exists more,
          served (snd after)
          = (served d ++ GetPull (owner w) (repoName w) n :: more)%list
      | None =>
        after = (Some (Returns ("", Some ("GitHub operation failed: invalid PR number: "
                                          ++ TrimSpace input))), d)
      end).
Proof.
  cbv zeta. split; intros Mode.
  - pose proof (preprocessInput_makes_numbers_canonical t input (or_introl Mode)) as P.
    unfold agents.Call. cbv zeta. rewrite Mode.
    change (Run services jsonString fuel "get_issue" ?q)
      with (match Atoi q with
            | None => pure (Some (Returns ("", Some ("invalid issue number: " ++ q))))
            | Some issueNum =>
              andThen (GetIssue services jsonString issueNum)
                (fun r => match r with
                          | Err e => pure (Some (Returns ("", Some e)))
                          | Ok result =>
                            pure (Some (Returns (marshalMap jsonString result, None)))
                          end)
            end).
    destruct (agents.numberIn input) as [n|].
    + destruct P as (_ & ->). run_desk.
      destruct (IssuesGet _ _ _ _ _); cbn [fst snd served].
      * destruct (IssuesListComments _ _ _ _ _ _); cbn [fst snd served];
          rewrite <- app_assoc; eexists; reflexivity.
      * eexists; reflexivity.
    + destruct P as (-> & -> & _). reflexivity.
  - pose proof (preprocessInput_makes_numbers_canonical t input (or_intror Mode)) as P.
    unfold agents.Call. cbv zeta. rewrite Mode.
    change (Run services jsonString fuel "get_pull_request" ?q)
      with (match Atoi q with
            | None => pure (Some (Returns ("", Some ("invalid PR number: " ++ q))))
            | Some prNum =>
              andThen (GetPullRequest services jsonString prNum)
                (fun r => match r with
                          | Err e => pure (Some (Returns ("", Some e)))
                          | Ok result =>
                            pure (Some (Returns (marshalMap jsonString result, None)))
                          end)
            end).
    destruct (agents.numberIn input) as [n|].
    + destruct P as (_ & ->). run_desk.
      destruct (PullRequestsGet _ _ _ _ _); cbn [fst snd served].
      * rewrite <- !app_assoc. eexists; reflexivity.
      * eexists; reflexivity.
    + destruct P as (-> & -> & _). reflexivity.
Qed.

Lemma indexNat_after_clean (c : ascii) (s b : string) :
  forall a, ~ Occurs (String c "") a ->
            indexNat (a ++ String c (s ++ b)) (String c s) = Some (String.length a).
Proof.
  induction a as [|d a IH]; intros N; rewrite indexNat_unfold.
  - cbn [append].
    change (String c (s ++ b)) with (String c s ++ b).
    now rewrite prefix_append.
  - cbn [append String.prefix]. destruct (ascii_dec c d) as [->|ne].
    + elim N. now exists "", a.
    + rewrite IH; [reflexivity|]. intros (x & y & ->). elim N.
      now exists (String d x), y.
Qed.

Lemma SplitN_blank_line (a b : string) :
  ~ Occurs LF a -> SplitN (a ++ LF ++ LF ++ b) (LF ++ LF) 2 = [a; b].
Proof.
  intros N. rewrite SplitN_two by discriminate.
  unfold LF in *. cbn [append] in *.
  change (a ++ String (ascii_of_nat 10) (String (ascii_of_nat 10) b))
    with (a ++ String (ascii_of_nat 10) (String (ascii_of_nat 10) "" ++ b)).
  rewrite (indexNat_after_clean _ _ _ _ N).
  change (a ++ String (ascii_of_nat 10) (String (ascii_of_nat 10) "" ++ b))
    with (a ++ String (ascii_of_nat 10) (String (ascii_of_nat 10) "") ++ b).
  rewrite take_append.
  replace (String.length a
           + String.length (String (ascii_of_nat 10) (String (ascii_of_nat 10) "")))%nat
    with (String.length (a ++ String (ascii_of_nat 10) (String (ascii_of_nat 10) "")))
    by (rewrite length_append; reflexivity).
  rewrite <- append_assoc, skip_append. reflexivity.
Qed.

Lemma TrimSpace_clean (sep s : string) : ~ Occurs sep s -> ~ Occurs sep (TrimSpace s).
Proof. intros N O. apply N. exact (Occurs_trans _ _ _ O (TrimSpace_sub s)). Qed.

Lemma twoParts_cut (first rest : string) :
  ~ Occurs LF first ->
  agents.twoParts (first ++ LF ++ rest)
  = TrimSpace first ++ LF ++ LF ++ TrimSpace rest.
Proof. intros N. unfold agents.twoParts. now rewrite (payload_two _ _ N). Qed.

(** X15. [Call] on a tool of mode [comment_on_issue], for an input whose
    trimmed form has a first line and a rest: when the trimmed first
    line is a number, one comment is posted on the issue of that number,
    its body the trimmed rest, and the answer is [Commented on issue
    <n>] or carries the error of the call, with a nil error; when it is
    not, the answer is [Invalid issue number: ...] with a nil error and
    nothing is called.  One newline between number and comment is
    enough. *)
Theorem Call_comment_on_issue_posts_the_trimmed_rest {World : Type}
    (services : Services World) (jsonString : string -> string) (fuel : nat)
    (t : agents.GitHubAgentTool) (input first rest : string) (d : Desk World) :
  agents.mode t = "comment_on_issue" ->
  TrimSpace input = first ++ LF ++ rest ->
  ~ Occurs LF first ->
  let w := self (session d) in
  match Atoi (TrimSpace first) with
  | Some n =>
    let answer := IssuesCreateComment services (remote (session d))
                    (owner w) (repoName w) n (TrimSpace rest) in
    agents.Call services jsonString fuel t input d
    = (Some (Returns (match fst answer with
                      | None => "Commented on issue " ++ Itoa n
                      | Some e => "Unable to make comment due to error:" ++ LF ++ e
                      end, None)),
       {| session := {| self := w; remote := snd answer;
                        calls := calls (session d) |};
          served := (served d
                     ++ [CreateComment (owner w) (repoName w) n (TrimSpace rest)
                           (fst answer)])%list |})
  | None =>
    agents.Call services jsonString fuel t input d
    = (Some (Returns ("Invalid issue number: " ++ TrimSpace first, None)), d)
  end.
Proof.
  intros Mode Cut Clean w.
  unfold agents.Call, agents.preprocessInput. cbv zeta. rewrite Mode, Cut.
  cbn [String.eqb Ascii.eqb Bool.eqb orb].
  rewrite (twoParts_cut _ _ Clean).
  change (Run services jsonString fuel "comment_on_issue" ?q)
    with (returned (CommentOnIssue services q)).
  run_desk. rewrite (SplitN_blank_line _ _ (TrimSpace_clean _ _ Clean)).
  destruct (Atoi (TrimSpace first)) as [n|]; [|reflexivity].
  cbv zeta. fold w.
  destruct (IssuesCreateComment _ _ _ _ _ _) as [[e|] world]; reflexivity.
Qed.

Lemma Call_comment_on_issue_posts_the_trimmed_rest_witness :
  agents.Call Demo.toyServices Demo.quoted 0 (Demo.toolOf "comment_on_issue")
    ("  7" ++ LF ++ "  Same here. " ++ LF) (Demo.deskOn "fix")
  = (Some (Returns ("Commented on issue 7", None)),
     {| session := Demo.sessionOn "fix";
        served := [CreateComment "octo" "demo" 7 "Same here." None] |}).
Proof.
  assert (Clean : ~ Occurs LF "7") by absent.
  exact (Call_comment_on_issue_posts_the_trimmed_rest Demo.toyServices Demo.quoted
           0 (Demo.toolOf "comment_on_issue")
           ("  7" ++ LF ++ "  Same here. " ++ LF) "7" "  Same here."
           (Demo.deskOn "fix") eq_refl eq_refl Clean).
Defined.


Lemma find_by_name (wanted : string) (l : list agents.GitHubAgentTool) :
  ~ In wanted (map agents.name l) ->
  find (fun tool => String.eqb (agents.name tool) wanted) l = None.
Proof.
  induction l as [|tool l IH]; cbn [map In find]; [reflexivity|].
  intros N. destruct (String.eqb_spec (agents.name tool) wanted) as [E|_].
  - elim N. now left.
  - apply IH. intros I. apply N. now right.
Qed.

(** X16. In the toolkit, with the release tools or without them,
    [GetToolByName] finds every tool under its own name and finds
    nothing under a name that [GetToolNames] does not list; every tool
    names a mode that [Run] has a case for; there are 18 tools, and 21
    with the release tools. *)
Theorem toolkit_tools_are_found_and_known (includeReleaseTools : bool) :
  let kit := agents.FromGitHubAPIWrapper includeReleaseTools in
  (forall tool, In tool (agents.GetTools kit) ->
                agents.GetToolByName kit (agents.name tool) = Some tool
                /\ In (agents.mode tool) modes)
  /\ (forall wanted, ~ In wanted (agents.GetToolNames kit) ->
                     agents.GetToolByName kit wanted = None)
  /\ List.length (agents.GetTools kit) = (if includeReleaseTools then 21 else 18)%nat.
Proof.
  cbv zeta. split; [|split].
  - destruct includeReleaseTools; intros tool I;
      cbn [agents.FromGitHubAPIWrapper agents.NewGitHubAgentToolkit agents.GetTools
           agents.tools agents.IncludeReleaseTools agents.createTools
           agents.coreTools agents.releaseTools app In] in I;
      repeat (destruct I as [<-|I];
              [split; [reflexivity | cbn [agents.mode modes In]; tauto]|]);
      destruct I.
  - intros wanted N. apply find_by_name. exact N.
  - now destruct includeReleaseTools.
Qed.

End ToolkitFacts.
Module RunFacts.

Import utf8 strings strconv githubapi github StringFacts WrapperFacts
       MoreStringFacts MoreWrapperFacts NumberFacts.

Section Effects.

Context {World : Type}.
Variable services : Services World.
Variable jsonString : string -> string.

(** *** The wrapper is kept *)

Lemma keeps_pure {A : Type} (a : A) : keepsWrapper (@pure World A a).
Proof. intros d. reflexivity. Qed.

Lemma keeps_receiver : keepsWrapper (@receiver World).
Proof. intros d. reflexivity. Qed.

Lemma keeps_asking {A : Type} (c : ServiceCall) (f : World -> A) :
  keepsWrapper (asking c f).
Proof. intros d. reflexivity. Qed.

Lemma keeps_telling {A : Type} (c : A -> ServiceCall) (f : World -> A * World) :
  keepsWrapper (telling c f).
Proof. intros d. unfold telling. now destruct (f _). Qed.

Lemma keeps_andThen {A B : Type} (m : D World A) (k : A -> D World B) :
  keepsWrapper m -> (forall a, keepsWrapper (k a)) -> keepsWrapper (andThen m k).
Proof.
  intros Hm Hk d. unfold andThen. specialize (Hm d).
  destruct (m d) as [a d'] eqn:E. cbn [snd] in Hm. now rewrite Hk.
Qed.

Lemma keeps_lift {A : Type} (m : Session World -> A * Session World) :
  (forall s, self (snd (m s)) = self s) -> keepsWrapper (lift m).
Proof.
  intros H d. unfold lift. specialize (H (session d)).
  now destruct (m (session d)).
Qed.

Lemma self_reading {A : Type} (c : Call) (f : World -> A) (s : Session World) :
  self (snd (reading World c f s)) = self s.
Proof. reflexivity. Qed.

Lemma self_ReadFile (filePath : string) (s : Session World) :
  self (snd (ReadFile filePath s)) = self s.
Proof. now rewrite ReadFile_run. Qed.

Lemma self_CreateFile (fileQuery : string) (s : Session World) :
  self (snd (CreateFile fileQuery s)) = self s.
Proof. run_method. split_cases; reflexivity. Qed.

Lemma self_DeleteFile (filePath : string) (s : Session World) :
  self (snd (DeleteFile filePath s)) = self s.
Proof. run_method. split_cases; reflexivity. Qed.

Lemma self_UpdateFile (fileQuery : string) (s : Session World) :
  self (snd (UpdateFile fileQuery s)) = self s.
Proof.
  unfold UpdateFile. unfold bind at 1. unfold this at 1. cbn [self].
  destruct (String.eqb _ _); [reflexivity|].
  destruct (Split fileQuery LF) as [|path rest]; [reflexivity|].
  cbv zeta. destruct (_ || _ || _ || _)%bool; [reflexivity|].
  destruct (slice _ _ _); [|reflexivity].
  destruct (slice _ _ _); [|reflexivity].
  unfold bind at 1. rewrite ReadFile_run.
  destruct (RepositoriesGetContents _ _ _ _ _ _) as [found|e] eqn:G.
  - destruct (GetContent found); (destruct (String.eqb _ _); [reflexivity|]);
      run_method; rewrite G; split_cases; reflexivity.
  - destruct (String.eqb _ _); [reflexivity|].
    run_method. rewrite G. reflexivity.
Qed.


Ltac keeps_step :=
  first
    [ apply keeps_pure | apply keeps_receiver | apply keeps_asking
    | apply keeps_telling
    | apply keeps_andThen; [|intros ?]
    | apply keeps_lift; intros ?;
      first [ apply self_reading | apply self_ReadFile | apply self_CreateFile
            | apply self_DeleteFile | apply self_UpdateFile ]
    | match goal with
      | |- keepsWrapper (match ?x with _ => _ end) => destruct x
      | |- keepsWrapper (if ?x then _ else _) => destruct x
      | |- keepsWrapper (let _ := _ in _) => cbv zeta
      end ].

Lemma keeps_readEach (codes : list CodeResult) :
  forall results, keepsWrapper (@readEach World codes results).
Proof.
  induction codes as [|code codes IH]; intros results; cbn [readEach].
  - apply keeps_pure.
  - apply keeps_andThen; [repeat keeps_step|]. intros read. cbv zeta. apply IH.
Qed.

Lemma keeps_listFiles (fuel : nat) :
  forall path branch, keepsWrapper (listFiles services fuel path branch).
Proof.
  induction fuel as [|k IH]; intros path branch; cbn [listFiles].
  - apply keeps_pure.
  - apply keeps_andThen; [apply keeps_receiver|]. intros w.
    apply keeps_andThen; [repeat keeps_step|]. intros [contents|e];
      [|apply keeps_pure].
    match goal with
    | |- keepsWrapper (?each contents []) =>
      enough (H : forall files, keepsWrapper (each contents files)) by apply H
    end.
    induction contents as [|content rest IHc]; intros files.
    + apply keeps_pure.
    + destruct (String.eqb (EntryType content) "dir").
      * apply keeps_andThen; [apply IH|].
        intros [[subFiles|e]|]; [apply IHc | apply IHc | apply keeps_pure].
      * apply IHc.
Qed.

(** *** Nothing is written *)

Lemma reads_pure {A : Type} (a : A) : readsOnly (@pure World A a).
Proof. intros d. repeat split. Qed.

Lemma reads_receiver : readsOnly (@receiver World).
Proof. intros d. repeat split. Qed.

Lemma reads_asking {A : Type} (c : ServiceCall) (f : World -> A) :
  isServiceWrite c = false -> readsOnly (asking c f).
Proof.
  intros R d. unfold asking. cbn [snd session served]. repeat split.
  rewrite filter_app. cbn [filter]. rewrite R. apply app_nil_r.
Qed.

Lemma reads_andThen {A B : Type} (m : D World A) (k : A -> D World B) :
  readsOnly m -> (forall a, readsOnly (k a)) -> readsOnly (andThen m k).
Proof.
  intros Hm Hk d. unfold andThen. specialize (Hm d).
  destruct (m d) as [a d'] eqn:E. cbn [snd] in Hm.
  destruct Hm as (R & C & S). destruct (Hk a d') as (R' & C' & S').
  repeat split; congruence.
Qed.

Lemma reads_lift {A : Type} (m : Session World -> A * Session World) :
  (forall s, remote (snd (m s)) = remote s
             /\ filter isWrite (calls (snd (m s))) = filter isWrite (calls s)) ->
  readsOnly (lift m).
Proof.
  intros H d. unfold lift. specialize (H (session d)).
  destruct (m (session d)) as [a s']. cbn [snd session served] in *.
  destruct H as (R & C). repeat split; assumption.
Qed.

Lemma quiet_reading {A : Type} (c : Call) (f : World -> A) (s : Session World) :
  isWrite c = false ->
  remote (snd (reading World c f s)) = remote s
  /\ filter isWrite (calls (snd (reading World c f s))) = filter isWrite (calls s).
Proof.
  intros R. unfold reading. cbn [snd remote calls]. split; [reflexivity|].
  rewrite filter_app. cbn [filter]. rewrite R. apply app_nil_r.
Qed.

Lemma quiet_ReadFile (filePath : string) (s : Session World) :
  remote (snd (ReadFile filePath s)) = remote s
  /\ filter isWrite (calls (snd (ReadFile filePath s))) = filter isWrite (calls s).
Proof.
  rewrite ReadFile_run. cbn [snd remote calls]. split; [reflexivity|].
  rewrite filter_app. apply app_nil_r.
Qed.

Lemma quiet_SetActiveBranch (branchName : string) (s : Session World) :
  remote (snd (SetActiveBranch branchName s)) = remote s
  /\ filter isWrite (calls (snd (SetActiveBranch branchName s)))
     = filter isWrite (calls s).
Proof.
  run_method. destruct (RepositoriesListBranches _ _ _ _) as [branches|e].
  - rewrite branch_scan. cbn [app orb].
    destruct (existsb _ branches); cbn [negb fst snd remote calls];
      (split; [reflexivity|]); rewrite filter_app; apply app_nil_r.
  - cbn [snd remote calls]. split; [reflexivity|].
    rewrite filter_app; apply app_nil_r.
Qed.

Ltac reads_step :=
  first
    [ apply reads_pure | apply reads_receiver
    | apply reads_asking; reflexivity
    | apply reads_andThen; [|intros ?]
    | apply reads_lift; intros ?;
      first [ apply quiet_reading; reflexivity | apply quiet_ReadFile
            | apply quiet_SetActiveBranch ]
    | match goal with
      | |- readsOnly (match ?x with _ => _ end) => destruct x
      | |- readsOnly (if ?x then _ else _) => destruct x
      | |- readsOnly (let _ := _ in _) => cbv zeta
      end ].

Lemma reads_readEach (codes : list CodeResult) :
  forall results, readsOnly (@readEach World codes results).
Proof.
  induction codes as [|code codes IH]; intros results; cbn [readEach].
  - apply reads_pure.
  - apply reads_andThen; [repeat reads_step|]. intros read. cbv zeta. apply IH.
Qed.

Lemma reads_listFiles (fuel : nat) :
  forall path branch, readsOnly (listFiles services fuel path branch).
Proof.
  induction fuel as [|k IH]; intros path branch; cbn [listFiles].
  - apply reads_pure.
  - apply reads_andThen; [apply reads_receiver|]. intros w.
    apply reads_andThen; [repeat reads_step|]. intros [contents|e];
      [|apply reads_pure].
    match goal with
    | |- readsOnly (?each contents []) =>
      enough (H : forall files, readsOnly (each contents files)) by apply H
    end.
    induction contents as [|content rest IHc]; intros files.
    + apply reads_pure.
    + destruct (String.eqb (EntryType content) "dir").
      * apply reads_andThen; [apply IH|].
        intros [[subFiles|e]|]; [apply IHc | apply IHc | apply reads_pure].
      * apply IHc.
Qed.


Ltac unfold_methods :=
  unfold returned, bounded, GetIssue, GetPullRequest, GetIssues, CommentOnIssue,
    CreatePullRequest, ListOpenPullRequests, ListBranchesInRepo,
    ListFilesInMainBranch, ListFilesInBotBranch, GetFilesFromDirectory,
    SearchIssuesAndPRs, github.SearchCode, GetLatestRelease, GetReleases,
    GetRelease.

Lemma Run_keeps_the_wrapper (fuel : nat) (mode query : string) :
  mode <> "set_active_branch" -> mode <> "create_branch" ->
  keepsWrapper (Run services jsonString fuel mode query).
Proof.
  intros N1 N2. unfold Run.
  repeat match goal with
         | |- keepsWrapper (if String.eqb mode ?m then _ else _) =>
           let E := fresh "E" in
           destruct (String.eqb mode m) eqn:E;
           [ apply String.eqb_eq in E; try (now elim N1); try (now elim N2);
             clear E N1 N2; unfold_methods;
             repeat first [ keeps_step | apply keeps_listFiles
                          | apply keeps_readEach ]
           | clear E ]
         end.
  apply keeps_pure.
Qed.

Lemma withActiveBranch_same (w : GitHubAPIWrapper World) :
  w = withActiveBranch w (activeBranch w).
Proof. now destruct w. Qed.

Lemma branch_only_SetActiveBranch (branchName : string) (s : Session World) :
  self (snd (SetActiveBranch branchName s))
  = withActiveBranch (self s) (activeBranch (self (snd (SetActiveBranch branchName s)))).
Proof.
  run_method. destruct (RepositoriesListBranches _ _ _ _) as [branches|e].
  - rewrite branch_scan. cbn [app orb].
    destruct (existsb _ branches); cbn [negb fst snd self];
      [reflexivity | apply withActiveBranch_same].
  - cbn [snd self]. apply withActiveBranch_same.
Qed.

Lemma branch_known (w w' : GitHubAPIWrapper World) (b : string) :
  w' = withActiveBranch w b -> w' = withActiveBranch w (activeBranch w').
Proof. now intros ->. Qed.

Lemma branch_only_CreateBranch (proposed : string) (s : Session World) :
  exists b, self (snd (CreateBranch proposed s)) = withActiveBranch (self s) b.
Proof.
  unfold CreateBranch. unfold bind at 1. unfold this at 1.
  unfold bind at 1. unfold reading at 1. cbn [self remote calls].
  destruct (GitGetRef _ _ _ _ _) as [base|e].
  - match goal with
    | |- context [createLoop 1000 0 _ _ ?sha ?s'] =>
      destruct (createLoop_run proposed sha 1000 0 s') as (errs & _ & _ & _ & E);
      cbn [candidate Z.of_nat self] in E;
      destruct (createLoop 1000 0 proposed proposed sha s') as [out s'']
    end.
    cbn [fst snd] in *.
    destruct (rev errs) as [|[e|] r].
    + destruct E as (_ & _ & ->). eexists. apply withActiveBranch_same.
    + destruct E as (-> & _). eexists. apply withActiveBranch_same.
    + destruct E as (_ & ->). eexists. reflexivity.
  - eexists. apply withActiveBranch_same.
Qed.

(** X17. Whatever the mode and the query, the wrapper after [Run] is the
    wrapper before it but for the active branch; in every mode other
    than [set_active_branch] and [create_branch] it is the wrapper
    before it. *)
Theorem Run_changes_the_active_branch_at_most (fuel : nat) (mode query : string)
    (d : Desk World) :
  let after := self (session (snd (Run services jsonString fuel mode query d))) in
  after = withActiveBranch (self (session d)) (activeBranch after)
  /\ (mode <> "set_active_branch" -> mode <> "create_branch" ->
      after = self (session d)).
Proof.
  cbv zeta. split; [|intros N1 N2; now apply Run_keeps_the_wrapper].
  destruct (String.eqb_spec mode "set_active_branch") as [->|N1].
  - change (Run services jsonString fuel "set_active_branch" query)
      with (@returned World (lift (SetActiveBranch query))).
    unfold returned, andThen, lift, pure.
    pose proof (branch_only_SetActiveBranch query (session d)) as B.
    destruct (SetActiveBranch query (session d)) as [out s']. exact B.
  - destruct (String.eqb_spec mode "create_branch") as [->|N2].
    + change (Run services jsonString fuel "create_branch" query)
        with (@returned World (lift (CreateBranch query))).
      unfold returned, andThen, lift, pure.
      destruct (branch_only_CreateBranch query (session d)) as (b & B).
      destruct (CreateBranch query (session d)) as [out s'].
      exact (branch_known _ _ _ B).
    + rewrite (Run_keeps_the_wrapper fuel mode query N1 N2 d).
      apply withActiveBranch_same.
Qed.

(** X18. In every mode outside [comment_on_issue], [create_file],
    [create_pull_request], [update_file], [delete_file] and
    [create_branch], unknown modes included, [Run] leaves the remote as
    it was and calls no writing endpoint. *)
Theorem Run_writes_in_writing_modes_only (fuel : nat) (mode query : string) :
  ~ In mode writeModes -> readsOnly (Run services jsonString fuel mode query).
Proof.
  intros N. unfold Run.
  repeat match goal with
         | |- readsOnly (if String.eqb mode ?m then _ else _) =>
           let E := fresh "E" in
           destruct (String.eqb mode m) eqn:E;
           [ apply String.eqb_eq in E;
             try (exfalso; apply N; rewrite E; cbn; tauto);
             clear E N; unfold_methods;
             repeat first [ reads_step | apply reads_listFiles
                          | apply reads_readEach ]
           | clear E ]
         end.
  apply reads_pure.
Qed.


(** *** Which failures are put into the text *)

Lemma nil_pure (text : string) : nilError (@pure World _ (text, None)).
Proof. intros d. reflexivity. Qed.

Lemma nil_andThen {A : Type} (m : D World A)
    (k : A -> D World (string * option string)) :
  (forall a, nilError (k a)) -> nilError (andThen m k).
Proof. intros H d. unfold andThen. destruct (m d) as [a d']. apply H. Qed.

Lemma nil_lift (m : Session World -> (string * option string) * Session World) :
  (forall s, snd (fst (m s)) = None) -> nilError (lift m).
Proof.
  intros H d. unfold lift. specialize (H (session d)).
  now destruct (m (session d)).
Qed.

Lemma nil_ReadFile (filePath : string) (s : Session World) :
  snd (fst (ReadFile filePath s)) = None.
Proof. now rewrite ReadFile_run. Qed.

Lemma nil_CreateFile (fileQuery : string) (s : Session World) :
  snd (fst (CreateFile fileQuery s)) = None.
Proof. run_method. split_cases; reflexivity. Qed.

Lemma nil_DeleteFile (filePath : string) (s : Session World) :
  snd (fst (DeleteFile filePath s)) = None.
Proof. run_method. split_cases; reflexivity. Qed.

Lemma nil_UpdateFile (fileQuery : string) (s : Session World)
    (r : string * option string) :
  fst (UpdateFile fileQuery s) = Returns r -> snd r = None.
Proof.
  unfold UpdateFile. unfold bind at 1. unfold this at 1. cbn [self].
  destruct (String.eqb _ _); [now intros [= <-]|].
  destruct (Split fileQuery LF) as [|path rest]; [now intros [= <-]|].
  cbv zeta. destruct (_ || _ || _ || _)%bool; [now intros [= <-]|].
  destruct (slice _ _ _); [|discriminate].
  destruct (slice _ _ _); [|discriminate].
  unfold bind at 1. rewrite ReadFile_run.
  destruct (RepositoriesGetContents _ _ _ _ _ _) as [found|e] eqn:G.
  - destruct (GetContent found); (destruct (String.eqb _ _); [now intros [= <-]|]);
      run_method; rewrite G; split_cases; now intros [= <-].
  - destruct (String.eqb _ _); [now intros [= <-]|].
    run_method. rewrite G. now intros [= <-].
Qed.

Ltac nil_step :=
  first
    [ apply nil_pure
    | apply nil_andThen; intros ?
    | apply nil_lift; intros ?;
      first [ apply nil_ReadFile | apply nil_CreateFile | apply nil_DeleteFile ]
    | match goal with
      | |- nilError (match ?x with _ => _ end) => destruct x
      | |- nilError (if ?x then _ else _) => destruct x
      | |- nilError (let _ := _ in _) => cbv zeta
      end ].

Lemma soft_returned (m : D World (string * option string)) (d : Desk World)
    (r : string * option string) :
  nilError m -> fst (returned m d) = Some (Returns r) -> snd r = None.
Proof.
  intros H. unfold returned, andThen, pure. specialize (H d).
  destruct (m d) as [a d']. cbn [fst] in *. now intros [= <-].
Qed.

Lemma soft_bounded (m : D World (option (string * option string))) (d : Desk World)
    (r : string * option string) :
  (forall out, fst (m d) = Some out -> snd out = None) ->
  fst (bounded m d) = Some (Returns r) -> snd r = None.
Proof.
  intros H. unfold bounded, andThen, pure.
  destruct (m d) as [[out|] d']; cbn [fst option_map] in *; [|discriminate].
  intros [= <-]. now apply H.
Qed.

(** X19. A mode that is none of the 21 modes [Run] has a case for is
    answered by the error [invalid mode: <mode>] with an empty text;
    nothing is called and nothing changes. *)
Theorem Run_rejects_unknown_modes (fuel : nat) (mode query : string)
    (d : Desk World) :
  ~ In mode modes ->
  Run services jsonString fuel mode query d
  = (Some (Returns ("", Some ("invalid mode: " ++ mode))), d).
Proof.
  intros N. unfold Run.
  repeat match goal with
         | |- context [if String.eqb mode ?m then _ else _] =>
           let E := fresh "E" in
           destruct (String.eqb mode m) eqn:E;
           [ apply String.eqb_eq in E; exfalso; apply N; rewrite E; cbn; tauto
           | clear E ]
         end.
  reflexivity.
Qed.


(** *** Listing files *)

Lemma listFiles_fuel_bound (fuel : nat) :
  forall (n : nat) (path branch : string) (d : Desk World),
    shallow services (remote (session d)) (owner (self (session d)))
            (repoName (self (session d))) branch n path ->
    (n < fuel)%nat ->
    exists r, fst (listFiles services fuel path branch d) = Some r.
Proof.
  induction fuel as [|k IH]; intros n path branch d Sh L; [lia|].
  cbn [listFiles]. unfold andThen at 1. unfold receiver at 1.
  unfold andThen at 1. unfold lift at 1. unfold reading at 1.
  cbn [session self remote calls].
  assert (Dir : match RepositoriesGetDirectory services (remote (session d))
                        (owner (self (session d))) (repoName (self (session d)))
                        path branch with
                | Err _ => True
                | Ok contents =>
                  forall entry, In entry contents -> EntryType entry = "dir" ->
                    exists m, (m < k)%nat
                              /\ shallow services (remote (session d))
                                    (owner (self (session d)))
                                    (repoName (self (session d))) branch m
                                    (EntryPath entry)
                end).
  { destruct n as [|n]; cbn [shallow] in Sh;
      destruct (RepositoriesGetDirectory _ _ _ _ _ _) as [contents|e]; auto.
    - intros entry I T. now elim (Sh entry I).
    - intros entry I T. exists n. split; [lia|]. now apply Sh. }
  destruct (RepositoriesGetDirectory _ _ _ _ _ _) as [contents|e];
    [|eexists; reflexivity].
  match goal with
  | |- context [?each contents [] ?d0] =>
    enough (H : forall files d',
               remote (session d') = remote (session d) ->
               self (session d') = self (session d) ->
               exists r, fst (each contents files d') = Some r)
      by (apply H; reflexivity)
  end.
  induction contents as [|content rest IHc]; intros files d' R W.
  - eexists; reflexivity.
  - destruct (String.eqb_spec (EntryType content) "dir") as [T|T].
    + destruct (Dir content (or_introl eq_refl) T) as (m & Lm & Shm).
      rewrite <- R, <- W in Shm.
      destruct (IH m (EntryPath content) branch d' Shm Lm) as (sub & Sub).
      unfold andThen at 1.
      pose proof (reads_listFiles k (EntryPath content) branch d') as (R' & _).
      pose proof (keeps_listFiles k (EntryPath content) branch d') as W'.
      destruct (listFiles services k (EntryPath content) branch d') as [out d''].
      cbn [fst snd] in *. subst out.
      assert (Rest : forall entry, In entry rest -> EntryType entry = "dir" ->
                exists m, (m < k)%nat
                          /\ shallow services (remote (session d))
                                (owner (self (session d)))
                                (repoName (self (session d))) branch m
                                (EntryPath entry))
        by (intros entry I; apply Dir; now right).
      destruct sub as [subFiles|e];
        apply (IHc Rest); congruence.
    + apply IHc; [|exact R|exact W]. intros entry I. apply Dir. now right.
Qed.

(** X20. [listFiles] fails only when the directory it is asked for
    cannot be listed, and then with the error of that listing: a
    directory further down that cannot be listed is left out.  On a tree
    whose directories nest at most [n] deep below the path, the
    recursion ends within [n + 1] levels. *)
Theorem listFiles_fails_only_at_the_root (fuel : nat) (path branch : string)
    (d : Desk World) :
  let w := self (session d) in
  (forall e, fst (listFiles services fuel path branch d) = Some (Err e) ->
             RepositoriesGetDirectory services (remote (session d))
               (owner w) (repoName w) path branch = Err e)
  /\ (forall n, shallow services (remote (session d)) (owner w) (repoName w)
                        branch n path ->
                 (n < fuel)%nat ->
                 exists r, fst (listFiles services fuel path branch d) = Some r).
Proof.
  cbv zeta. split; [|intros n Sh L; exact (listFiles_fuel_bound fuel n path branch d Sh L)].
  intros e. destruct fuel as [|k]; [discriminate|].
  cbn [listFiles]. unfold andThen at 1. unfold receiver at 1.
  unfold andThen at 1. unfold lift at 1. unfold reading at 1.
  cbn [session self remote calls].
  destruct (RepositoriesGetDirectory _ _ _ _ _ _) as [contents|e'];
    [|now intros [= ->]].
  intros F. exfalso. revert F.
  match goal with
  | |- fst (?each contents [] ?d0) = _ -> False =>
    generalize d0;
    enough (H : forall files d', fst (each contents files d') <> Some (Err e))
      by (intros d'; apply H)
  end.
  induction contents as [|content rest IHc]; intros files d'; [discriminate|].
  destruct (String.eqb (EntryType content) "dir"); [|apply IHc].
  unfold andThen at 1.
  destruct (listFiles services k (EntryPath content) branch d')
    as [[[subFiles|e']|] d'']; [apply IHc | apply IHc | discriminate].
Qed.


(** *** Searching code *)

Lemma readEach_calls (codes : list CodeResult) :
  forall (results : list string) (d : Desk World),
    calls (session (snd (readEach codes results d)))
    = (calls (session d)
       ++ map (fun code => GetContents (owner (self (session d)))
                             (repoName (self (session d))) (CodePath code)
                             (activeBranch (self (session d)))) codes)%list
    /\ served (snd (readEach codes results d)) = served d
    /\ self (session (snd (readEach codes results d))) = self (session d).
Proof.
  induction codes as [|code codes IH]; intros results d; cbn [readEach map].
  - rewrite app_nil_r. repeat split.
  - unfold andThen, lift. rewrite ReadFile_run. cbv beta iota zeta.
    match goal with
    | |- context [readEach codes ?r ?d'] => destruct (IH r d') as (C & S & W)
    end.
    rewrite C, S, W. cbn [session served self calls].
    rewrite <- app_assoc. repeat split.
Qed.

(** X21. [SearchCode] searches once, for the query followed by
    [repo:<owner>/<name>] and for five results a page, and then reads at
    most five files on the active branch: those of the first results
    found, in their order, and none when the search fails. *)
Theorem SearchCode_reads_five_files_at_most (query : string) (d : Desk World) :
  let w := self (session d) in
  let searchQuery := query ++ " repo:" ++ owner w ++ "/" ++ repoName w in
  exists shown : list CodeResult,
    (List.length shown <= 5)%nat
    /\ match githubapi.SearchCode services (remote (session d)) searchQuery 5 with
       | Ok result => exists n, shown = firstn n (CodeFound result)
       | Err _ => shown = []
       end
    /\ calls (session (snd (github.SearchCode services query d)))
       = (calls (session d)
          ++ map (fun code => GetContents (owner w) (repoName w) (CodePath code)
                                (activeBranch w)) shown)%list
    /\ served (snd (github.SearchCode services query d))
       = (served d ++ [SearchCodeCall searchQuery 5])%list.
Proof.
  cbv zeta. unfold github.SearchCode, andThen, receiver, asking.
  cbn [session served].
  destruct (githubapi.SearchCode services _ _ 5) as [result|e].
  - destruct (CodeTotal result =? 0)%Z.
    + exists []. cbn [List.length map pure snd session served calls].
      rewrite app_nil_r. repeat split; first [lia | now exists O | reflexivity].
    + exists (firstn (Z.to_nat (maxResults (CodeTotal result))) (CodeFound result)).
      split.
      { rewrite length_firstn. unfold maxResults.
        destruct (CodeTotal result <? 5)%Z eqn:T; [apply Z.ltb_lt in T|]; lia. }
      split; [eexists; reflexivity|].
      match goal with
      | |- context [readEach ?c ?r ?d'] =>
        destruct (readEach_calls c r d') as (C & S & _);
        destruct (readEach c r d') as [out d'']
      end.
      cbn [snd pure session served calls self] in *. now rewrite C, S.
  - exists []. cbn [List.length map pure snd session served calls].
    rewrite app_nil_r. repeat split; first [lia | reflexivity].
Qed.

(** *** Issues and pull requests *)

(** X22. Once the pull request itself is found, [GetPullRequest]
    succeeds after three calls, with the title, the number in decimal
    and the body: a listing of the comments or of the commits that fails
    only leaves its key out of the map.  [GetIssue] however fails, with
    [failed to get comments: ...], when the comments of an issue it
    found cannot be listed. *)
Theorem GetPullRequest_outlives_failed_listings (number : Z) (d : Desk World) :
  let w := self (session d) in
  let comments := IssuesListComments services (remote (session d))
                    (owner w) (repoName w) number 10 in
  let commits := PullRequestsListCommits services (remote (session d))
                   (owner w) (repoName w) number 10 in
  (forall pr,
     PullRequestsGet services (remote (session d)) (owner w) (repoName w) number
     = Ok pr ->
     exists fields,
       GetPullRequest services jsonString number d
       = (Ok fields,
          {| session := session d;
             served := (served d
                        ++ [GetPull (owner w) (repoName w) number;
                            ListComments (owner w) (repoName w) number 10;
                            ListCommits (owner w) (repoName w) number 10])%list |})
       /\ (In "comments" (map fst fields) <-> isOk comments = true)
       /\ (In "commits" (map fst fields) <-> isOk commits = true)
       /\ In ("title", Text (PullTitle pr)) fields
       /\ In ("number", Text (Itoa number)) fields
       /\ In ("body", Text (PullBody pr)) fields)
  /\ (forall issue e,
       IssuesGet services (remote (session d)) (owner w) (repoName w) number
       = Ok issue ->
       comments = Err e ->
       fst (GetIssue services jsonString number d)
       = Err ("failed to get comments: " ++ e)).
Proof.
  cbv zeta. split.
  - intros pr G. unfold GetPullRequest, andThen, receiver, asking, pure.
    cbn [session served]. rewrite G.
    destruct (IssuesListComments _ _ _ _ _ _) as [cs|e1];
      destruct (PullRequestsListCommits _ _ _ _ _ _) as [ms|e2];
      eexists;
      (split; [cbn [session served]; apply f_equal2; [reflexivity|];
               apply f_equal; rewrite <- !app_assoc; reflexivity|]);
      cbn [map fst app In isOk];
      repeat split; try tauto; try discriminate;
      intros H; repeat (destruct H as [H|H]; try discriminate H); try tauto.
  - intros issue e G C. unfold GetIssue, andThen, receiver, asking, pure.
    cbn [session served]. rewrite G. cbn [session served]. now rewrite C.
Qed.


(** X23. [CreatePullRequest] opens a pull request from the active branch
    into the base branch, and none when the two are the same.  Its title
    is the first line of the query and its body runs from the third line
    on: the second line is dropped whatever it holds, so a query of one
    or two lines gives an empty body. *)
Theorem CreatePullRequest_drops_the_second_line (prQuery : string)
    (d : Desk World) :
  let w := self (session d) in
  let opened title body :=
    let newPR := {| NewTitle := title; NewBody := body;
                    Head := activeBranch w; Base := githubBaseBranch w |} in
    let answer := PullRequestsCreate services (remote (session d))
                    (owner w) (repoName w) newPR in
    CreatePullRequest services prQuery d
    = ((match fst answer with
        | Ok pr => "Successfully created PR number " ++ Itoa (PullNumber pr)
        | Err e => "Unable to make pull request due to error:" ++ LF ++ e
        end, None),
       {| session := {| self := w; remote := snd answer;
                        calls := calls (session d) |};
          served := (served d
                     ++ [CreatePull (owner w) (repoName w) newPR
                           (errorOf (fst answer))])%list |}) in
  (githubBaseBranch w = activeBranch w ->
   CreatePullRequest services prQuery d
   = (("Cannot make a pull request because commits are already in the main or master branch.",
       None), d))
  /\ (githubBaseBranch w <> activeBranch w ->
      forall title second : string,
        ~ Occurs LF title -> ~ Occurs LF second ->
        (forall body, prQuery = title ++ LF ++ second ++ LF ++ body ->
                      opened title body)
        /\ (prQuery = title ++ LF ++ second -> opened title "")
        /\ (prQuery = title -> opened title "")).
Proof.
  cbv zeta. split.
  - intros E. apply String.eqb_eq in E.
    unfold CreatePullRequest, andThen, receiver. now rewrite E.
  - intros NE title second Nt Ns. apply String.eqb_neq in NE.
    assert (Post : forall rest body,
              Split prQuery LF = title :: rest ->
              match rest with
              | _ :: third :: more => Join (third :: more) LF
              | _ => ""
              end = body ->
              let newPR := {| NewTitle := title; NewBody := body;
                              Head := activeBranch (self (session d));
                              Base := githubBaseBranch (self (session d)) |} in
              let answer := PullRequestsCreate services (remote (session d))
                              (owner (self (session d)))
                              (repoName (self (session d))) newPR in
              CreatePullRequest services prQuery d
              = ((match fst answer with
                  | Ok pr => "Successfully created PR number "
                             ++ Itoa (PullNumber pr)
                  | Err e => "Unable to make pull request due to error:"
                             ++ LF ++ e
                  end, None),
                 {| session := {| self := self (session d); remote := snd answer;
                                  calls := calls (session d) |};
                    served := (served d
                               ++ [CreatePull (owner (self (session d)))
                                     (repoName (self (session d))) newPR
                                     (errorOf (fst answer))])%list |})).
    { intros rest body Sp B. cbv zeta.
      unfold CreatePullRequest, andThen, receiver, telling, pure.
      rewrite NE, Sp. cbv zeta. rewrite B.
      destruct (PullRequestsCreate _ _ _ _ _) as [[pr|e] world]; reflexivity. }
    split; [|split].
    + intros body ->. apply (Post (second :: Split body LF)).
      * now rewrite (payload_lines _ _ Nt), (payload_lines _ _ Ns).
      * pose proof (payload_content body) as J.
        destruct (Split body LF) as [|x more] eqn:Sb; [|exact J].
        rewrite (Split_as_loop body LF ltac:(discriminate)) in Sb.
        now apply splitLoop_nonempty in Sb.
    + intros ->. apply (Post [second]); [|reflexivity].
      rewrite (payload_lines _ _ Nt).
      now rewrite (Split_absent LF second ltac:(discriminate) Ns).
    + intros ->. apply (Post []); [|reflexivity].
      now rewrite (Split_absent LF title ltac:(discriminate) Nt).
Qed.


(** *** The errors of [Run] *)

Lemma plainly_nil (text : string) : failsPlainly (@pure World _ (text, None)).
Proof. intros d e. discriminate. Qed.

Lemma plainly_failed (what : string) :
  failsPlainly (@pure World _ ("", Some ("failed to " ++ what))).
Proof. intros d e [= <-]. split; [reflexivity|]. now exists what. Qed.

Lemma plainly_andThen {A : Type} (m : D World A)
    (k : A -> D World (string * option string)) :
  (forall a, failsPlainly (k a)) -> failsPlainly (andThen m k).
Proof. intros H d. unfold andThen. destruct (m d) as [a d']. apply H. Qed.

Lemma plainly_lift (m : Session World -> (string * option string) * Session World) :
  (forall s e, snd (fst (m s)) = Some e ->
               fst (fst (m s)) = "" /\ exists what, e = "failed to " ++ what) ->
  failsPlainly (lift m).
Proof.
  intros H d. unfold lift. specialize (H (session d)).
  now destruct (m (session d)).
Qed.

Lemma plainly_SetActiveBranch (branchName : string) (s : Session World) (e : string) :
  snd (fst (SetActiveBranch branchName s)) = Some e ->
  fst (fst (SetActiveBranch branchName s)) = ""
  /\ exists what, e = "failed to " ++ what.
Proof.
  run_method. destruct (RepositoriesListBranches _ _ _ _) as [branches|e'].
  - rewrite branch_scan. cbn [app orb].
    destruct (existsb _ branches); discriminate.
  - intros [= <-]. split; [reflexivity|]. eexists. reflexivity.
Qed.

Lemma plainly_CreateBranch (proposed : string) (s : Session World) (e : string) :
  snd (fst (CreateBranch proposed s)) = Some e ->
  fst (fst (CreateBranch proposed s)) = ""
  /\ exists what, e = "failed to " ++ what.
Proof.
  unfold CreateBranch, bind, this, reading. cbn [self remote calls].
  destruct (GitGetRef _ _ _ _ _) as [base|e'].
  - match goal with
    | |- context [createLoop 1000 0 _ _ ?sha ?s'] =>
      destruct (createLoop_run proposed sha 1000 0 s') as (errs & _ & _ & _ & E);
      cbn [candidate Z.of_nat self] in E;
      destruct (createLoop 1000 0 proposed proposed sha s') as [out s'']
    end.
    cbn [fst snd] in *.
    destruct (rev errs) as [|[e1|] r].
    + destruct E as (_ & -> & _). discriminate.
    + destruct E as (_ & E). destruct (Contains e1 _).
      * destruct E as (_ & ->). discriminate.
      * rewrite E. intros [= <-]. split; [reflexivity|]. eexists. reflexivity.
    + destruct E as (-> & _). discriminate.
  - intros [= <-]. split; [reflexivity|]. eexists. reflexivity.
Qed.

Ltac plainly_step :=
  first
    [ apply plainly_nil
    | apply plainly_failed
    | apply plainly_andThen; intros ?
    | apply plainly_lift; intros ? ?;
      first [ apply plainly_SetActiveBranch | apply plainly_CreateBranch ]
    | match goal with
      | |- failsPlainly (match ?x with _ => _ end) => destruct x
      | |- failsPlainly (if ?x then _ else _) => destruct x
      | |- failsPlainly (let _ := _ in _) => cbv zeta
      end ].

Lemma hard_returned (m : D World (string * option string)) (d : Desk World)
    (text e : string) :
  failsPlainly m ->
  fst (returned m d) = Some (Returns (text, Some e)) ->
  text = "" /\ exists what, e = "failed to " ++ what.
Proof.
  intros H. unfold returned, andThen, pure. specialize (H d e).
  destruct (m d) as [[t o] d']. cbn [fst snd] in *.
  intros [= -> ->]. now apply H.
Qed.


Ltac split_mode H :=
  match type of H with
  | context [if String.eqb ?mode ?m then _ else _] =>
    let E := fresh "E" in
    destruct (String.eqb mode m) eqn:E;
    [apply String.eqb_eq in E; subst mode|]
  end.

Ltac soft_case H :=
  exfalso; apply soft_returned in H;
  [discriminate H | unfold_methods; repeat nil_step].

Ltac hard_case H :=
  apply hard_returned in H;
  [ destruct H as (-> & W); split; [reflexivity|];
    right; right; right; split; [cbn; tauto | exact W]
  | unfold_methods; repeat plainly_step ].

(** X25. The errors of [Run] are of three kinds, and come with an empty
    text: the invalid-mode error, for a mode without a case and for no
    other; the invalid-number error of [get_issue] and
    [get_pull_request], for a query that is no integer; and the errors
    of the eight hard modes, which all begin with [failed to]. *)
Theorem Run_errors_are_of_three_kinds (fuel : nat) (mode query : string)
    (d : Desk World) (text e : string) :
  fst (Run services jsonString fuel mode query d)
  = Some (Returns (text, Some e)) ->
  text = ""
  /\ ((~ In mode modes /\ e = "invalid mode: " ++ mode)
      \/ (mode = "get_issue" /\ Atoi query = None
          /\ e = "invalid issue number: " ++ query)
      \/ (mode = "get_pull_request" /\ Atoi query = None
          /\ e = "invalid PR number: " ++ query)
      \/ (In mode hardModes /\ exists what, e = "failed to " ++ what)).
Proof.
  intros H. unfold Run in H.
  split_mode H.
  { destruct (Atoi query) eqn:A.
    - unfold GetIssue, andThen, receiver, asking, pure in H.
      cbn [session served fst snd] in H.
      destruct (IssuesGet _ _ _ _ _);
        [destruct (IssuesListComments _ _ _ _ _ _)|];
        cbn [fst] in H; try discriminate H; injection H as <- <-;
        (split; [reflexivity|]); right; right; right;
        (split; [cbn; tauto|]); eexists; reflexivity.
    - injection H as <- <-. split; [reflexivity|]. right. left. repeat split. }
  split_mode H.
  { destruct (Atoi query) eqn:A.
    - unfold GetPullRequest, andThen, receiver, asking, pure in H.
      cbn [session served fst snd] in H.
      destruct (PullRequestsGet _ _ _ _ _);
        cbn [fst] in H; try discriminate H; injection H as <- <-.
      split; [reflexivity|]. right; right; right.
      split; [cbn; tauto|]. eexists; reflexivity.
    - injection H as <- <-. split; [reflexivity|]. right. right. left.
      repeat split. }
  split_mode H; [hard_case H|].
  split_mode H; [soft_case H|].
  split_mode H; [soft_case H|].
  split_mode H; [soft_case H|].
  split_mode H; [soft_case H|].
  split_mode H.
  { exfalso. unfold andThen, lift, pure in H.
    destruct (UpdateFile query (session d)) as [out s'] eqn:U.
    cbn [fst] in H. injection H as ->.
    pose proof (nil_UpdateFile query (session d) (text, Some e)) as N.
    rewrite U in N. discriminate (N eq_refl). }
  split_mode H; [soft_case H|].
  split_mode H; [hard_case H|].
  split_mode H.
  { unfold bounded, ListFilesInMainBranch, andThen, receiver, pure in H.
    destruct (listFiles _ _ _ _ _) as [[[[|f files]|e']|] d'];
      cbn [fst option_map] in H; try discriminate H.
    injection H as <- <-. split; [reflexivity|]. right; right; right.
    split; [cbn; tauto|]. eexists; reflexivity. }
  split_mode H.
  { exfalso. unfold bounded, ListFilesInBotBranch, andThen, receiver, pure in H.
    destruct (listFiles _ _ _ _ _) as [[[[|f files]|e']|] d'];
      cbn [fst option_map] in H; discriminate H. }
  split_mode H; [hard_case H|].
  split_mode H; [hard_case H|].
  split_mode H; [hard_case H|].
  split_mode H.
  { exfalso. unfold bounded, GetFilesFromDirectory, andThen, receiver, pure in H.
    destruct (listFiles _ _ _ _ _) as [[[files|e']|] d'];
      cbn [fst option_map] in H; discriminate H. }
  split_mode H; [soft_case H|].
  split_mode H; [soft_case H|].
  split_mode H; [soft_case H|].
  split_mode H; [soft_case H|].
  split_mode H; [soft_case H|].
  injection H as <- <-. split; [reflexivity|]. left. split; [|reflexivity].
  intros I. cbn [modes In] in I.
  repeat (destruct I as [<-|I];
          [match goal with
           | E : String.eqb ?a ?a = false |- _ =>
             rewrite String.eqb_refl in E; discriminate E
           end|]).
  exact I.
Qed.

End Effects.

Lemma Run_rejects_unknown_modes_witness :
  Run Demo.toyServices Demo.quoted 0 "merge_pull_request" "8" (Demo.deskOn "fix")
  = (Some (Returns ("", Some "invalid mode: merge_pull_request")), Demo.deskOn "fix").
Proof.
  apply (Run_rejects_unknown_modes Demo.toyServices Demo.quoted 0
           "merge_pull_request" "8" (Demo.deskOn "fix")).
  cbn [modes In]. intros I.
  repeat (destruct I as [I|I]; [discriminate I|]). exact I.
Defined.


Lemma Run_writes_in_writing_modes_only_witness :
  remote (session (snd (Run Demo.toyServices Demo.quoted 2 "search_code" "crash"
                          (Demo.deskOn "fix")))) = Demo.toy
  /\ filter isWrite (calls (session (snd (Run Demo.toyServices Demo.quoted 2
                                            "search_code" "crash"
                                            (Demo.deskOn "fix"))))) = []
  /\ filter isServiceWrite (served (snd (Run Demo.toyServices Demo.quoted 2
                                           "search_code" "crash"
                                           (Demo.deskOn "fix")))) = [].
Proof.
  apply (Run_writes_in_writing_modes_only Demo.toyServices Demo.quoted 2
           "search_code" "crash").
  cbn [writeModes In]. intros I.
  repeat (destruct I as [I|I]; [discriminate I|]). exact I.
Defined.

Lemma Run_errors_are_of_three_kinds_witness :
  "" = ""
  /\ ((~ In "get_issue" modes /\ "invalid issue number: seven" = "invalid mode: get_issue")
      \/ ("get_issue" = "get_issue" /\ Atoi "seven" = None
          /\ "invalid issue number: seven" = "invalid issue number: seven")
      \/ ("get_issue" = "get_pull_request" /\ Atoi "seven" = None
          /\ "invalid issue number: seven" = "invalid PR number: seven")
      \/ (In "get_issue" hardModes
          /\ exists what, "invalid issue number: seven" = "failed to " ++ what)).
Proof.
  apply (Run_errors_are_of_three_kinds Demo.toyServices Demo.quoted 0
           "get_issue" "seven" (Demo.deskOn "fix") "" "invalid issue number: seven").
  reflexivity.
Defined.

End RunFacts.
Module FileLoaderFacts.

Import utf8 strings documentloaders StringFacts.

Section Files.

Variable fetch : Request -> FileExchange.
Variable decodeString : string -> result string.

Lemma loadFiles_run (l : GitHubFileLoader) (files : list Object) :
  forall docs sent,
    if existsb brokenEntry files
    then fst (loadFiles fetch decodeString l files docs sent)
         = Panics "interface conversion: interface {} is not string"
    else loadFiles fetch decodeString l files docs sent
         = (Returns (docs ++ flat_map (documentsOf fetch decodeString l) files)%list,
            (sent ++ flat_map (requestsOf fetch decodeString l) files)%list).
Proof.
  induction files as [|file rest IH]; intros docs sent.
  - cbn. now rewrite !app_nil_r.
  - cbn [existsb flat_map loadFiles].
    unfold brokenEntry at 1, documentsOf at 1, requestsOf at 1, wantedPath.
    destruct (isBlob file); cbn [negb andb orb]; [|cbn [app]; apply IH].
    destruct (lookup file "path") as [[| | |path| |]|]; try reflexivity.
    cbn [orb]. destruct (filteredOut l path); [cbn [app]; apply IH|].
    destruct (getFileContent fetch decodeString l path) as [[content|e] asked];
      cbn [fst snd]; [destruct (String.eqb content "")|];
      match goal with
      | |- context [loadFiles _ _ _ _ ?d ?s] => specialize (IH d s)
      end;
      (destruct (existsb brokenEntry rest); [exact IH|]);
      rewrite IH; cbn [app]; rewrite <- ?app_assoc; reflexivity.
Qed.

(** X26. [Load] of the file loader fails with the error of the tree
    request and with no other: a file that cannot be fetched or decoded
    is left out.  It panics exactly when the tree holds a blob entry
    whose path is no string, and otherwise returns the documents of the
    wanted entries in the order of the tree, after the tree request and
    the content requests of those entries. *)
Theorem FileLoad_gives_the_wanted_blobs (l : GitHubFileLoader) :
  match fst (getFilePaths fetch l) with
  | Err e =>
    FileLoad fetch decodeString l = (Returns (Err e), snd (getFilePaths fetch l))
  | Ok files =>
    if existsb brokenEntry files
    then fst (FileLoad fetch decodeString l)
         = Panics "interface conversion: interface {} is not string"
    else FileLoad fetch decodeString l
         = (Returns (Ok (flat_map (documentsOf fetch decodeString l) files)),
            (snd (getFilePaths fetch l)
             ++ flat_map (requestsOf fetch decodeString l) files)%list)
  end.
Proof.
  unfold FileLoad. destruct (getFilePaths fetch l) as [[files|e] sent];
    cbn [fst snd]; [|reflexivity].
  pose proof (loadFiles_run l files [] sent) as R.
  destruct (existsb brokenEntry files).
  - destruct (loadFiles _ _ _ _ _ _) as [[docs|msg] sent']; cbn [fst] in *;
      [discriminate R|now injection R as ->].
  - now rewrite R.
Qed.

Lemma FileLoad_success (l : GitHubFileLoader) (docs : list FileDocument) :
  fst (FileLoad fetch decodeString l) = Returns (Ok docs) ->
  exists files,
    fst (getFilePaths fetch l) = Ok files
    /\ docs = flat_map (documentsOf fetch decodeString l) files.
Proof.
  unfold FileLoad. destruct (getFilePaths fetch l) as [[files|e] sent];
    cbn [fst snd]; [|discriminate].
  pose proof (loadFiles_run l files [] sent) as R.
  destruct (existsb brokenEntry files).
  - destruct (loadFiles _ _ _ _ _ _) as [[out|msg] sent']; cbn [fst] in *;
      discriminate.
  - rewrite R. cbn [fst app]. intros [= <-]. now exists files.
Qed.

(** X27. Every document the file loader returns has a content that is
    not empty, decoded from what the contents endpoint gave for the path
    of a blob entry of the tree that the filter lets through; its
    metadata are the path, the hash of the entry and the source built
    from them. *)
Theorem FileLoad_documents_are_filled (l : GitHubFileLoader)
    (docs : list FileDocument) :
  fst (FileLoad fetch decodeString l) = Returns (Ok docs) ->
  exists files,
    fst (getFilePaths fetch l) = Ok files
    /\ Forall (fun doc =>
                 FilePageContent doc <> ""
                 /\ exists file path,
                      In file files /\ isBlob file = true
                      /\ lookup file "path" = Some (JString path)
                      /\ filteredOut l path = false
                      /\ fst (getFileContent fetch decodeString l path)
                         = Ok (FilePageContent doc)
                      /\ doc = fileDocument l file path (FilePageContent doc))
              docs.
Proof.
  intros Loaded. destruct (FileLoad_success l docs Loaded) as (files & Paths & ->).
  exists files. split; [exact Paths|].
  apply Forall_forall. intros doc I. apply in_flat_map in I.
  destruct I as (file & If & Id). unfold documentsOf, wantedPath in Id.
  destruct (isBlob file) eqn:B; [|destruct Id].
  destruct (lookup file "path") as [[| | |path| |]|] eqn:P; try destruct Id.
  destruct (filteredOut l path) eqn:F; [destruct Id|].
  destruct (fst (getFileContent fetch decodeString l path)) as [content|e] eqn:G;
    [|destruct Id].
  destruct (String.eqb_spec content "") as [E|NE]; [destruct Id|].
  destruct Id as [<-|[]]. cbn [FilePageContent fileDocument].
  split; [exact NE|]. exists file, path. repeat split; assumption.
Qed.

Lemma getFileContent_asks (l : GitHubFileLoader) (path : string) :
  Forall (fun r => Authorization r = "Bearer " ++ FileAccessToken l
                   /\ Accept r = "application/vnd.github+json")
         (snd (getFileContent fetch decodeString l path)).
Proof.
  unfold getFileContent. cbv zeta.
  destruct (fetch _) as [e|e|code status body]; cbn [snd];
    [constructor|repeat constructor|].
  destruct (negb _); [repeat constructor|].
  destruct body as [result|e]; [|repeat constructor].
  destruct (lookup result "content") as [[| | |enc| |]|];
    try (repeat constructor).
  destruct (decodeString _); repeat constructor.
Qed.

Lemma loadFiles_asks (l : GitHubFileLoader) (files : list Object) :
  forall docs sent,
    Forall (fun r => Authorization r = "Bearer " ++ FileAccessToken l
                     /\ Accept r = "application/vnd.github+json") sent ->
    Forall (fun r => Authorization r = "Bearer " ++ FileAccessToken l
                     /\ Accept r = "application/vnd.github+json")
           (snd (loadFiles fetch decodeString l files docs sent)).
Proof.
  induction files as [|file rest IH]; intros docs sent S; [exact S|].
  cbn [loadFiles]. destruct (negb (isBlob file)); [now apply IH|].
  destruct (lookup file "path") as [[| | |path| |]|]; try exact S.
  destruct (filteredOut l path); [now apply IH|].
  pose proof (getFileContent_asks l path) as A.
  destruct (getFileContent fetch decodeString l path) as [[content|e] asked];
    cbn [snd] in A; [destruct (String.eqb content "")|];
    apply IH; apply Forall_app; now split.
Qed.

(** X28. Every request of the file loader asks for GitHub's JSON and
    carries the access token of the loader as a bearer token. *)
Theorem FileLoad_requests_carry_the_token (l : GitHubFileLoader) :
  Forall (fun r => Authorization r = "Bearer " ++ FileAccessToken l
                   /\ Accept r = "application/vnd.github+json")
         (snd (FileLoad fetch decodeString l)).
Proof.
  unfold FileLoad.
  assert (T : Forall (fun r => Authorization r = "Bearer " ++ FileAccessToken l
                               /\ Accept r = "application/vnd.github+json")
                     (snd (getFilePaths fetch l))).
  { unfold getFilePaths. cbv zeta.
    destruct (fetch _) as [e|e|code status body]; cbn [snd];
      [constructor|repeat constructor|].
    destruct (negb _); [repeat constructor|].
    destruct body as [result|e]; [|repeat constructor].
    destruct (lookup result "tree") as [[| | | |tree|]|]; repeat constructor. }
  destruct (getFilePaths fetch l) as [[files|e] sent]; cbn [snd] in *; [|exact T].
  pose proof (loadFiles_asks l files [] sent T) as A.
  destruct (loadFiles _ _ _ _ _ _) as [[docs|msg] sent']; exact A.
Qed.

End Files.

Lemma FileLoad_documents_are_filled_witness :
  fst (FileLoad Demo.treeServer Demo.decodeServed Demo.fileLoader)
  = Returns (Ok [fileDocument Demo.fileLoader
                   [("path", JString "notes.txt"); ("type", JString "blob");
                    ("sha", JString "3b18e5")] "notes.txt" "hello world"])
  /\ exists files,
       fst (getFilePaths Demo.treeServer Demo.fileLoader) = Ok files
       /\ Forall (fun doc =>
                    FilePageContent doc <> ""
                    /\ exists file path,
                         In file files /\ isBlob file = true
                         /\ lookup file "path" = Some (JString path)
                         /\ filteredOut Demo.fileLoader path = false
                         /\ fst (getFileContent Demo.treeServer Demo.decodeServed
                                   Demo.fileLoader path)
                            = Ok (FilePageContent doc)
                         /\ doc = fileDocument Demo.fileLoader file path
                                    (FilePageContent doc))
                 [fileDocument Demo.fileLoader
                    [("path", JString "notes.txt"); ("type", JString "blob");
                     ("sha", JString "3b18e5")] "notes.txt" "hello world"].
Proof.
  split; [reflexivity|].
  apply (FileLoad_documents_are_filled Demo.treeServer Demo.decodeServed
           Demo.fileLoader). reflexivity.
Defined.

End FileLoaderFacts.
Module URLFacts.

Import utf8 strings strconv documentloaders StringFacts MoreStringFacts.

Lemma In_insertSorted (kv x : string * string) (l : url.Values) :
  In kv (url.insertSorted x l) <-> kv = x \/ In kv l.
Proof.
  induction l as [|y l IH]; cbn [url.insertSorted In].
  - split; [intros [<-|[]]; now left | intros [->|[]]; now left].
  - destruct (String.ltb (fst x) (fst y)); cbn [In].
    + split; [intros [<-|H]; [now left|now right] | intros [->|H]; [now left|now right]].
    + rewrite IH. split.
      * intros [<-|[->|H]]; [right; now left | now left | right; now right].
      * intros [->|[<-|H]]; [right; now left | now left | right; now right].
Qed.

Lemma In_sorted (kv : string * string) (v : url.Values) :
  forall acc, In kv (fold_left (fun acc kv => url.insertSorted kv acc) v acc)
              <-> In kv v \/ In kv acc.
Proof.
  induction v as [|x v IH]; intros acc; cbn [fold_left In].
  - split; [now right | now intros [[]|H]].
  - rewrite IH, In_insertSorted. split.
    + intros [H|[->|H]]; [left; now right | left; now left | now right].
    + intros [[<-|H]|H]; [right; now left | now left | right; now right].
Qed.

Lemma In_sortByKey (kv : string * string) (v : url.Values) :
  In kv (url.sortByKey v) <-> In kv v.
Proof.
  unfold url.sortByKey. rewrite In_sorted. split; [now intros [H|[]] | now left].
Qed.

Lemma Occurs_concat (sep x : string) (l : list string) :
  In x l -> Occurs x (String.concat sep l).
Proof.
  induction l as [|y l IH]; [intros []|].
  intros [->|I].
  - destruct l as [|z l]; [apply Occurs_refl|].
    change (String.concat sep (x :: z :: l))
      with (x ++ sep ++ String.concat sep (z :: l)).
    now exists "", (sep ++ String.concat sep (z :: l)).
  - specialize (IH I). destruct l as [|z l]; [destruct I|].
    change (String.concat sep (y :: z :: l))
      with (y ++ sep ++ String.concat sep (z :: l)).
    destruct IH as (a & b & E).
    exists (y ++ sep ++ a), b. rewrite E. now rewrite !append_assoc.
Qed.

Lemma Occurs_Encode (key value : string) (v : url.Values) :
  In (key, value) v ->
  Occurs (url.QueryEscape key ++ "=" ++ url.QueryEscape value) (url.Encode v).
Proof.
  intros I. unfold url.Encode. apply Occurs_concat.
  apply in_map_iff. exists (key, value). split; [reflexivity|].
  now apply In_sortByKey.
Qed.

Lemma in_Add_new (v : url.Values) (key value : string) :
  In (key, value) (url.Add v key value).
Proof. unfold url.Add. apply in_or_app. right. now left. Qed.

Lemma in_Add_keep (v : url.Values) (kv : string * string) (key value : string) :
  In kv v -> In kv (url.Add v key value).
Proof. intros I. unfold url.Add. apply in_or_app. now left. Qed.

Lemma buildURL_has (l : GitHubIssuesLoader) (key value : string) (v : url.Values) :
  In (key, value) v ->
  url.QueryEscape key = key ->
  Occurs (key ++ "=" ++ url.QueryEscape value)
         (match v with
          | [] => GitHubAPIURL l ++ "/repos/" ++ Repo l ++ "/issues"
          | _ => (GitHubAPIURL l ++ "/repos/" ++ Repo l ++ "/issues") ++ "?"
                 ++ url.Encode v
          end).
Proof.
  intros I K. pose proof (Occurs_Encode key value v I) as O. rewrite K in O.
  destruct v as [|x v]; [destruct I|].
  destruct O as (a & b & E). rewrite E.
  exists ((GitHubAPIURL l ++ "/repos/" ++ Repo l ++ "/issues") ++ "?" ++ a), b.
  now rewrite !append_assoc.
Qed.

(** The parameters [buildURL] collects, with the URL they give. *)
Lemma buildURL_params (l : GitHubIssuesLoader) :
  exists params : url.Values,
    buildURL l
    = match params with
      | [] => GitHubAPIURL l ++ "/repos/" ++ Repo l ++ "/issues"
      | _ => (GitHubAPIURL l ++ "/repos/" ++ Repo l ++ "/issues")
             ++ "?" ++ url.Encode params
      end
    /\ (forall m, Milestone l = Some m -> In ("milestone", m) params)
    /\ (State l <> "" -> In ("state", State l) params)
    /\ (Assignee l <> "" -> In ("assignee", Assignee l) params)
    /\ (Creator l <> "" -> In ("creator", Creator l) params)
    /\ (Mentioned l <> "" -> In ("mentioned", Mentioned l) params)
    /\ (Labels l <> [] -> In ("labels", Join (Labels l) ",") params)
    /\ (Sort l <> "" -> In ("sort", Sort l) params)
    /\ (Direction l <> "" -> In ("direction", Direction l) params)
    /\ (Since l <> "" -> In ("since", Since l) params)
    /\ (forall p, Page l = Some p -> In ("page", Itoa p) params)
    /\ (forall p, PerPage l = Some p -> In ("per_page", Itoa p) params).
Proof.
  pose (unless := fun (skip : bool) (key value : string) (v : url.Values) =>
                    if skip then v else url.Add v key value).
  pose (whenText := fun (o : option string) (key : string) (v : url.Values) =>
                      match o with
                      | Some x => url.Add v key x
                      | None => v
                      end).
  pose (whenNumber := fun (o : option Z) (key : string) (v : url.Values) =>
                        match o with
                        | Some p => url.Add v key (Itoa p)
                        | None => v
                        end).
  pose (whenAny := fun (labels : list string) (key : string) (v : url.Values) =>
                     match labels with
                     | [] => v
                     | _ :: _ => url.Add v key (Join labels ",")
                     end).
  pose (params :=
          whenNumber (PerPage l) "per_page"
            (whenNumber (Page l) "page"
               (unless (String.eqb (Since l) "") "since" (Since l)
                  (unless (String.eqb (Direction l) "") "direction" (Direction l)
                     (unless (String.eqb (Sort l) "") "sort" (Sort l)
                        (whenAny (Labels l) "labels"
                           (unless (String.eqb (Mentioned l) "") "mentioned"
                              (Mentioned l)
                              (unless (String.eqb (Creator l) "") "creator"
                                 (Creator l)
                                 (unless (String.eqb (Assignee l) "") "assignee"
                                    (Assignee l)
                                    (unless (String.eqb (State l) "") "state"
                                       (State l)
                                       (whenText (Milestone l) "milestone"
                                                 []))))))))))).
  assert (U : forall skip key value v kv, In kv v -> In kv (unless skip key value v))
    by (intros [] key value v kv I; [exact I | now apply in_Add_keep]).
  assert (T : forall o key v kv, In kv v -> In kv (whenText o key v))
    by (intros [x|] key v kv I; [now apply in_Add_keep | exact I]).
  assert (N : forall o key v kv, In kv v -> In kv (whenNumber o key v))
    by (intros [x|] key v kv I; [now apply in_Add_keep | exact I]).
  assert (A : forall labels key v kv, In kv v -> In kv (whenAny labels key v))
    by (intros [|x labels] key v kv I; [exact I | now apply in_Add_keep]).
  assert (U1 : forall s key v, s <> "" -> In (key, s) (unless (String.eqb s "") key s v))
    by (intros s key v NE; unfold unless; rewrite (eqb_empty_false _ NE);
        apply in_Add_new).
  assert (T1 : forall x key v, In (key, x) (whenText (Some x) key v))
    by (intros; apply in_Add_new).
  assert (N1 : forall p key v, In (key, Itoa p) (whenNumber (Some p) key v))
    by (intros; apply in_Add_new).
  assert (A1 : forall x labels key v,
             In (key, Join (x :: labels) ",") (whenAny (x :: labels) key v))
    by (intros; apply in_Add_new).
  exists params. split; [reflexivity|].
  repeat match goal with |- _ /\ _ => split end;
    intros; subst params;
    try match goal with
        | H : _ = Some _ |- _ => rewrite H
        | H : Labels l <> [] |- _ =>
          destruct (Labels l) as [|x labels]; [congruence|]
        end;
    repeat first [ apply U1; assumption | apply T1 | apply N1 | apply A1
                 | apply U | apply T | apply N | apply A ].
Qed.

(** X29. Every filter that is set on the loader is in the URL of
    [buildURL], as its key, an equals sign and the query-escaped value:
    the labels joined by commas, the page numbers in decimal. *)
Theorem buildURL_carries_every_filter (l : GitHubIssuesLoader) :
  let has key value :=
    Occurs (key ++ "=" ++ url.QueryEscape value) (buildURL l) in
  (forall m, Milestone l = Some m -> has "milestone" m)
  /\ (State l <> "" -> has "state" (State l))
  /\ (Assignee l <> "" -> has "assignee" (Assignee l))
  /\ (Creator l <> "" -> has "creator" (Creator l))
  /\ (Mentioned l <> "" -> has "mentioned" (Mentioned l))
  /\ (Labels l <> [] -> has "labels" (Join (Labels l) ","))
  /\ (Sort l <> "" -> has "sort" (Sort l))
  /\ (Direction l <> "" -> has "direction" (Direction l))
  /\ (Since l <> "" -> has "since" (Since l))
  /\ (forall p, Page l = Some p -> has "page" (Itoa p))
  /\ (forall p, PerPage l = Some p -> has "per_page" (Itoa p)).
Proof.
  cbv zeta.
  destruct (buildURL_params l)
    as (params & -> & M & S & A & C & Me & L & So & D & Si & P & PP).
  repeat match goal with |- _ /\ _ => split end;
    intros; apply buildURL_has; try reflexivity; auto.
Qed.

(** *** Escaping *)

Lemma upperhex_unreserved (c : ascii) :
  url.unreserved (url.upperhex (N.shiftr (N_of_ascii c) 4)) = true
  /\ url.unreserved (url.upperhex (N.land (N_of_ascii c) 15)) = true.
Proof. destruct c as [[] [] [] [] [] [] [] []]; split; reflexivity. Qed.

Lemma QueryEscape_bytes (s : string) :
  Forall (fun c => url.unreserved c = true \/ c = "%"%char \/ c = "+"%char)
         (list_ascii_of_string (url.QueryEscape s)).
Proof.
  induction s as [|c s IH]; cbn [url.QueryEscape list_ascii_of_string];
    [constructor|].
  destruct (url.unreserved c) eqn:U; cbn [list_ascii_of_string].
  - constructor; [now left | exact IH].
  - destruct (N_of_ascii c =? 32)%N; cbn [list_ascii_of_string].
    + constructor; [right; now right | exact IH].
    + destruct (upperhex_unreserved c) as (H & L).
      constructor; [right; now left|].
      constructor; [now left|]. constructor; [now left | exact IH].
Qed.

Lemma bytes_append (a b : string) :
  list_ascii_of_string (a ++ b)
  = (list_ascii_of_string a ++ list_ascii_of_string b)%list.
Proof. induction a as [|c a IH]; cbn; [reflexivity | now rewrite IH]. Qed.

Lemma Encode_bytes (v : url.Values) :
  Forall (fun c => url.unreserved c = true \/ inBytes "%+=&" c = true)
         (list_ascii_of_string (url.Encode v)).
Proof.
  assert (E : forall s,
             Forall (fun c => url.unreserved c = true \/ inBytes "%+=&" c = true)
                    (list_ascii_of_string (url.QueryEscape s))).
  { intros s. eapply Forall_impl; [|apply QueryEscape_bytes].
    intros c [U|[->| ->]]; [now left | now right | now right]. }
  unfold url.Encode. induction (url.sortByKey v) as [|kv rest IH];
    [constructor|].
  assert (One : Forall (fun c => url.unreserved c = true \/ inBytes "%+=&" c = true)
                       (list_ascii_of_string
                          (url.QueryEscape (fst kv) ++ "=" ++ url.QueryEscape (snd kv)))).
  { rewrite !bytes_append. apply Forall_app. split; [apply E|].
    apply Forall_app. split; [|apply E].
    constructor; [now right | constructor]. }
  cbn [map]. destruct rest as [|kv' rest]; [exact One|].
  change (String.concat "&" (?x :: map ?f (kv' :: rest)))
    with (x ++ "&" ++ String.concat "&" (map f (kv' :: rest))).
  rewrite bytes_append. apply Forall_app. split; [exact One|].
  rewrite bytes_append. apply Forall_app. split; [|exact IH].
  constructor; [now right | constructor].
Qed.


End URLFacts.
